(** * ARIA runtime: session FSM, circuit breaker, model router, sandbox,
      hash-chained audit store and session kernel.

    A shallow embedding of the Python sources under [aria/] and the
    properties of the specification proved (or refuted) on it.

    Conventions of the embedding.
    - A Python object with mutable attributes is a record; a method that
      mutates [self] is a function from the record to a result and the
      updated record.
    - [raise] is the [Raise] constructor of [result]; the exception carries
      its class (so that [except] clauses dispatch on [isinstance]) and the
      arguments it was built from.
    - Reads of the outside world (clock, random numbers, file system, child
      process, provider) are explicit arguments. *)

From Stdlib Require Import ZArith String Ascii List Bool Lia Floats DecimalString.
From stdpp Require Import base decidable option list gmap strings.
Import ListNotations.

Set Warnings "-register-all".

Local Open Scope Z_scope.
Local Open Scope string_scope.
Local Open Scope list_scope.

(* ===================================================================== *)
(** * Part I. The program                                                  *)
(* ===================================================================== *)

(** ** Python values *)

Module Py.

(** A JSON-like Python value: what [json.loads] returns, what tool
    arguments and schemas are made of. A [dict] keeps its insertion order. *)
Inductive json : Type :=
| JNone
| JBool (b : bool)
| JInt (z : Z)
| JFloat (f : float)
| JStr (s : string)
| JList (l : list json)
| JDict (d : list (string * json)).

Definition dict : Type := list (string * json).

(** [d.get(k)]: [None] of [option] when the key is absent. *)
Fixpoint dict_get (k : string) (d : dict) : option json :=
  match d with
  | [] => None
  | (k', v) :: d' => if bool_decide (k' = k) then Some v else dict_get k d'
  end.

(** [d.get(k, default)] *)
Definition dict_get_default (k : string) (default : json) (d : dict) : json :=
  match dict_get k d with
  | Some v => v
  | None => default
  end.

(** [k in d] *)
Definition dict_mem (k : string) (d : dict) : bool :=
  match dict_get k d with Some _ => true | None => false end.

(** [d.values()] *)
Definition dict_values (d : dict) : list json := map snd d.

(** Truth value of an object, as [if x] and [not x] and [x or y] test it. *)
Definition truthy (v : json) : bool :=
  match v with
  | JNone => false
  | JBool b => b
  | JInt z => negb (z =? 0)%Z
  | JFloat f => negb (f =? 0)%float
  | JStr s => negb (bool_decide (s = ""))
  | JList l => match l with [] => false | _ => true end
  | JDict d => match d with [] => false | _ => true end
  end.

(** [type(v).__name__] *)
Definition type_name (v : json) : string :=
  match v with
  | JNone => "NoneType"
  | JBool _ => "bool"
  | JInt _ => "int"
  | JFloat _ => "float"
  | JStr _ => "str"
  | JList _ => "list"
  | JDict _ => "dict"
  end.

(** [float(z)] for a Python [int]: the nearest binary64 value. *)
Definition float_of_Z (z : Z) : float :=
  SF2Prim (binary_normalize 53 1024 z 0 false).

(** [min(a, b)] on floats: [b] when [b < a], else [a]. *)
Definition min2 (a b : float) : float := if (b <? a)%float then b else a.

End Py.
Export Py.

(** ** aria/models/errors.py — the exception hierarchy *)

Module Errors.

(** One constructor per class of [errors.py], and the built-in classes the
    modelled code raises or lets through (each directly under [Exception]:
    no handler of the program names an intermediate built-in class). *)
Inductive ecls : Type :=
| BaseException | Exception
| ValueError | TypeError | AttributeError | KeyError | OSError
| RuntimeError | RecursionError | OverflowError | AssertionError
| ARIAError
| ValidationError | ToolInputValidationError | ToolOutputValidationError
| ModelOutputValidationError | ManifestValidationError
| SecurityError | PathTraversalError | PermissionDeniedError
| PromptInjectionWarning | UnknownToolError
| SecretNotFoundError | SecretInvalidError
| SandboxError | ToolTimeoutError | ToolSandboxError
| ProviderError | ModelProviderError | ModelRateLimitError
| ModelTimeoutError | ModelProviderExhaustedError | CircuitBreakerOpenError
| StateMachineError | InvalidStateTransitionError
| LimitError | StepLimitExceededError | CostBudgetExceededError
| StorageError | AuditWriteFailureError | MemoryCorruptionError
| ConfigError.

#[export] Instance ecls_eq_dec : EqDecision ecls.
Proof. solve_decision. Defined.

(** [class X(Y)]: the direct base class. *)
Definition base (c : ecls) : option ecls :=
  match c with
  | BaseException => None
  | Exception => Some BaseException
  | ValueError | TypeError | AttributeError | KeyError | OSError
  | RuntimeError | RecursionError | OverflowError | AssertionError =>
      Some Exception
  | ARIAError => Some Exception
  | ValidationError => Some ARIAError
  | ToolInputValidationError | ToolOutputValidationError
  | ModelOutputValidationError | ManifestValidationError =>
      Some ValidationError
  | SecurityError => Some ARIAError
  | PathTraversalError | PermissionDeniedError | UnknownToolError =>
      Some SecurityError
  | PromptInjectionWarning => Some ARIAError
  | SecretNotFoundError | SecretInvalidError => Some ARIAError
  | SandboxError => Some ARIAError
  | ToolTimeoutError | ToolSandboxError => Some SandboxError
  | ProviderError => Some ARIAError
  | ModelProviderError | ModelRateLimitError | ModelTimeoutError
  | ModelProviderExhaustedError | CircuitBreakerOpenError =>
      Some ProviderError
  | StateMachineError => Some ARIAError
  | InvalidStateTransitionError => Some StateMachineError
  | LimitError => Some ARIAError
  | StepLimitExceededError | CostBudgetExceededError => Some LimitError
  | StorageError => Some ARIAError
  | AuditWriteFailureError | MemoryCorruptionError => Some StorageError
  | ConfigError => Some ARIAError
  end.

Fixpoint issubclass_upto (n : nat) (c d : ecls) : bool :=
  if bool_decide (c = d) then true
  else match n with
       | O => false
       | S n' => match base c with
                 | Some p => issubclass_upto n' p d
                 | None => false
                 end
       end.

(** The hierarchy is at most five classes deep. *)
Definition issubclass : ecls -> ecls -> bool := issubclass_upto 5.

(** [type(exc).__name__] *)
Definition class_name (c : ecls) : string :=
  match c with
  | BaseException => "BaseException" | Exception => "Exception"
  | ValueError => "ValueError" | TypeError => "TypeError"
  | AttributeError => "AttributeError" | KeyError => "KeyError"
  | OSError => "OSError" | RuntimeError => "RuntimeError"
  | RecursionError => "RecursionError" | OverflowError => "OverflowError"
  | AssertionError => "AssertionError"
  | ARIAError => "ARIAError"
  | ValidationError => "ValidationError"
  | ToolInputValidationError => "ToolInputValidationError"
  | ToolOutputValidationError => "ToolOutputValidationError"
  | ModelOutputValidationError => "ModelOutputValidationError"
  | ManifestValidationError => "ManifestValidationError"
  | SecurityError => "SecurityError"
  | PathTraversalError => "PathTraversalError"
  | PermissionDeniedError => "PermissionDeniedError"
  | PromptInjectionWarning => "PromptInjectionWarning"
  | UnknownToolError => "UnknownToolError"
  | SecretNotFoundError => "SecretNotFoundError"
  | SecretInvalidError => "SecretInvalidError"
  | SandboxError => "SandboxError"
  | ToolTimeoutError => "ToolTimeoutError"
  | ToolSandboxError => "ToolSandboxError"
  | ProviderError => "ProviderError"
  | ModelProviderError => "ModelProviderError"
  | ModelRateLimitError => "ModelRateLimitError"
  | ModelTimeoutError => "ModelTimeoutError"
  | ModelProviderExhaustedError => "ModelProviderExhaustedError"
  | CircuitBreakerOpenError => "CircuitBreakerOpenError"
  | StateMachineError => "StateMachineError"
  | InvalidStateTransitionError => "InvalidStateTransitionError"
  | LimitError => "LimitError"
  | StepLimitExceededError => "StepLimitExceededError"
  | CostBudgetExceededError => "CostBudgetExceededError"
  | StorageError => "StorageError"
  | AuditWriteFailureError => "AuditWriteFailureError"
  | MemoryCorruptionError => "MemoryCorruptionError"
  | ConfigError => "ConfigError"
  end.

(** A string built at run time. An f-string is the literal template of the
    source and the values interpolated into it, kept apart (no [repr] is
    rendered); [MVal] is a value used where a string is expected. *)
Inductive message : Type :=
| Msg (template : string) (args : list message)
| MStr (s : string)
| MInt (z : Z)
| MSeq (l : list string)
| MVal (j : json).

(** An exception object: the classes with an [__init__] of their own keep
    the attributes it stores. *)
Inductive exn : Type :=
| Exn (c : ecls) (m : message)
| ModelProviderError_ (m : message) (status_code : option Z)
| ModelProviderExhaustedError_ (m : message) (attempts : Z)
| CircuitBreakerOpenError_ (provider : string)
| InvalidStateTransitionError_ (from_state to_state : string).

Definition type_of (e : exn) : ecls :=
  match e with
  | Exn c _ => c
  | ModelProviderError_ _ _ => ModelProviderError
  | ModelProviderExhaustedError_ _ _ => ModelProviderExhaustedError
  | CircuitBreakerOpenError_ _ => CircuitBreakerOpenError
  | InvalidStateTransitionError_ _ _ => InvalidStateTransitionError
  end.

(** [str(exc)] *)
Definition str_of (e : exn) : message :=
  match e with
  | Exn _ m => m
  | ModelProviderError_ m _ => m
  | ModelProviderExhaustedError_ m _ => m
  | CircuitBreakerOpenError_ p =>
      Msg "Circuit breaker OPEN for provider {provider!r}" [MStr p]
  | InvalidStateTransitionError_ f t =>
      Msg "Invalid FSM transition: {from_state} → {to_state}" [MStr f; MStr t]
  end.

Definition isinstance (e : exn) (c : ecls) : bool := issubclass (type_of e) c.

(** [except (C1, C2, ...)] *)
Definition isinstance_any (e : exn) (cs : list ecls) : bool :=
  existsb (isinstance e) cs.

(** The outcome of a call: a value, or a raised exception. *)
Inductive result (A : Type) : Type :=
| Ok (a : A)
| Raise (e : exn).
Arguments Ok {A} a.
Arguments Raise {A} e.

End Errors.
Export Errors.

(** ** Python operations on values that can raise *)

Module PyOps.

(** The two functions of the [json] module the program calls. They are
    library code: the program is modelled for any pair of them.
    [json_loads] gives the text of the [JSONDecodeError] or the value. *)
Record JsonLib : Type := mkJsonLib {
  json_dumps : json -> string;
  json_loads : string -> message + json
}.

Definition type_error (what : string) (v : json) : exn :=
  Exn TypeError (Msg what [MStr (type_name v)]).

Definition attribute_error (what : string) (v : json) : exn :=
  Exn AttributeError (Msg what [MStr (type_name v)]).

(** [for k in v] *)
Definition py_iter (v : json) : result (list json) :=
  match v with
  | JList l => Ok l
  | JDict d => Ok (map (fun kv => JStr (fst kv)) d)
  | JStr s => Ok (map (fun c => JStr (String c EmptyString)) (list_ascii_of_string s))
  | _ => Raise (type_error "{!r} object is not iterable" v)
  end.

(** [k in d] for a dict with string keys: an unhashable [k] raises. *)
Definition key_in_dict (k : json) (d : dict) : result bool :=
  match k with
  | JStr s => Ok (dict_mem s d)
  | JList _ | JDict _ => Raise (type_error "unhashable type: {!r}" k)
  | _ => Ok false
  end.

(** [pat in s] on strings *)
Fixpoint is_substring (pat s : string) : bool :=
  String.prefix pat s ||
  match s with
  | EmptyString => false
  | String _ s' => is_substring pat s'
  end.

Definition json_is_str (k : string) (v : json) : bool :=
  match v with JStr s => bool_decide (s = k) | _ => false end.

(** [k in c] for a string [k] and any container [c]. *)
Definition str_in (k : string) (c : json) : result bool :=
  match c with
  | JDict d => Ok (dict_mem k d)
  | JList l => Ok (existsb (json_is_str k) l)
  | JStr s => Ok (is_substring k s)
  | _ => Raise (type_error "argument of type {!r} is not iterable" c)
  end.

(** An [int] compared with a [float], exactly; [None] for a NaN. *)
Definition Z_compare_float (z : Z) (f : float) : option comparison :=
  match Prim2SF f with
  | S754_zero _ => Some (z ?= 0)%Z
  | S754_infinity s => Some (if s then Gt else Lt)
  | S754_nan => None
  | S754_finite s m e =>
      let n := if s then Z.neg m else Z.pos m in
      if (0 <=? e)%Z then Some (z ?= n * 2 ^ e)%Z else Some (z * 2 ^ (- e) ?= n)%Z
  end.

(** [z < v] and [z > v] for an [int] [z]: [v] must be a number. *)
Definition int_lt (z : Z) (v : json) : result bool :=
  match v with
  | JInt m => Ok (z <? m)%Z
  | JBool b => Ok (z <? (if b then 1 else 0))%Z
  | JFloat f => Ok (match Z_compare_float z f with Some Lt => true | _ => false end)
  | _ => Raise (type_error "'<' not supported between instances of 'int' and {!r}" v)
  end.

Definition int_gt (z : Z) (v : json) : result bool :=
  match v with
  | JInt m => Ok (z >? m)%Z
  | JBool b => Ok (z >? (if b then 1 else 0))%Z
  | JFloat f => Ok (match Z_compare_float z f with Some Gt => true | _ => false end)
  | _ => Raise (type_error "'>' not supported between instances of 'int' and {!r}" v)
  end.

(** [int(f)]: truncation towards zero. *)
Definition int_of_float (f : float) : result Z :=
  match Prim2SF f with
  | S754_zero _ => Ok 0
  | S754_infinity _ =>
      Raise (Exn OverflowError (MStr "cannot convert float infinity to integer"))
  | S754_nan => Raise (Exn ValueError (MStr "cannot convert float NaN to integer"))
  | S754_finite s m e =>
      let mag := if (0 <=? e)%Z then Z.pos m * 2 ^ e else Z.pos m / 2 ^ (- e) in
      Ok (if s then - mag else mag)
  end.

(** [z * f] for an [int] and a [float]: the [int] is converted first, which
    raises OverflowError beyond the range of floats. *)
Definition mul_int_float (z : Z) (f : float) : result float :=
  match Prim2SF (float_of_Z z) with
  | S754_infinity _ =>
      Raise (Exn OverflowError (MStr "int too large to convert to float"))
  | _ => Ok (float_of_Z z * f)%float
  end.

Definition round_half_even (n d : Z) : Z :=
  let q := (n / d)%Z in
  let r := (n mod d)%Z in
  if (2 * r <? d)%Z then q
  else if (d <? 2 * r)%Z then (q + 1)%Z
  else if Z.even q then q else (q + 1)%Z.

(** [round(x, 6)]: the float nearest to the decimal with six places nearest
    to the exact value of [x] (ties to even). Exact while the scaled value
    stays below 2^53. *)
Definition round6 (x : float) : float :=
  match Prim2SF x with
  | S754_finite s m e =>
      let n := if (0 <=? e)%Z then (Z.pos m * 10 ^ 6 * 2 ^ e)%Z
               else round_half_even (Z.pos m * 10 ^ 6) (2 ^ (- e)) in
      let r := (float_of_Z n / 1000000)%float in
      if s then (- r)%float else r
  | _ => x
  end.

(** [str.isspace] on one character; a [string] stands for a Python [str]
    whose code points are below 256. *)
Definition isspace (c : ascii) : bool :=
  let n := nat_of_ascii c in
  existsb (Nat.eqb n) [9; 10; 11; 12; 13; 28; 29; 30; 31; 32; 133; 160]%nat.

Fixpoint lstrip (s : string) : string :=
  match s with
  | EmptyString => EmptyString
  | String c s' => if isspace c then lstrip s' else s
  end.

Fixpoint rstrip (s : string) : string :=
  match s with
  | EmptyString => EmptyString
  | String c s' =>
      match rstrip s' with
      | EmptyString => if isspace c then EmptyString else String c EmptyString
      | r => String c r
      end
  end.

(** [s.strip()] *)
Definition strip (s : string) : string := rstrip (lstrip s).

(** Sequencing of calls that can raise. *)
Definition bind {A B : Type} (r : result A) (k : A -> result B) : result B :=
  match r with
  | Ok a => k a
  | Raise e => Raise e
  end.

(** A [for] loop whose body can raise and otherwise adds to a list. *)
Fixpoint for_collect {A B : Type} (body : A -> result (list B)) (l : list A)
  : result (list B) :=
  match l with
  | [] => Ok []
  | x :: l' =>
      bind (body x) (fun ys => bind (for_collect body l') (fun zs => Ok (ys ++ zs)))
  end.

(** A [for] loop whose body can raise and otherwise does nothing. *)
Fixpoint for_each {A : Type} (body : A -> result unit) (l : list A) : result unit :=
  match l with
  | [] => Ok tt
  | x :: l' => bind (body x) (fun _ => for_each body l')
  end.

(** A list comprehension whose element expression can raise. *)
Fixpoint map_result {A B : Type} (f : A -> result B) (l : list A) : result (list B) :=
  match l with
  | [] => Ok []
  | x :: l' => bind (f x) (fun y => bind (map_result f l') (fun ys => Ok (y :: ys)))
  end.

End PyOps.
Export PyOps.

(** ** aria/models/types.py — enumerations *)

Module Types.

Inductive SessionStatus : Type :=
| IDLE | RUNNING | WAITING | DONE | FAILED | CANCELLED.

#[export] Instance SessionStatus_eq_dec : EqDecision SessionStatus.
Proof. solve_decision. Defined.

(** [SessionStatus.X.value] *)
Definition status_value (s : SessionStatus) : string :=
  match s with
  | IDLE => "IDLE" | RUNNING => "RUNNING" | WAITING => "WAITING"
  | DONE => "DONE" | FAILED => "FAILED" | CANCELLED => "CANCELLED"
  end.

End Types.
Export Types.

(** ** aria/kernel/fsm.py *)

Module Fsm.

(** [_VALID]: a dict from a state to the set of its successors. *)
Definition _VALID (s : SessionStatus) : list SessionStatus :=
  match s with
  | IDLE => [RUNNING; CANCELLED]
  | RUNNING => [WAITING; DONE; FAILED; CANCELLED]
  | WAITING => [RUNNING; FAILED; CANCELLED]
  | DONE => []
  | FAILED => []
  | CANCELLED => []
  end.

Record SessionFSM : Type := mkFSM {
  _state : SessionStatus;
  _session_id : string;
  _history : list (SessionStatus * SessionStatus)
}.

(** [SessionFSM.__init__] *)
Definition init (session_id : string) : SessionFSM :=
  {| _state := IDLE; _session_id := session_id; _history := [] |}.

(** property [state] *)
Definition state (fsm : SessionFSM) : SessionStatus := _state fsm.

(** property [is_terminal] *)
Definition is_terminal (fsm : SessionFSM) : bool :=
  bool_decide (_state fsm ∈ [DONE; FAILED; CANCELLED]).

(** [transition]: the outcome and the object afterwards. *)
Definition transition (to_state : SessionStatus) (fsm : SessionFSM)
  : result unit * SessionFSM :=
  let allowed := _VALID (_state fsm) in
  if negb (bool_decide (to_state ∈ allowed)) then
    (Raise (InvalidStateTransitionError_ (status_value (_state fsm))
                                         (status_value to_state)), fsm)
  else
    (Ok tt, {| _state := to_state;
               _session_id := _session_id fsm;
               _history := _history fsm ++ [(_state fsm, to_state)] |}).

Definition transition_history (fsm : SessionFSM)
  : list (SessionStatus * SessionStatus) := _history fsm.

End Fsm.

(** ** aria/models/providers/circuit_breaker.py *)

Module Breaker.

Inductive CBState : Type := CLOSED | OPEN | HALF_OPEN.

#[export] Instance CBState_eq_dec : EqDecision CBState.
Proof. solve_decision. Defined.

(** The attributes of a [CircuitBreaker]. Times are the floats returned by
    [time.monotonic()]. *)
Record CircuitBreaker : Type := mkCB {
  provider : string;
  _threshold : Z;
  _window : float;
  _recovery : float;
  _state : CBState;
  _failures : list float;
  _opened_at : option float
}.

(** [CircuitBreaker.__init__] *)
Definition init (provider : string) (failure_threshold : Z)
    (window_seconds recovery_seconds : float) : CircuitBreaker :=
  {| provider := provider;
     _threshold := failure_threshold;
     _window := window_seconds;
     _recovery := recovery_seconds;
     _state := CLOSED;
     _failures := [];
     _opened_at := None |}.

(** [CircuitBreaker(provider)] with the default arguments. *)
Definition init_default (provider : string) : CircuitBreaker :=
  init provider 3 60%float 120%float.

Definition set_state (s : CBState) (cb : CircuitBreaker) : CircuitBreaker :=
  mkCB (provider cb) (_threshold cb) (_window cb) (_recovery cb)
       s (_failures cb) (_opened_at cb).

Definition set_failures (fs : list float) (cb : CircuitBreaker) : CircuitBreaker :=
  mkCB (provider cb) (_threshold cb) (_window cb) (_recovery cb)
       (_state cb) fs (_opened_at cb).

Definition set_opened_at (o : option float) (cb : CircuitBreaker) : CircuitBreaker :=
  mkCB (provider cb) (_threshold cb) (_window cb) (_recovery cb)
       (_state cb) (_failures cb) o.

(** property [state]; [now] is the value [time.monotonic()] returns when
    the property reads it. [a >= b] on floats is [b <=? a]. *)
Definition state (now : float) (cb : CircuitBreaker) : CBState * CircuitBreaker :=
  match _state cb, _opened_at cb with
  | OPEN, Some opened_at =>
      if (_recovery cb <=? now - opened_at)%float
      then (HALF_OPEN, set_state HALF_OPEN cb)
      else (_state cb, cb)
  | _, _ => (_state cb, cb)
  end.

(** [allow_request] *)
Definition allow_request (now : float) (cb : CircuitBreaker)
  : result unit * CircuitBreaker :=
  let '(s, cb') := state now cb in
  if bool_decide (s = OPEN)
  then (Raise (CircuitBreakerOpenError_ (provider cb')), cb')
  else (Ok tt, cb').

(** [record_success] *)
Definition record_success (cb : CircuitBreaker) : CircuitBreaker :=
  let cb1 := set_failures [] cb in
  if bool_decide (_state cb1 = HALF_OPEN)
  then set_opened_at None (set_state CLOSED cb1)
  else cb1.

(** [record_failure]; [now] is the value of its [time.monotonic()] read. *)
Definition record_failure (now : float) (cb : CircuitBreaker) : CircuitBreaker :=
  if bool_decide (_state cb = HALF_OPEN)
  then set_state OPEN (set_opened_at (Some now) cb)
  else
    let kept := List.filter (fun t => (now - t <? _window cb)%float) (_failures cb) in
    let cb1 := set_failures (kept ++ [now]) cb in
    if (Z.of_nat (length (_failures cb1)) >=? _threshold cb1)%Z
    then set_failures [] (set_state OPEN (set_opened_at (Some now) cb1))
    else cb1.


End Breaker.

(** ** aria/models/types.py — data contracts *)

Module Types2.

Inductive ToolPermission : Type :=
| PERM_NONE | FILESYSTEM_READ | FILESYSTEM_WRITE | NETWORK | SHELL.

#[export] Instance ToolPermission_eq_dec : EqDecision ToolPermission.
Proof. solve_decision. Defined.

Inductive ActionType : Type := TOOL_CALL | FINAL_ANSWER.

#[export] Instance ActionType_eq_dec : EqDecision ActionType.
Proof. solve_decision. Defined.

Inductive MessageRole : Type := SYSTEM | USER | ASSISTANT | TOOL.

Inductive StepType : Type := ST_MODEL_CALL | ST_TOOL_CALL | ST_FINAL_ANSWER.

Inductive StepStatus : Type := STARTED | COMPLETED | STEP_FAILED.

Inductive LogLevel : Type := DEBUG | INFO | WARN | ERROR | CRITICAL.

End Types2.
Export Types2.

Module ToolManifest.
Record t : Type := mk {
  name : string;
  version : string;
  description : string;
  permissions : list ToolPermission;
  timeout_seconds : Z;
  input_schema : dict;
  output_schema : dict;
  max_memory_mb : Z;
  allowed_paths : list string
}.
End ToolManifest.

Module Message.
(** The dataclass does not check its fields: [content], [tool_name] and
    [tool_call_id] hold whatever they are given. *)
Record t : Type := mk {
  role : MessageRole;
  content : json;
  tool_name : json;
  tool_call_id : json
}.
End Message.

Module ToolCallRequest.
Record t : Type := mk {
  tool_name : string;
  arguments : dict;
  tool_call_id : string
}.
End ToolCallRequest.

Module RawModelResponse.
Record t : Type := mk {
  action : ActionType;
  input_tokens : Z;
  output_tokens : Z;
  model : string;
  provider : string;
  raw_response_hash : string;
  tool_call : option ToolCallRequest.t;
  final_answer : option string
}.

(** [__post_init__]: the two checks every constructed response passed. *)
Definition post_init_ok (r : t) : bool :=
  negb (bool_decide (action r = TOOL_CALL) &&
        match tool_call r with None => true | Some _ => false end) &&
  negb (bool_decide (action r = FINAL_ANSWER) &&
        match final_answer r with
        | None => true
        | Some s => bool_decide (s = "")
        end).
End RawModelResponse.

Module ToolResult.
Record t : Type := mk {
  ok : bool;
  tool_name : string;
  tool_call_id : string;
  data : option json;
  error_type : option string;
  error_message : option message;
  duration_ms : Z
}.
End ToolResult.

Module PromptRequest.
Record t : Type := mk {
  messages : list Message.t;
  system_prompt : string;
  tools : list ToolManifest.t;
  provider : string;
  model : string;
  session_id : string;
  step_number : Z
}.
End PromptRequest.

Module Values.

(** The [.value] of the enumeration members, as stored in the database. *)
Definition role_value (r : MessageRole) : string :=
  match r with
  | SYSTEM => "system" | USER => "user" | ASSISTANT => "assistant" | TOOL => "tool"
  end.

(** [MessageRole(s)] *)
Definition role_of_value (v : json) : result MessageRole :=
  match v with
  | JStr "system" => Ok SYSTEM
  | JStr "user" => Ok USER
  | JStr "assistant" => Ok ASSISTANT
  | JStr "tool" => Ok TOOL
  | _ => Raise (Exn ValueError (Msg "{!r} is not a valid MessageRole" [MVal v]))
  end.

Definition step_type_value (t : StepType) : string :=
  match t with
  | ST_MODEL_CALL => "model_call"
  | ST_TOOL_CALL => "tool_call"
  | ST_FINAL_ANSWER => "final_answer"
  end.

Definition step_status_value (s : StepStatus) : string :=
  match s with
  | STARTED => "started" | COMPLETED => "completed" | STEP_FAILED => "failed"
  end.

Definition level_value (l : LogLevel) : string :=
  match l with
  | DEBUG => "DEBUG" | INFO => "INFO" | WARN => "WARNING"
  | ERROR => "ERROR" | CRITICAL => "CRITICAL"
  end.

(** An optional string as a JSON value: [None] is [null]. *)
Definition json_of_option (o : option string) : json :=
  match o with Some s => JStr s | None => JNone end.

End Values.
Export Values.

Module MessageOps.

(** [Message.to_dict] *)
Definition to_dict (m : Message.t) : json :=
  JDict [("role", JStr (role_value (Message.role m)));
         ("content", Message.content m);
         ("tool_name", Message.tool_name m);
         ("tool_call_id", Message.tool_call_id m)].

(** [d[k]] *)
Definition getitem (k : string) (d : dict) : result json :=
  match dict_get k d with
  | Some v => Ok v
  | None => Raise (Exn KeyError (MStr k))
  end.

(** [Message.from_dict] *)
Definition from_dict (v : json) : result Message.t :=
  match v with
  | JDict d =>
      bind (getitem "role" d) (fun r =>
      bind (role_of_value r) (fun role =>
      bind (getitem "content" d) (fun content =>
      Ok (Message.mk role content
            (dict_get_default "tool_name" JNone d)
            (dict_get_default "tool_call_id" JNone d)))))
  | JList _ | JStr _ =>
      Raise (type_error "{!r} indices must be integers" v)
  | _ => Raise (type_error "{!r} object is not subscriptable" v)
  end.

End MessageOps.

Module KernelConfig.
Record t : Type := mk {
  primary_provider : string;
  primary_model : string;
  fallback_provider : option string;
  fallback_model : option string;
  max_steps : Z;
  max_cost_usd : float;
  max_context_tokens : Z;
  allowed_permissions : list ToolPermission;
  plugin_dirs : list string;
  log_level : string;
  db_path : string;
  log_path : string
}.

(** [KernelConfig.to_json] *)
Definition to_json (L : JsonLib) (c : t) : string :=
  json_dumps L
    (JDict [("primary_provider", JStr (primary_provider c));
            ("primary_model", JStr (primary_model c));
            ("max_steps", JInt (max_steps c));
            ("max_cost_usd", JFloat (max_cost_usd c));
            ("log_level", JStr (log_level c))]).
End KernelConfig.

Module SessionRequest.
Record t : Type := mk {
  task : string;
  session_id : string;
  provider_override : option string;
  model_override : option string;
  max_steps_override : option Z;
  dry_run : bool
}.
End SessionRequest.

Module SessionResult.
Record t : Type := mk {
  session_id : string;
  status : SessionStatus;
  answer : option string;
  steps_taken : Z;
  total_cost_usd : float;
  duration_ms : Z;
  error_type : option string;
  error_message : option message
}.
End SessionResult.

Module StepTrace.
Record t : Type := mk {
  session_id : string;
  step_number : Z;
  step_type : StepType;
  status : StepStatus;
  step_id : string;
  prompt_hash : option string;
  model_output_hash : option string;
  tool_name : option string;
  tool_input_json : option string;
  tool_output_json : option string;
  input_tokens : option Z;
  output_tokens : option Z;
  cost_usd : option float;
  duration_ms : option Z;
  started_at : string;
  finished_at : option string;
  audit_chain_hash : string
}.
End StepTrace.

Module AuditEvent.
Record t : Type := mk {
  session_id : string;
  event_type : string;
  level : LogLevel;
  payload : dict;
  event_id : string;
  step_id : option string;
  chain_hash : string;
  timestamp : string
}.
End AuditEvent.

(** ** hashlib.sha256 (FIPS 180-4), on 32-bit words held in [Z] *)

Module Sha256.

Definition w32 (x : Z) : Z := Z.land x 0xffffffff.

Definition add32 (x y : Z) : Z := w32 (x + y).

Definition rotr (n x : Z) : Z :=
  Z.lor (Z.shiftr x n) (w32 (Z.shiftl x (32 - n))).

Definition Ch (x y z : Z) : Z :=
  Z.lxor (Z.land x y) (Z.land (Z.lxor x 0xffffffff) z).

Definition Maj (x y z : Z) : Z :=
  Z.lxor (Z.lxor (Z.land x y) (Z.land x z)) (Z.land y z).

Definition Sigma0 (x : Z) : Z := Z.lxor (Z.lxor (rotr 2 x) (rotr 13 x)) (rotr 22 x).
Definition Sigma1 (x : Z) : Z := Z.lxor (Z.lxor (rotr 6 x) (rotr 11 x)) (rotr 25 x).
Definition sigma0 (x : Z) : Z := Z.lxor (Z.lxor (rotr 7 x) (rotr 18 x)) (Z.shiftr x 3).
Definition sigma1 (x : Z) : Z := Z.lxor (Z.lxor (rotr 17 x) (rotr 19 x)) (Z.shiftr x 10).

(** The constants of FIPS 180-4: the first 32 bits of the fractional parts
    of the cube roots (for [K]) and of the square roots (for [H0]) of the
    first primes. *)
Definition is_prime (n : Z) : bool :=
  forallb (fun d => negb (n mod Z.of_nat d =? 0)%Z) (seq 2 (Z.to_nat n - 2)).

Definition primes_below (n : nat) : list Z :=
  List.filter is_prime (map Z.of_nat (seq 2 (n - 2))).

(** The integer cube root of [n < 2^(3 * bits)], bit by bit from the top. *)
Fixpoint icbrt_bits (bits : nat) (n r : Z) : Z :=
  match bits with
  | O => r
  | S b =>
      let r' := (r + 2 ^ Z.of_nat b)%Z in
      icbrt_bits b n (if (r' * r' * r' <=? n)%Z then r' else r)
  end.

Definition K : list Z :=
  Eval vm_compute in
    map (fun p => w32 (icbrt_bits 36 (p * 2 ^ 96) 0)) (primes_below 312).

Definition H0 : list Z :=
  Eval vm_compute in
    map (fun p => w32 (Z.sqrt (p * 2 ^ 64))) (primes_below 20).

(** The message followed by the bit 1, zeros up to 56 modulo 64 bytes, and
    the bit length on 8 bytes, big-endian. *)
Definition pad (msg : list Z) : list Z :=
  let len := Z.of_nat (length msg) in
  let zeros := Z.to_nat ((55 - len) mod 64) in
  let bits := 8 * len in
  msg ++ [0x80] ++ repeat 0 zeros ++
  map (fun i => Z.land (Z.shiftr bits (8 * (7 - Z.of_nat i))) 0xff) (seq 0 8).

(** Four bytes, big-endian, as a word. *)
Fixpoint words (bytes : list Z) : list Z :=
  match bytes with
  | a :: b :: c :: d :: rest =>
      (Z.shiftl a 24 + Z.shiftl b 16 + Z.shiftl c 8 + d) :: words rest
  | _ => []
  end.

(** The message schedule, most recent word first: [rev_w] holds
    W[t-1], W[t-2], ...; [n] more words are added. *)
Fixpoint schedule (n : nat) (rev_w : list Z) : list Z :=
  match n with
  | O => rev_w
  | S n' =>
      let w2 := nth 1 rev_w 0 in
      let w7 := nth 6 rev_w 0 in
      let w15 := nth 14 rev_w 0 in
      let w16 := nth 15 rev_w 0 in
      schedule n'
        (add32 (add32 (sigma1 w2) w7) (add32 (sigma0 w15) w16) :: rev_w)
  end.

Definition round (st : list Z) (kw : Z * Z) : list Z :=
  match st with
  | [a; b; c; d; e; f; g; h] =>
      let t1 := add32 (add32 (add32 h (Sigma1 e)) (add32 (Ch e f g) (fst kw))) (snd kw) in
      let t2 := add32 (Sigma0 a) (Maj a b c) in
      [add32 t1 t2; a; b; c; add32 d t1; e; f; g]
  | _ => st
  end.

(** One 16-word block folded into the hash value. *)
Definition compress (h : list Z) (block : list Z) : list Z :=
  let w := rev (schedule 48 (rev block)) in
  let st := fold_left round (combine K w) h in
  map (fun p => add32 (fst p) (snd p)) (combine h st).

Fixpoint blocks (n : nat) (ws : list Z) (h : list Z) : list Z :=
  match n with
  | O => h
  | S n' => blocks n' (skipn 16 ws) (compress h (firstn 16 ws))
  end.

Definition digest (msg : list Z) : list Z :=
  let ws := words (pad msg) in
  blocks (length ws / 16) ws H0.

Definition hex_digit (n : Z) : ascii :=
  ascii_of_nat (Z.to_nat (if (n <? 10)%Z then 48 + n else 87 + n)).

Definition hex_word (w : Z) : string :=
  string_of_list_ascii
    (map (fun i => hex_digit (Z.land (Z.shiftr w (4 * (7 - Z.of_nat i))) 0xf))
         (seq 0 8)).

Definition bytes_of_string (s : string) : list Z :=
  map (fun c => Z.of_nat (nat_of_ascii c)) (list_ascii_of_string s).

(** [hashlib.sha256(value.encode()).hexdigest()]; the [string] is the
    encoded text. *)
Definition sha256_str (value : string) : string :=
  String.concat "" (map hex_word (digest (bytes_of_string value))).

#[global] Arguments sha256_str value : simpl never.

End Sha256.

(** ** The process environment *)

Module Os.

(** [subprocess.run([sys.executable, "-c", _RUNNER], input=..., timeout=...)]:
    the arguments that vary from one spawn to the next. *)
Record Spawn : Type := mkSpawn {
  stdin_text : string;
  timeout : Z
}.

(** What [subprocess.run] gives back: [TimeoutExpired] raised, or a
    completed process. *)
Inductive ProcOutcome : Type :=
| TimeoutExpired
| Completed (returncode : Z) (stdout stderr : string).

(** A source of values the process reads one after the other: [at_ n] is
    the value of the n-th read, [reads] the number of reads so far. *)
Record Stream (A : Type) : Type := mkStream {
  at_ : nat -> A;
  reads : nat
}.
Arguments mkStream {A} at_ reads.
Arguments at_ {A} s n.
Arguments reads {A} s.

Definition read {A : Type} (s : Stream A) : A * Stream A :=
  (at_ s (reads s), mkStream (at_ s) (S (reads s))).

(** The host as the process sees it:
    [monotonic] the readings of [time.monotonic()],
    [uniform01] the draws of [random.uniform(0, 1)],
    [slept] the delays passed to [time.sleep],
    [resolve s] what [Path(s).resolve()] does (the [str] of the resolved
    path, or the exception raised),
    [child] what a spawned runner does, [spawned] the processes created,
    [utcnow] the readings of [utcnow()], [uuid4] the ids [new_id()] draws,
    [sqlite_error] whether the next database transaction fails with
    [sqlite3.Error] for a reason of the host (disk, locking). *)
Record World : Type := mkWorld {
  monotonic : Stream float;
  uniform01 : Stream float;
  slept : list float;
  resolve : string -> result string;
  child : Spawn -> ProcOutcome;
  spawned : list Spawn;
  utcnow : Stream string;
  uuid4 : Stream string;
  sqlite_error : Stream bool
}.

Definition time_monotonic (w : World) : float * World :=
  let '(t, s) := read (monotonic w) in
  (t, mkWorld s (uniform01 w) (slept w) (resolve w) (child w) (spawned w)
              (utcnow w) (uuid4 w) (sqlite_error w)).

Definition random_uniform01 (w : World) : float * World :=
  let '(u, s) := read (uniform01 w) in
  (u, mkWorld (monotonic w) s (slept w) (resolve w) (child w) (spawned w)
              (utcnow w) (uuid4 w) (sqlite_error w)).

Definition time_sleep (delay : float) (w : World) : World :=
  mkWorld (monotonic w) (uniform01 w) (slept w ++ [delay]) (resolve w) (child w)
          (spawned w) (utcnow w) (uuid4 w) (sqlite_error w).

Definition subprocess_run (s : Spawn) (w : World) : ProcOutcome * World :=
  (child w s,
   mkWorld (monotonic w) (uniform01 w) (slept w) (resolve w) (child w)
           (spawned w ++ [s]) (utcnow w) (uuid4 w) (sqlite_error w)).

(** [utcnow()] *)
Definition read_utcnow (w : World) : string * World :=
  let '(t, s) := read (utcnow w) in
  (t, mkWorld (monotonic w) (uniform01 w) (slept w) (resolve w) (child w)
              (spawned w) s (uuid4 w) (sqlite_error w)).

(** [new_id()] *)
Definition new_id (w : World) : string * World :=
  let '(i, s) := read (uuid4 w) in
  (i, mkWorld (monotonic w) (uniform01 w) (slept w) (resolve w) (child w)
              (spawned w) (utcnow w) s (sqlite_error w)).

(** The start of a database transaction: does the host make it fail? *)
Definition sqlite_fails (w : World) : bool * World :=
  let '(b, s) := read (sqlite_error w) in
  (b, mkWorld (monotonic w) (uniform01 w) (slept w) (resolve w) (child w)
              (spawned w) (utcnow w) (uuid4 w) s).

End Os.

(** ** aria/models/router.py *)

Module Router.

(** A provider, seen from the router: an object whose [call] answers or
    raises, as a function of the requests it has received so far (which it
    records, as the test double of the repository does). *)
Record Provider : Type := mkProvider {
  anthropic : bool;  (* isinstance(p, AnthropicProvider) *)
  respond : list PromptRequest.t -> PromptRequest.t -> result RawModelResponse.t;
  calls : list PromptRequest.t
}.

(** [provider.call(request)] *)
Definition provider_call (req : PromptRequest.t) (p : Provider)
  : result RawModelResponse.t * Provider :=
  (respond p (calls p) req, mkProvider (anthropic p) (respond p) (calls p ++ [req])).

(** The breaker methods, reading the clock where the source reads it: the
    [state] property calls [time.monotonic()] only when the breaker is OPEN
    with [_opened_at] set; [record_failure] always does. *)
Definition state_reads_clock (cb : Breaker.CircuitBreaker) : bool :=
  match Breaker._state cb, Breaker._opened_at cb with
  | Breaker.OPEN, Some _ => true
  | _, _ => false
  end.

Definition breaker_allow_request (cb : Breaker.CircuitBreaker) (w : Os.World)
  : result unit * Breaker.CircuitBreaker * Os.World :=
  if state_reads_clock cb
  then let '(now, w') := Os.time_monotonic w in (Breaker.allow_request now cb, w')
  else (Breaker.allow_request 0%float cb, w).

Definition breaker_record_failure (cb : Breaker.CircuitBreaker) (w : Os.World)
  : Breaker.CircuitBreaker * Os.World :=
  let '(now, w') := Os.time_monotonic w in (Breaker.record_failure now cb, w').

Definition _RETRYABLE : list ecls :=
  [ModelProviderError; ModelRateLimitError; ModelTimeoutError].
Definition _MAX_RETRIES : Z := 3.
Definition _BASE_BACKOFF : float := 2%float.
Definition _MAX_BACKOFF : float := 30%float.

(** [min(_BASE_BACKOFF * (2 ** (attempt - 1)) + random.uniform(0, 1),
        _MAX_BACKOFF)] for the draw [u]. *)
Definition backoff_delay (attempt : Z) (u : float) : float :=
  min2 (_BASE_BACKOFF * float_of_Z (2 ^ (attempt - 1)) + u)%float _MAX_BACKOFF.

Record ModelRouter : Type := mkRouter {
  _providers : gmap string Provider;
  _breakers : gmap string Breaker.CircuitBreaker
}.

(** [ModelRouter.__init__] *)
Definition init (providers : gmap string Provider) : result ModelRouter :=
  if bool_decide (providers = ∅)
  then Raise (Exn ValueError (Msg "ModelRouter requires at least one provider" []))
  else Ok (mkRouter providers
             (map_imap (fun n _ => Some (Breaker.init_default n)) providers)).

(** The message of the error raised after the loop. *)
Definition exhausted_error (provider : string) (last_err : option exn) : exn :=
  ModelProviderExhaustedError_
    (Msg "Provider {request.provider!r} failed after {_MAX_RETRIES} attempts. Last: {last_err}"
         [MStr provider; MInt _MAX_RETRIES;
          match last_err with Some e => str_of e | None => MStr "None" end])
    _MAX_RETRIES.

(** The [for attempt in range(1, _MAX_RETRIES + 1)] loop of [call], for the
    attempts still to run, and the [raise] that follows it. The provider and
    its breaker are the objects found at [request.provider]. *)
Fixpoint call_loop (attempts : list Z) (req : PromptRequest.t)
    (last_err : option exn)
    (p : Provider) (cb : Breaker.CircuitBreaker) (w : Os.World)
  : result RawModelResponse.t * (Provider * Breaker.CircuitBreaker * Os.World) :=
  match attempts with
  | [] => (Raise (exhausted_error (PromptRequest.provider req) last_err), (p, cb, w))
  | attempt :: rest =>
      match breaker_allow_request cb w with
      | (Raise e, cb1, w1) =>
          (* [except CircuitBreakerOpenError: raise]; anything else propagates too *)
          (Raise e, (p, cb1, w1))
      | (Ok _, cb1, w1) =>
          match provider_call req p with
          | (Ok result, p1) =>
              (Ok result, (p1, Breaker.record_success cb1, w1))
          | (Raise exc, p1) =>
              if isinstance exc ModelOutputValidationError then
                let '(cb2, w2) := breaker_record_failure cb1 w1 in
                (Raise exc, (p1, cb2, w2))
              else if isinstance_any exc _RETRYABLE then
                let '(cb2, w2) := breaker_record_failure cb1 w1 in
                if (attempt <? _MAX_RETRIES)%Z then
                  let '(u, w3) := Os.random_uniform01 w2 in
                  let w4 := Os.time_sleep (backoff_delay attempt u) w3 in
                  call_loop rest req (Some exc) p1 cb2 w4
                else
                  call_loop rest req (Some exc) p1 cb2 w2
              else (Raise exc, (p1, cb1, w1))
          end
      end
  end.

(** [range(a, b)] *)
Definition range (a b : Z) : list Z :=
  map (fun i => a + Z.of_nat i) (seq 0 (Z.to_nat (b - a))).

(** [ModelRouter.call] *)
Definition call (req : PromptRequest.t) (r : ModelRouter) (w : Os.World)
  : result RawModelResponse.t * (ModelRouter * Os.World) :=
  match _providers r !! PromptRequest.provider req with
  | None =>
      (Raise (Exn ValueError
                (Msg "Provider {request.provider!r} not registered. Available: {list(self._providers)}"
                     [MStr (PromptRequest.provider req);
                      MSeq (map fst (map_to_list (_providers r)))])),
       (r, w))
  | Some p =>
      match _breakers r !! PromptRequest.provider req with
      | None =>
          (Raise (Exn KeyError (Msg "{request.provider!r}" [MStr (PromptRequest.provider req)])),
           (r, w))
      | Some cb =>
          let '(res, (p', cb', w')) :=
            call_loop (range 1 (_MAX_RETRIES + 1)) req None p cb w in
          (res,
           (mkRouter (<[PromptRequest.provider req := p']> (_providers r))
                     (<[PromptRequest.provider req := cb']> (_breakers r)),
            w'))
      end
  end.

End Router.

(** ** aria/tools/sandbox.py *)

Module Sandbox.

(** Nesting depth of a value: a bound on the recursion of the validator. *)
Fixpoint json_depth (v : json) : nat :=
  match v with
  | JList l =>
      S ((fix go (l : list json) : nat :=
            match l with
            | [] => O
            | x :: l' => Nat.max (json_depth x) (go l')
            end) l)
  | JDict d =>
      S ((fix go (d : list (string * json)) : nat :=
            match d with
            | [] => O
            | (_, x) :: d' => Nat.max (json_depth x) (go d')
            end) d)
  | _ => O
  end.

(** [t == name] for [t = schema.get("type")] *)
Definition type_is (t : option json) (name : string) : bool :=
  match t with
  | Some (JStr s) => bool_decide (s = name)
  | _ => false
  end.

Definition when (b : bool) (m : message) : list message :=
  if b then [m] else [].

(** [_validate_schema(data, schema, path)]: the list of error strings. The
    recursion follows the nesting of [schema]; [fuel] bounds its depth the
    way the interpreter's recursion limit does. A schema keyword whose value
    has a type the code does not expect raises what Python raises. *)
Fixpoint validate_schema_fuel (fuel : nat) (data schema : json) (path : string)
  : result (list message) :=
  match fuel with
  | O => Raise (Exn RecursionError (MStr "maximum recursion depth exceeded"))
  | S fuel' =>
  match schema with
  | JDict sch =>
    let t := dict_get "type" sch in
    if type_is t "object" then
      match data with
      | JDict dd =>
          let props := dict_get_default "properties" (JDict []) sch in
          let required := dict_get_default "required" (JList []) sch in
          let additional := dict_get_default "additionalProperties" (JBool true) sch in
          bind (bind (py_iter required)
                  (for_collect (fun k =>
                     bind (key_in_dict k dd) (fun present =>
                     Ok (when (negb present)
                           (Msg "{path}.{k}: required field missing"
                                [MStr path; MVal k]))))))
          (fun errs1 =>
          bind (match additional with
                | JBool false =>
                    for_collect (fun k =>
                      bind (str_in k props) (fun known =>
                      Ok (when (negb known)
                            (Msg "{path}.{k}: additional property not allowed"
                                 [MStr path; MStr k]))))
                      (map fst dd)
                | _ => Ok []
                end)
          (fun errs2 =>
          bind (match props with
                | JDict pd =>
                    for_collect (fun '(k, sub_schema) =>
                      match dict_get k dd with
                      | Some v =>
                          validate_schema_fuel fuel' v sub_schema
                            (path ++ "." ++ k)%string
                      | None => Ok []
                      end) pd
                | _ => Raise (attribute_error "{!r} object has no attribute 'items'" props)
                end)
          (fun errs3 => Ok (errs1 ++ errs2 ++ errs3))))
      | _ =>
          Ok [Msg "{path}: expected object, got {type(data).__name__}"
                  [MStr path; MStr (type_name data)]]
      end
    else if type_is t "string" then
      match data with
      | JStr s =>
          let min_l := dict_get_default "minLength" (JInt 0) sch in
          let max_l := dict_get_default "maxLength" (JFloat infinity) sch in
          let n := Z.of_nat (String.length s) in
          bind (int_lt n min_l) (fun too_short =>
          bind (int_gt n max_l) (fun too_long =>
          bind (match dict_get "enum" sch with
                | Some enum =>
                    if truthy enum
                    then bind (str_in s enum) (fun found => Ok (negb found, enum))
                    else Ok (false, enum)
                | None => Ok (false, JNone)
                end)
          (fun '(not_in_enum, enum) =>
          Ok (when too_short
                (Msg "{path}: string too short (min {min_l})" [MStr path; MVal min_l])
              ++ when too_long
                (Msg "{path}: string too long (max {max_l})" [MStr path; MVal max_l])
              ++ when not_in_enum
                (Msg "{path}: value {data!r} not in enum {enum}"
                     [MStr path; MStr s; MVal enum])))))
      | _ =>
          Ok [Msg "{path}: expected string, got {type(data).__name__}"
                  [MStr path; MStr (type_name data)]]
      end
    else if type_is t "integer" then
      match data with
      | JInt z =>
          bind (match dict_get "minimum" sch with
                | Some m => bind (int_lt z m) (fun b => Ok (b, m))
                | None => Ok (false, JNone)
                end)
          (fun '(below, m_lo) =>
          bind (match dict_get "maximum" sch with
                | Some m => bind (int_gt z m) (fun b => Ok (b, m))
                | None => Ok (false, JNone)
                end)
          (fun '(above, m_hi) =>
          Ok (when below
                (Msg "{path}: {data} < minimum {schema['minimum']}"
                     [MStr path; MInt z; MVal m_lo])
              ++ when above
                (Msg "{path}: {data} > maximum {schema['maximum']}"
                     [MStr path; MInt z; MVal m_hi]))))
      | _ =>
          Ok [Msg "{path}: expected integer, got {type(data).__name__}"
                  [MStr path; MStr (type_name data)]]
      end
    else if type_is t "boolean" then
      match data with
      | JBool _ => Ok []
      | _ =>
          Ok [Msg "{path}: expected boolean, got {type(data).__name__}"
                  [MStr path; MStr (type_name data)]]
      end
    else if type_is t "array" then
      match data with
      | JList _ => Ok []
      | _ =>
          Ok [Msg "{path}: expected array, got {type(data).__name__}"
                  [MStr path; MStr (type_name data)]]
      end
    else Ok []
  | _ => Raise (attribute_error "{!r} object has no attribute 'get'" schema)
  end
  end.

Definition _validate_schema (data : json) (schema : dict) (path : string)
  : result (list message) :=
  validate_schema_fuel (S (json_depth (JDict schema))) data (JDict schema) path.

(** [os.sep] on the POSIX hosts the runner targets. *)
Definition os_sep : string := "/".

(** The nested function [check] of [validate_paths]. *)
Definition check (w : Os.World) (manifest : ToolManifest.t)
    (allowed_bases : list string) (value : json) : result unit :=
  match value with
  | JStr v =>
      if negb (is_substring "/" v) && negb (String.prefix "." v) then Ok tt
      else
        match Os.resolve w v with
        | Raise e =>
            if isinstance_any e [OSError; ValueError]
            then Raise (Exn PathTraversalError
                          (Msg "Path {value!r} could not be resolved — rejecting as unsafe"
                               [MStr v]))
            else Raise e
        | Ok resolved =>
            if negb (existsb (fun base =>
                        bool_decide (resolved = base) ||
                        String.prefix (base ++ os_sep)%string resolved)
                      allowed_bases)
            then Raise (Exn PathTraversalError
                          (Msg "Path {value!r} → {resolved} is outside allowed: {manifest.allowed_paths}"
                               [MStr v; MStr resolved;
                                MSeq (ToolManifest.allowed_paths manifest)]))
            else Ok tt
        end
  | _ => Ok tt
  end.

(** [validate_paths(arguments, manifest)] *)
Definition validate_paths (w : Os.World) (arguments : dict)
    (manifest : ToolManifest.t) : result unit :=
  match ToolManifest.allowed_paths manifest with
  | [] => Ok tt
  | _ =>
      bind (map_result (Os.resolve w) (ToolManifest.allowed_paths manifest))
        (fun allowed_bases =>
           for_each (check w manifest allowed_bases) (dict_values arguments))
  end.

(** [validate_input(arguments, manifest)] *)
Definition validate_input (arguments : dict) (manifest : ToolManifest.t)
  : result unit :=
  bind (_validate_schema (JDict arguments) (ToolManifest.input_schema manifest) "input")
    (fun errors =>
       match errors with
       | [] => Ok tt
       | _ => Raise (Exn ToolInputValidationError
                       (Msg "Tool {manifest.name!r} input validation failed: {'; '.join(errors)}"
                            (MStr (ToolManifest.name manifest) :: errors)))
       end).

(** [validate_output(data, manifest)] *)
Definition validate_output (data : json) (manifest : ToolManifest.t)
  : result unit :=
  bind (_validate_schema data (ToolManifest.output_schema manifest) "output")
    (fun errors =>
       match errors with
       | [] => Ok tt
       | _ => Raise (Exn ToolOutputValidationError
                       (Msg "Tool {manifest.name!r} output validation failed: {'; '.join(errors)}"
                            (MStr (ToolManifest.name manifest) :: errors)))
       end).

(** [int((time.monotonic() - started) * 1000)] *)
Definition elapsed_ms (started : float) (w : Os.World) : result Z * Os.World :=
  let '(now, w') := Os.time_monotonic w in
  (int_of_float ((now - started) * 1000)%float, w').

(** The part of [run_tool_sandboxed] that follows a completed child with
    exit code 0: parse its output and build the result. *)
Definition parse_output (L : JsonLib) (manifest : ToolManifest.t)
    (stdout_text : string) (ms : Z) : result ToolResult.t :=
  let stdout := strip stdout_text in
  if bool_decide (stdout = "") then
    Raise (Exn ToolSandboxError
             (Msg "Tool {manifest.name!r} produced no output"
                  [MStr (ToolManifest.name manifest)]))
  else
    match json_loads L stdout with
    | inl e =>
        Raise (Exn ToolSandboxError
                 (Msg "Tool {manifest.name!r} returned malformed JSON: {e}"
                      [MStr (ToolManifest.name manifest); e]))
    | inr (JDict payload_out) =>
        if negb (truthy (dict_get_default "ok" (JBool false) payload_out)) then
          Ok (ToolResult.mk false (ToolManifest.name manifest) ""
                None (Some "ToolExecutionError")
                (Some (MVal (dict_get_default "error" (JStr "Unknown") payload_out)))
                ms)
        else
          let got := dict_get_default "data" JNone payload_out in
          let data := if truthy got then got else JDict [] in
          bind (validate_output data manifest) (fun _ =>
          Ok (ToolResult.mk true (ToolManifest.name manifest) ""
                (Some data) None None ms))
    | inr v => Raise (attribute_error "{!r} object has no attribute 'get'" v)
    end.

(** [run_tool_sandboxed(manifest, arguments, tool_module_path)] *)
Definition run_tool_sandboxed (L : JsonLib) (manifest : ToolManifest.t)
    (arguments : dict) (tool_module_path : string) (w : Os.World)
  : result ToolResult.t * Os.World :=
  let '(started, w1) := Os.time_monotonic w in
  match validate_input arguments manifest with
  | Raise e => (Raise e, w1)
  | Ok _ =>
  match validate_paths w1 arguments manifest with
  | Raise e => (Raise e, w1)
  | Ok _ =>
      let payload :=
        json_dumps L (JDict [("tool_module_path", JStr tool_module_path);
                             ("input", JDict arguments);
                             ("max_memory_mb", JInt (ToolManifest.max_memory_mb manifest))]) in
      let '(proc, w2) :=
        Os.subprocess_run
          (Os.mkSpawn payload (ToolManifest.timeout_seconds manifest)) w1 in
      match proc with
      | Os.TimeoutExpired =>
          let '(ms, w3) := elapsed_ms started w2 in
          (bind ms (fun _ =>
             Raise (Exn ToolTimeoutError
                      (Msg "Tool {manifest.name!r} exceeded timeout of {manifest.timeout_seconds}s"
                           [MStr (ToolManifest.name manifest);
                            MInt (ToolManifest.timeout_seconds manifest)]))),
           w3)
      | Os.Completed returncode stdout stderr =>
          let '(ms, w3) := elapsed_ms started w2 in
          (bind ms (fun ms =>
             if negb (returncode =? 0)%Z then
               Raise (Exn ToolSandboxError
                        (Msg "Tool {manifest.name!r} exited with code {proc.returncode}. stderr: {stderr}"
                             [MStr (ToolManifest.name manifest); MInt returncode;
                              MStr (String.substring 0 500 stderr)]))
             else parse_output L manifest stdout ms),
           w3)
      end
  end
  end.

End Sandbox.

(** ** aria/memory/sqlite.py *)

Module Sqlite.

(** *** The tables of [_SCHEMA] *)

Module SessionRow.
Record t : Type := mk {
  session_id : string;
  task : string;
  status : string;
  config_json : string;
  started_at : string;
  finished_at : option string;
  total_steps : Z;
  total_cost_usd : float;
  error_type : option string;
  error_msg : option message
}.
End SessionRow.

Module StepRow.
Record t : Type := mk {
  step_id : string;
  session_id : string;
  step_number : Z;
  step_type : string;
  status : string;
  prompt_hash : option string;
  model_output_hash : option string;
  tool_name : option string;
  tool_input_json : option string;
  tool_output_json : option string;
  input_tokens : option Z;
  output_tokens : option Z;
  cost_usd : option float;
  duration_ms : option Z;
  started_at : string;
  finished_at : option string;
  audit_chain_hash : string
}.
End StepRow.

(** What the driver returns for a column of the declared type TEXT NOT
    NULL: the [str] of a text value, or the [bytes] of a BLOB, which SQLite
    stores in such a column unchanged. The program itself writes text only;
    a BLOB gets there through another connection to the database file. *)
Inductive Column : Type :=
| Text (s : string)
| Blob (b : string).

Module EventRow.
Record t : Type := mk {
  event_id : string;
  session_id : string;
  step_id : option string;
  event_type : string;
  level : string;
  payload_json : Column;
  chain_hash : string;
  timestamp : string
}.
End EventRow.

(** [value_json] holds [json.dumps(value)] and is only read back through
    [json.loads]: the row keeps the value itself, the two being inverse on
    the values stored here. *)
Module KvRow.
Record t : Type := mk {
  key : string;
  namespace : string;
  value_json : json;
  created_at : string;
  updated_at : string;
  session_id : option string
}.
End KvRow.

(** The database file: each table as the list of its rows in rowid order. *)
Record Database : Type := mkDb {
  sessions : list SessionRow.t;
  steps : list StepRow.t;
  audit_events : list EventRow.t;
  kv_memory : list KvRow.t
}.

Definition empty_db : Database := mkDb [] [] [] [].

Record SQLiteStorage : Type := mkStorage {
  _conn : Database;
  _chain_hashes : gmap string string;
  _step_chain_hashes : gmap string string
}.

Definition set_conn (db : Database) (s : SQLiteStorage) : SQLiteStorage :=
  mkStorage db (_chain_hashes s) (_step_chain_hashes s).

Definition audit_write_failure (what : string) : exn :=
  Exn AuditWriteFailureError (Msg what [MStr "sqlite3.Error"]).

Definition memory_corruption (what : string) : exn :=
  Exn MemoryCorruptionError (Msg what [MStr "sqlite3.Error"]).

(** ["0" * 64] *)
Definition seed : string :=
  "0000000000000000000000000000000000000000000000000000000000000000".

(** [ORDER BY timestamp]: text compared byte by byte; rows with equal
    timestamps stay in rowid order (the index on (session_id, timestamp)
    is walked in that order). *)
Fixpoint insert_by_timestamp (r : EventRow.t) (l : list EventRow.t)
  : list EventRow.t :=
  match l with
  | [] => [r]
  | r' :: l' =>
      if String.leb (EventRow.timestamp r) (EventRow.timestamp r')
      then r :: l
      else r' :: insert_by_timestamp r l'
  end.

Fixpoint order_by_timestamp (l : list EventRow.t) : list EventRow.t :=
  match l with
  | [] => []
  | r :: l' => insert_by_timestamp r (order_by_timestamp l')
  end.

(** [WHERE session_id=?] on audit_events *)
Definition events_of (session_id : string) (db : Database) : list EventRow.t :=
  List.filter (fun r => bool_decide (EventRow.session_id r = session_id))
              (audit_events db).

(** [_load_chain_hashes]: for every row that carries the greatest timestamp
    of its session, [self._chain_hashes[f"{session_id}:event"] = chain_hash]
    (a later row overwrites an earlier one); an [sqlite3.Error] is ignored. *)
Definition is_latest (db : Database) (r : EventRow.t) : bool :=
  forallb (fun r' => String.leb (EventRow.timestamp r') (EventRow.timestamp r))
          (events_of (EventRow.session_id r) db).

Definition _load_chain_hashes (db : Database) (w : Os.World)
  : gmap string string * Os.World :=
  let '(fails, w') := Os.sqlite_fails w in
  if fails then (∅, w')
  else
    (fold_left (fun m r =>
                  if is_latest db r
                  then <[(EventRow.session_id r ++ ":event")%string
                         := EventRow.chain_hash r]> m
                  else m)
               (audit_events db) ∅,
     w').

(** [SQLiteStorage.__init__] on the database file [db]: [_apply_schema],
    [_run_integrity_check], [_load_chain_hashes]. *)
Definition init (db : Database) (w : Os.World)
  : result SQLiteStorage * Os.World :=
  let '(fails1, w1) := Os.sqlite_fails w in
  if fails1 then (Raise (memory_corruption "Schema apply failed for {self._path}: {e}"), w1)
  else
    let '(fails2, w2) := Os.sqlite_fails w1 in
    if fails2 then (Raise (memory_corruption "Integrity check failed: {e}"), w2)
    else
      let '(hashes, w3) := _load_chain_hashes db w2 in
      (Ok (mkStorage db hashes ∅), w3).

(** [_next_step_chain_hash] *)
Definition _next_step_chain_hash (session_id payload : string) (s : SQLiteStorage)
  : string * SQLiteStorage :=
  let prev := default seed (_step_chain_hashes s !! session_id) in
  let h := Sha256.sha256_str (prev ++ Sha256.sha256_str payload)%string in
  (h, mkStorage (_conn s) (_chain_hashes s) (<[session_id := h]> (_step_chain_hashes s))).

(** [_next_chain_hash] *)
Definition _next_chain_hash (session_id payload_json namespace : string)
    (s : SQLiteStorage) : string * SQLiteStorage :=
  let key := (session_id ++ ":" ++ namespace)%string in
  let prev := default seed (_chain_hashes s !! key) in
  let h := Sha256.sha256_str (prev ++ Sha256.sha256_str payload_json)%string in
  (h, mkStorage (_conn s) (<[key := h]> (_chain_hashes s)) (_step_chain_hashes s)).

(** *** MemoryInterface *)

(** [create_session]; the INSERT fails on a session id already present
    (primary key). *)
Definition create_session (L : JsonLib) (session_id task : string)
    (config : KernelConfig.t) (s : SQLiteStorage) (w : Os.World)
  : result unit * (SQLiteStorage * Os.World) :=
  let config_json := KernelConfig.to_json L config in
  let '(now, w1) := Os.read_utcnow w in
  let '(fails, w2) := Os.sqlite_fails w1 in
  let db := _conn s in
  if fails || existsb (fun r => bool_decide (SessionRow.session_id r = session_id))
                      (sessions db)
  then (Raise (audit_write_failure "create_session failed: {e}"), (s, w2))
  else
    let row := SessionRow.mk session_id task (status_value IDLE) config_json now
                 None 0 0%float None None in
    (Ok tt, (set_conn (mkDb (sessions db ++ [row]) (steps db) (audit_events db)
                            (kv_memory db)) s, w2)).

(** [update_session_status] *)
Definition update_session_status (session_id : string) (status : SessionStatus)
    (total_steps : Z) (total_cost_usd : float)
    (error_type : option string) (error_msg : option message)
    (s : SQLiteStorage) (w : Os.World)
  : result unit * (SQLiteStorage * Os.World) :=
  let '(finished, w1) :=
    if bool_decide (status ∈ [DONE; FAILED; CANCELLED])
    then let '(now, w') := Os.read_utcnow w in (Some now, w')
    else (None, w) in
  let '(fails, w2) := Os.sqlite_fails w1 in
  let db := _conn s in
  if fails
  then (Raise (audit_write_failure "update_session_status failed: {e}"), (s, w2))
  else
    let upd r :=
      if bool_decide (SessionRow.session_id r = session_id)
      then SessionRow.mk (SessionRow.session_id r) (SessionRow.task r)
             (status_value status) (SessionRow.config_json r)
             (SessionRow.started_at r) finished total_steps total_cost_usd
             error_type error_msg
      else r in
    (Ok tt, (set_conn (mkDb (map upd (sessions db)) (steps db) (audit_events db)
                            (kv_memory db)) s, w2)).

Definition kv_matches (key namespace : string) (r : KvRow.t) : bool :=
  bool_decide (KvRow.key r = key) && bool_decide (KvRow.namespace r = namespace).

(** [get_kv]: the stored value, or Python's [None]. *)
Definition get_kv (key namespace : string) (s : SQLiteStorage) (w : Os.World)
  : result json * (SQLiteStorage * Os.World) :=
  let '(fails, w1) := Os.sqlite_fails w in
  if fails then (Raise (memory_corruption "get_kv failed: {e}"), (s, w1))
  else
    (Ok match List.find (kv_matches key namespace) (kv_memory (_conn s)) with
        | Some row => KvRow.value_json row
        | None => JNone
        end,
     (s, w1)).

(** [set_kv]; [INSERT OR REPLACE] removes the row of the same key and
    namespace and adds the new one. *)
Definition set_kv (key : string) (value : json) (namespace : string)
    (session_id : option string) (s : SQLiteStorage) (w : Os.World)
  : result unit * (SQLiteStorage * Os.World) :=
  let '(now, w1) := Os.read_utcnow w in
  let '(fails, w2) := Os.sqlite_fails w1 in
  let db := _conn s in
  if fails then (Raise (audit_write_failure "set_kv failed: {e}"), (s, w2))
  else
    let created :=
      match List.find (kv_matches key namespace) (kv_memory db) with
      | Some row => KvRow.created_at row
      | None => now
      end in
    let others := List.filter (fun r => negb (kv_matches key namespace r))
                              (kv_memory db) in
    (Ok tt,
     (set_conn (mkDb (sessions db) (steps db) (audit_events db)
                     (others ++ [KvRow.mk key namespace value created now session_id]))
               s, w2)).

(** [get_conversation_history] *)
Definition get_conversation_history (session_id : string)
    (s : SQLiteStorage) (w : Os.World)
  : result (list Message.t) * (SQLiteStorage * Os.World) :=
  match get_kv ("conv_" ++ session_id)%string "system" s w with
  | (Raise e, sw) => (Raise e, sw)
  | (Ok JNone, sw) => (Ok [], sw)
  | (Ok data, sw) =>
      (bind (py_iter data) (map_result MessageOps.from_dict), sw)
  end.

(** [append_message] *)
Definition append_message (session_id : string) (message : Message.t)
    (s : SQLiteStorage) (w : Os.World)
  : result unit * (SQLiteStorage * Os.World) :=
  match get_conversation_history session_id s w with
  | (Raise e, sw) => (Raise e, sw)
  | (Ok existing, (s1, w1)) =>
      set_kv ("conv_" ++ session_id)%string
             (JList (map MessageOps.to_dict (existing ++ [message])))
             "system" (Some session_id) s1 w1
  end.

(** *** AuditInterface *)

(** [write_step_start]; the INSERT fails on a step id already present
    (primary key) and on a session id absent from sessions (foreign key). *)
Definition write_step_start (L : JsonLib) (trace : StepTrace.t)
    (s : SQLiteStorage) (w : Os.World)
  : result unit * (SQLiteStorage * Os.World) :=
  let payload := json_dumps L (JDict [("step_id", JStr (StepTrace.step_id trace));
                                      ("status", JStr "started")]) in
  let '(chain, s1) := _next_step_chain_hash (StepTrace.session_id trace) payload s in
  let '(fails, w1) := Os.sqlite_fails w in
  let db := _conn s1 in
  if fails
     || existsb (fun r => bool_decide (StepRow.step_id r = StepTrace.step_id trace))
                (steps db)
     || negb (existsb (fun r => bool_decide
                                  (SessionRow.session_id r = StepTrace.session_id trace))
                      (sessions db))
  then (Raise (audit_write_failure "write_step_start failed: {e}"), (s1, w1))
  else
    let row :=
      StepRow.mk (StepTrace.step_id trace) (StepTrace.session_id trace)
        (StepTrace.step_number trace)
        (step_type_value (StepTrace.step_type trace))
        (step_status_value (StepTrace.status trace))
        (StepTrace.prompt_hash trace) None (StepTrace.tool_name trace)
        (StepTrace.tool_input_json trace) None None None None None
        (StepTrace.started_at trace) None chain in
    (Ok tt, (set_conn (mkDb (sessions db) (steps db ++ [row]) (audit_events db)
                            (kv_memory db)) s1, w1)).

(** [write_step_end] *)
Definition write_step_end (L : JsonLib) (trace : StepTrace.t)
    (s : SQLiteStorage) (w : Os.World)
  : result unit * (SQLiteStorage * Os.World) :=
  let payload :=
    json_dumps L (JDict [("step_id", JStr (StepTrace.step_id trace));
                         ("status", JStr (step_status_value (StepTrace.status trace)));
                         ("hash", json_of_option (StepTrace.model_output_hash trace))]) in
  let '(chain, s1) := _next_chain_hash (StepTrace.session_id trace) payload "step" s in
  let '(fails, w1) := Os.sqlite_fails w in
  let db := _conn s1 in
  if fails then (Raise (audit_write_failure "write_step_end failed: {e}"), (s1, w1))
  else
    let upd r :=
      if bool_decide (StepRow.step_id r = StepTrace.step_id trace)
      then StepRow.mk (StepRow.step_id r) (StepRow.session_id r)
             (StepRow.step_number r) (StepRow.step_type r)
             (step_status_value (StepTrace.status trace))
             (StepRow.prompt_hash r) (StepTrace.model_output_hash trace)
             (StepRow.tool_name r) (StepRow.tool_input_json r)
             (StepTrace.tool_output_json trace)
             (StepTrace.input_tokens trace) (StepTrace.output_tokens trace)
             (StepTrace.cost_usd trace) (StepTrace.duration_ms trace)
             (StepRow.started_at r) (StepTrace.finished_at trace) chain
      else r in
    (Ok tt, (set_conn (mkDb (sessions db) (map upd (steps db)) (audit_events db)
                            (kv_memory db)) s1, w1)).

(** [write_event]; the INSERT fails on an event id already present. *)
Definition write_event (L : JsonLib) (event : AuditEvent.t)
    (s : SQLiteStorage) (w : Os.World)
  : result unit * (SQLiteStorage * Os.World) :=
  let payload_json := json_dumps L (JDict (AuditEvent.payload event)) in
  let '(chain, s1) :=
    _next_chain_hash (AuditEvent.session_id event) payload_json "event" s in
  let '(fails, w1) := Os.sqlite_fails w in
  let db := _conn s1 in
  if fails
     || existsb (fun r => bool_decide (EventRow.event_id r = AuditEvent.event_id event))
                (audit_events db)
  then (Raise (audit_write_failure "write_event failed: {e}"), (s1, w1))
  else
    let row :=
      EventRow.mk (AuditEvent.event_id event) (AuditEvent.session_id event)
        (AuditEvent.step_id event) (AuditEvent.event_type event)
        (level_value (AuditEvent.level event)) (Text payload_json) chain
        (AuditEvent.timestamp event) in
    (Ok tt, (set_conn (mkDb (sessions db) (steps db) (audit_events db ++ [row])
                            (kv_memory db)) s1, w1)).

(** [get_session_events] *)
Definition get_session_events (session_id : string) (s : SQLiteStorage)
    (w : Os.World) : result (list EventRow.t) * Os.World :=
  let '(fails, w1) := Os.sqlite_fails w in
  if fails then (Raise (memory_corruption "get_session_events failed: {e}"), w1)
  else (Ok (order_by_timestamp (events_of session_id (_conn s))), w1).

(** [sha256_str(r["payload_json"])]: [value.encode()] exists on a [str]
    only. *)
Definition sha256_of_column (c : Column) : result string :=
  match c with
  | Text s => Ok (Sha256.sha256_str s)
  | Blob _ =>
      Raise (Exn AttributeError
               (Msg "{!r} object has no attribute {!r}" [MStr "bytes"; MStr "encode"]))
  end.

(** The [for r in rows] loop of [verify_chain]. *)
Fixpoint verify_rows (prev : string) (rows : list EventRow.t) : result bool :=
  match rows with
  | [] => Ok true
  | r :: rest =>
      bind (sha256_of_column (EventRow.payload_json r)) (fun payload_hash =>
      let expected := Sha256.sha256_str (prev ++ payload_hash)%string in
      if negb (bool_decide (expected = EventRow.chain_hash r)) then Ok false
      else verify_rows (EventRow.chain_hash r) rest)
  end.

(** [verify_chain]: only an [sqlite3.Error] is caught. *)
Definition verify_chain (session_id : string) (s : SQLiteStorage) (w : Os.World)
  : result bool * Os.World :=
  let '(fails, w1) := Os.sqlite_fails w in
  if fails then (Ok false, w1)
  else
    let rows := order_by_timestamp (events_of session_id (_conn s)) in
    match rows with
    | [] => (Ok true, w1)
    | _ => (verify_rows seed rows, w1)
    end.

End Sqlite.

(** ** aria/tools/registry.py (the part the kernel calls) *)

Module Registry.

(** [_manifests] and [_module_paths]: dicts in registration order. *)
Record ToolRegistry : Type := mk {
  _manifests : list (string * ToolManifest.t);
  _module_paths : list (string * string)
}.

Fixpoint assoc {A : Type} (k : string) (l : list (string * A)) : option A :=
  match l with
  | [] => None
  | (k', v) :: l' => if bool_decide (k' = k) then Some v else assoc k l'
  end.

Definition has_tool (name : string) (r : ToolRegistry) : bool :=
  match assoc name (_manifests r) with Some _ => true | None => false end.

Definition get_manifest (name : string) (r : ToolRegistry) : result ToolManifest.t :=
  match assoc name (_manifests r) with
  | Some m => Ok m
  | None =>
      Raise (Exn UnknownToolError
               (Msg "Tool {name!r} not registered. Available: {list(self._manifests)}"
                    [MStr name; MSeq (map fst (_manifests r))]))
  end.

Definition get_module_path (name : string) (r : ToolRegistry) : string :=
  default "" (assoc name (_module_paths r)).

Definition all_manifests (r : ToolRegistry) : list ToolManifest.t :=
  map snd (_manifests r).

End Registry.

(** ** aria/security/scrubber.py (the injection scan) *)

Module Scrubber.

(** [_INJECTION_PATTERNS]: each pattern and whether it is compiled with
    [re.I]. *)
Definition _INJECTION_PATTERNS : list (string * bool) :=
  [("\bignore\s+(previous|above|all|prior)\s+(instructions?|prompts?|rules?)\b", true);
   ("\byou\s+are\s+now\b", true);
   ("\bsystem\s*:\s*", true);
   ("\bdisregard\s+(your|all|the)\b", true);
   ("\bforget\s+(your|all|previous)\b", true);
   ("\bnew\s+instructions?\b", true);
   ("\bjailbreak\b", true);
   ("\bDAN\b", false);
   ("\[INST\]|\[/INST\]", false)].

(** [scan_for_injection(text).matched_patterns]; [re_search pattern
    ignore_case text] is [re.compile(pattern, flags).search(text)] being
    a match. *)
Definition scan_for_injection (re_search : string -> bool -> string -> bool)
    (text : string) : list string :=
  map fst (List.filter (fun p => re_search (fst p) (snd p) text) _INJECTION_PATTERNS).

(** [assert_clean_input(text, field_name)] *)
Definition assert_clean_input (re_search : string -> bool -> string -> bool)
    (text field_name : string) : result unit :=
  match scan_for_injection re_search text with
  | [] => Ok tt
  | matched =>
      Raise (Exn PromptInjectionWarning
               (Msg "Potential prompt injection in {field_name!r}. Patterns: {r.matched_patterns}"
                    [MStr field_name; MSeq matched]))
  end.

End Scrubber.

(** ** aria/models/providers/anthropic_provider.py (the price table) *)

Module Anthropic.

(** [_COST_TABLE]: model -> (input, output) USD per million tokens. *)
Definition _COST_TABLE : list (string * (float * float)) :=
  [("claude-haiku-4-5-20251001", (0.80, 4.00)%float);
   ("claude-sonnet-4-6", (3.00, 15.00)%float);
   ("claude-opus-4-6", (15.00, 75.00)%float)].

(** [AnthropicProvider.calculate_cost] *)
Definition calculate_cost (model : string) (input_tokens output_tokens : Z)
  : result float :=
  let rates := default (3.00, 15.00)%float (Registry.assoc model _COST_TABLE) in
  bind (mul_int_float input_tokens (fst rates)) (fun a =>
  bind (mul_int_float output_tokens (snd rates)) (fun b =>
  Ok ((a + b) / 1000000)%float)).

End Anthropic.

(** ** aria/kernel/context.py *)

Module ExecutionContext.
Record t : Type := mk {
  session_id : string;
  trace_id : string;
  step_number : Z;
  conversation_history : list Message.t;
  available_tools : list ToolManifest.t;
  config : KernelConfig.t;
  started_at : string
}.
End ExecutionContext.

(** ** aria/kernel/kernel.py *)

Module Kernel.

Definition _SYSTEM_PROMPT : string :=
"You are a task execution agent. Complete the given task using the available tools.

Rules:
1. Think step by step before acting.
2. Use tools when needed to gather information or take actions.
3. When the task is complete, provide your final answer as plain text.
4. Only use tool names listed in the API tool definitions — never invent tool names.
5. Be precise and factual. Do not invent information.
".

(** Library functions the kernel calls: the [json] module, [re] searches
    and [traceback.format_exc()] for the exception being handled. *)
Record PyLib : Type := mkPyLib {
  json_lib : JsonLib;
  re_search : string -> bool -> string -> bool;
  format_exc : exn -> string
}.

(** [str(message)] where a plain string is needed: the template followed
    by the interpolated values. *)
Fixpoint render (L : JsonLib) (m : message) : string :=
  match m with
  | Msg template args =>
      (template ++ String.concat "" (map (fun a => (" | " ++ render L a)%string) args))%string
  | MStr s => s
  | MInt z => NilZero.string_of_int (Z.to_int z)
  | MSeq l => String.concat ", " l
  | MVal j => json_dumps L j
  end.

(** What a call of [run] works on: the objects the kernel holds and mutates
    (router, storage), the host, the records given to the logger, and the
    local variables of [run] that its handlers read. *)
Record State : Type := mkState {
  router : Router.ModelRouter;
  storage : Sqlite.SQLiteStorage;
  world : Os.World;
  log : list (LogLevel * string);
  fsm : Fsm.SessionFSM;
  total_cost : float;
  step_count : Z;
  final_answer : option string
}.

Definition with_router (x : Router.ModelRouter) (s : State) : State :=
  mkState x (storage s) (world s) (log s) (fsm s) (total_cost s) (step_count s)
          (final_answer s).
Definition with_storage (x : Sqlite.SQLiteStorage) (s : State) : State :=
  mkState (router s) x (world s) (log s) (fsm s) (total_cost s) (step_count s)
          (final_answer s).
Definition with_world (x : Os.World) (s : State) : State :=
  mkState (router s) (storage s) x (log s) (fsm s) (total_cost s) (step_count s)
          (final_answer s).
Definition with_log (x : list (LogLevel * string)) (s : State) : State :=
  mkState (router s) (storage s) (world s) x (fsm s) (total_cost s) (step_count s)
          (final_answer s).
Definition with_fsm (x : Fsm.SessionFSM) (s : State) : State :=
  mkState (router s) (storage s) (world s) (log s) x (total_cost s) (step_count s)
          (final_answer s).
Definition with_total_cost (x : float) (s : State) : State :=
  mkState (router s) (storage s) (world s) (log s) (fsm s) x (step_count s)
          (final_answer s).
Definition with_step_count (x : Z) (s : State) : State :=
  mkState (router s) (storage s) (world s) (log s) (fsm s) (total_cost s) x
          (final_answer s).
Definition with_final_answer (x : option string) (s : State) : State :=
  mkState (router s) (storage s) (world s) (log s) (fsm s) (total_cost s)
          (step_count s) x.

(** Code that reads and writes the state and may raise. *)
Definition M (A : Type) : Type := State -> result A * State.

Definition ret {A : Type} (a : A) : M A := fun s => (Ok a, s).
Definition raise {A : Type} (e : exn) : M A := fun s => (Raise e, s).
Definition mbind {A B : Type} (m : M A) (k : A -> M B) : M B :=
  fun s => match m s with
           | (Ok a, s') => k a s'
           | (Raise e, s') => (Raise e, s')
           end.

Notation "x <- m ;; k" := (mbind m (fun x => k))
  (at level 100, m at next level, right associativity).
Notation "m ;; k" := (mbind m (fun _ => k))
  (at level 100, right associativity).

Definition get {A : Type} (f : State -> A) : M A := fun s => (Ok (f s), s).
Definition modify (f : State -> State) : M unit := fun s => (Ok tt, f s).
Definition lift_result {A : Type} (r : result A) : M A := fun s => (r, s).

Definition lift_world {A : Type} (f : Os.World -> A * Os.World) : M A :=
  fun s => let '(a, w) := f (world s) in (Ok a, with_world w s).

Definition lift_storage {A : Type}
    (op : Sqlite.SQLiteStorage -> Os.World ->
          result A * (Sqlite.SQLiteStorage * Os.World)) : M A :=
  fun s => let '(r, (st, w)) := op (storage s) (world s) in
           (r, with_world w (with_storage st s)).

(** [try: m except ...: h]: [h e] is the handler of the first clause that
    matches [e], if any. *)
Definition try_except {A : Type} (m : M A) (h : exn -> option (M A)) : M A :=
  fun s => match m s with
           | (Ok a, s') => (Ok a, s')
           | (Raise e, s') =>
               match h e with
               | Some k => k s'
               | None => (Raise e, s')
               end
           end.

(** [_log.<level>(name, ...)] *)
Definition _log (level : LogLevel) (name : string) : M unit :=
  modify (fun s => with_log (log s ++ [(level, name)]) s).

(** [fsm.transition(to)] *)
Definition fsm_transition (to : SessionStatus) : M unit :=
  fun s => let '(r, f) := Fsm.transition to (fsm s) in (r, with_fsm f s).

(** [self._router.call(request)] *)
Definition router_call (req : PromptRequest.t) : M RawModelResponse.t :=
  fun s => let '(r, (rt, w)) := Router.call req (router s) (world s) in
           (r, with_world w (with_router rt s)).

(** [run_tool_sandboxed(manifest, arguments, tool_module_path)] *)
Definition run_tool (L : JsonLib) (manifest : ToolManifest.t) (arguments : dict)
    (tool_module_path : string) : M ToolResult.t :=
  fun s => let '(r, w) := Sandbox.run_tool_sandboxed L manifest arguments
                            tool_module_path (world s) in
           (r, with_world w s).

(** [int((time.monotonic() - t0) * 1000)] *)
Definition elapsed_ms (t0 : float) : M Z :=
  now <- lift_world Os.time_monotonic ;;
  lift_result (int_of_float ((now - t0) * 1000)%float).

(** [x or default] on an optional string *)
Definition or_else (o : option string) (d : string) : string :=
  match o with
  | Some s => if bool_decide (s = "") then d else s
  | None => d
  end.

Definition permission_value (p : ToolPermission) : string :=
  match p with
  | PERM_NONE => "none" | FILESYSTEM_READ => "fs_read"
  | FILESYSTEM_WRITE => "fs_write" | NETWORK => "network" | SHELL => "shell"
  end.

Section WithKernel.

(** The attributes of the kernel that [run] only reads, and the library. *)
Variable P : PyLib.
Variable _registry : Registry.ToolRegistry.
Variable _config : KernelConfig.t.

Let L : JsonLib := json_lib P.

(** [_emit] *)
Definition _emit (session_id : string) (step_id : option string)
    (event_type : string) (level : LogLevel) (payload : dict) : M unit :=
  event_id <- lift_world Os.new_id ;;
  timestamp <- lift_world Os.read_utcnow ;;
  try_except
    (lift_storage
       (Sqlite.write_event L
          (AuditEvent.mk session_id event_type level payload event_id step_id ""
                         timestamp)))
    (fun e =>
       if isinstance e AuditWriteFailureError
       then Some (_log CRITICAL "audit_emit_failed" ;; raise e)
       else None).

(** [_sync_session] *)
Definition _sync_session (session_id : string)
    (error_type : option string) (error_msg : option message) : M unit :=
  f <- get fsm ;;
  steps <- get step_count ;;
  cost <- get total_cost ;;
  try_except
    (lift_storage
       (Sqlite.update_session_status session_id (Fsm.state f) steps (round6 cost)
                                     error_type error_msg))
    (fun e =>
       if isinstance e AuditWriteFailureError
       then Some (_log CRITICAL "session_sync_failed" ;; raise e)
       else None).

(** [_calculate_cost] *)
Definition _calculate_cost (provider model : string)
    (input_tokens output_tokens : Z) : M float :=
  rt <- get router ;;
  ret (if bool_decide (provider = "anthropic") then
         match Router._providers rt !! provider with
         | Some p =>
             if Router.anthropic p then
               (* [except Exception: pass], then [return 0.0] *)
               match Anthropic.calculate_cost model input_tokens output_tokens with
               | Ok c => c
               | Raise _ => 0%float
               end
             else 0%float
         | None => 0%float
         end
       else 0%float).

(** [_execute_tool] *)
Definition _execute_tool (session_id step_id : string)
    (manifest : ToolManifest.t) (arguments : dict) (tool_call_id : string)
  : M ToolResult.t :=
  let name := ToolManifest.name manifest in
  let module_path := Registry.get_module_path name _registry in
  _emit session_id (Some step_id) "tool_call_start" INFO
        [("tool", JStr name); ("tool_call_id", JStr tool_call_id)] ;;
  outcome <-
    try_except
      (r <- run_tool L manifest arguments module_path ;;
       ret (inl r))
      (fun exc =>
         if isinstance_any exc [ToolTimeoutError; ToolSandboxError;
                                ToolInputValidationError; PathTraversalError]
         then Some (ret (inr exc))
         else None) ;;
  match outcome with
  | inr exc =>
      let et := class_name (type_of exc) in
      _log ERROR "tool_failed" ;;
      _emit session_id (Some step_id) "tool_call_failed" ERROR
            [("tool", JStr name); ("error_type", JStr et);
             ("error", JStr (render L (str_of exc)))] ;;
      ret (ToolResult.mk false name tool_call_id None (Some et)
                         (Some (str_of exc)) 0)
  | inl result =>
      let result2 :=
        ToolResult.mk (ToolResult.ok result) (ToolResult.tool_name result)
          tool_call_id (ToolResult.data result) (ToolResult.error_type result)
          (ToolResult.error_message result) (ToolResult.duration_ms result) in
      _emit session_id (Some step_id) "tool_call_end" INFO
            [("tool", JStr name); ("ok", JBool (ToolResult.ok result2));
             ("duration_ms", JInt (ToolResult.duration_ms result2))] ;;
      ret result2
  end.

(** [self._memory.get_conversation_history(session_id)] *)
Definition get_history (session_id : string) : M (list Message.t) :=
  lift_storage (Sqlite.get_conversation_history session_id).

(** [self._memory.append_message(session_id, message)] *)
Definition append_message (session_id : string) (m : Message.t) : M unit :=
  lift_storage (Sqlite.append_message session_id m).

(** One iteration of the [while not fsm.is_terminal] loop of [run]. *)
Definition loop_body (session_id provider model : string)
    (ctx : ExecutionContext.t) : M ExecutionContext.t :=
  modify (fun s => with_step_count (step_count s + 1) s) ;;
  step_count <- get step_count ;;
  (* ctx.with_step(...) *)
  new_trace_id <- lift_world Os.new_id ;;
  new_history <- get_history session_id ;;
  ctx_started <- lift_world Os.read_utcnow ;;
  let ctx :=
    ExecutionContext.mk (ExecutionContext.session_id ctx) new_trace_id step_count
      new_history (ExecutionContext.available_tools ctx)
      (ExecutionContext.config ctx) ctx_started in
  (if (step_count >? KernelConfig.max_steps _config)%Z
   then raise (Exn StepLimitExceededError
                 (Msg "Exceeded max_steps={self._config.max_steps}"
                      [MInt (KernelConfig.max_steps _config)]))
   else ret tt) ;;
  cost <- get total_cost ;;
  (if (KernelConfig.max_cost_usd _config <? cost)%float
   then raise (Exn CostBudgetExceededError
                 (Msg "Cost ${total_cost:.4f} exceeded budget ${self._config.max_cost_usd:.2f}"
                      [MVal (JFloat cost);
                       MVal (JFloat (KernelConfig.max_cost_usd _config))]))
   else ret tt) ;;
  (* model call *)
  let prompt_hash :=
    Sha256.sha256_str
      (json_dumps L (JList (map MessageOps.to_dict
                              (ExecutionContext.conversation_history ctx)))) in
  step_id <- lift_world Os.new_id ;;
  started_at <- lift_world Os.read_utcnow ;;
  let trace :=
    StepTrace.mk session_id step_count ST_MODEL_CALL STARTED step_id
      (Some prompt_hash) None None None None None None None None started_at None "" in
  lift_storage (Sqlite.write_step_start L trace) ;;
  t0 <- lift_world Os.time_monotonic ;;
  response <- router_call
    (PromptRequest.mk (ExecutionContext.conversation_history ctx) _SYSTEM_PROMPT
       (ExecutionContext.available_tools ctx) provider model session_id step_count) ;;
  step_ms <- elapsed_ms t0 ;;
  step_cost <- _calculate_cost provider model
                 (RawModelResponse.input_tokens response)
                 (RawModelResponse.output_tokens response) ;;
  modify (fun s => with_total_cost (total_cost s + step_cost)%float s) ;;
  finished_at <- lift_world Os.read_utcnow ;;
  let trace1 (step_type : StepType) (tool_name tool_input_json : option string) :=
    StepTrace.mk session_id step_count step_type COMPLETED step_id
      (Some prompt_hash) (Some (RawModelResponse.raw_response_hash response))
      tool_name tool_input_json None
      (Some (RawModelResponse.input_tokens response))
      (Some (RawModelResponse.output_tokens response))
      (Some step_cost) (Some step_ms) started_at (Some finished_at) "" in
  match RawModelResponse.action response with
  | FINAL_ANSWER =>
      lift_storage (Sqlite.write_step_end L (trace1 ST_FINAL_ANSWER None None)) ;;
      modify (with_final_answer (RawModelResponse.final_answer response)) ;;
      append_message session_id
        (Message.mk ASSISTANT
           (JStr (or_else (RawModelResponse.final_answer response) "")) JNone JNone) ;;
      fsm_transition DONE ;;
      ret ctx
  | TOOL_CALL =>
      match RawModelResponse.tool_call response with
      | None => raise (Exn AssertionError (MStr ""))
      | Some tc =>
          let tool_name := ToolCallRequest.tool_name tc in
          (if negb (Registry.has_tool tool_name _registry)
           then raise (Exn UnknownToolError
                         (Msg "Model requested unknown tool: {tc.tool_name!r}"
                              [MStr tool_name]))
           else ret tt) ;;
          manifest <- lift_result (Registry.get_manifest tool_name _registry) ;;
          let disallowed :=
            List.filter
              (fun p => negb (bool_decide
                                (p ∈ KernelConfig.allowed_permissions _config)))
              (ToolManifest.permissions manifest) in
          (match disallowed with
           | [] => ret tt
           | _ => raise (Exn PermissionDeniedError
                           (Msg "Tool {tc.tool_name!r} requires disallowed permissions: {disallowed}"
                                [MStr tool_name; MSeq (map permission_value disallowed)]))
           end) ;;
          lift_storage
            (Sqlite.write_step_end L
               (trace1 ST_TOOL_CALL (Some tool_name)
                       (Some (json_dumps L (JDict (ToolCallRequest.arguments tc)))))) ;;
          append_message session_id
            (Message.mk ASSISTANT (JStr ("[Tool call: " ++ tool_name ++ "]")%string)
                        JNone (JStr (ToolCallRequest.tool_call_id tc))) ;;
          fsm_transition WAITING ;;
          _sync_session session_id None None ;;
          tool_result <- _execute_tool session_id step_id manifest
                           (ToolCallRequest.arguments tc)
                           (ToolCallRequest.tool_call_id tc) ;;
          fsm_transition RUNNING ;;
          _sync_session session_id None None ;;
          let tool_content :=
            if ToolResult.ok tool_result
            then json_dumps L (default JNone (ToolResult.data tool_result))
            else ("ERROR: " ++
                  match ToolResult.error_message tool_result with
                  | Some m => render L m
                  | None => "None"
                  end)%string in
          append_message session_id
            (Message.mk TOOL (JStr tool_content) (JStr tool_name)
                        (JStr (ToolCallRequest.tool_call_id tc))) ;;
          ret ctx
      end
  end.

(** The class of the exception that stops a loop whose fuel ran out; no
    handler catches it. The loop never raises it (see the properties). *)
Definition out_of_fuel : exn := Exn BaseException (MStr "out of fuel").

(** [while not fsm.is_terminal: ...], unrolled at most [fuel] times. *)
Fixpoint main_loop (fuel : nat) (session_id provider model : string)
    (ctx : ExecutionContext.t) : M unit :=
  f <- get fsm ;;
  if Fsm.is_terminal f then ret tt
  else
    match fuel with
    | O => raise out_of_fuel
    | S fuel' =>
        ctx' <- loop_body session_id provider model ctx ;;
        main_loop fuel' session_id provider model ctx'
    end.

(** [if not fsm.is_terminal: fsm.transition(SessionStatus.FAILED)] *)
Definition fail_unless_terminal : M unit :=
  f <- get fsm ;;
  if Fsm.is_terminal f then ret tt else fsm_transition FAILED.

(** The [except] clauses of the [try] around the loop, in order: what is
    done with the exception [exc], giving [(error_type, error_msg)] or
    raising. *)
Definition on_exception (session_id : string) (exc : exn)
  : M (option string * option message) :=
  let error_type := class_name (type_of exc) in
  let error_msg := str_of exc in
  let payload := [("error_type", JStr error_type);
                  ("error", JStr (render L error_msg))] in
  if isinstance_any exc [StepLimitExceededError; CostBudgetExceededError; LimitError]
  then
    _log ERROR "limit_exceeded" ;;
    _emit session_id None "limit_exceeded" ERROR payload ;;
    fail_unless_terminal ;;
    ret (Some error_type, Some error_msg)
  else if isinstance_any exc [SecurityError; PathTraversalError]
  then
    _log ERROR "security_error" ;;
    _emit session_id None "security_error" ERROR payload ;;
    fail_unless_terminal ;;
    ret (Some error_type, Some error_msg)
  else if isinstance_any exc [ModelProviderExhaustedError; CircuitBreakerOpenError]
  then
    _log ERROR "provider_failure" ;;
    _emit session_id None "provider_failure" ERROR payload ;;
    fail_unless_terminal ;;
    ret (Some error_type, Some error_msg)
  else if isinstance exc AuditWriteFailureError
  then
    _log CRITICAL "audit_write_failure_halt" ;;
    fail_unless_terminal ;;
    _sync_session session_id (Some "AuditWriteFailureError")
                  (Some (MStr "Audit write failed — session terminated")) ;;
    raise exc
  else if isinstance exc Exception
  then
    let full_trace := format_exc P exc in
    _log CRITICAL "unexpected_error" ;;
    _emit session_id None "unexpected_error" CRITICAL
          [("error_type", JStr error_type); ("trace", JStr full_trace)] ;;
    fail_unless_terminal ;;
    ret (Some error_type,
         Some (Msg "Unexpected error ({error_type}). Check audit log." [MStr error_type]))
  else raise exc.

(** The statements of [run] before its [try]. *)
Definition startup (request : SessionRequest.t)
  : M (float * string * string * ExecutionContext.t) :=
  let session_id := SessionRequest.session_id request in
  let task := SessionRequest.task request in
  modify (fun s => with_final_answer None
                     (with_step_count 0
                        (with_total_cost 0%float
                           (with_fsm (Fsm.init session_id) s)))) ;;
  started <- lift_world Os.time_monotonic ;;
  try_except
    (lift_storage (Sqlite.create_session L session_id task _config))
    (fun e =>
       if isinstance e AuditWriteFailureError
       then Some (_log CRITICAL "session_create_failed" ;; raise e)
       else None) ;;
  match Scrubber.assert_clean_input (re_search P) task "task" with
  | Raise exc =>
      if isinstance exc PromptInjectionWarning
      then
        _log WARN "injection_scan_hit" ;;
        _emit session_id None "injection_scan_warn" WARN
              [("w", JStr (render L (str_of exc)))]
      else raise exc
  | Ok _ => ret tt
  end ;;
  let provider := or_else (SessionRequest.provider_override request)
                          (KernelConfig.primary_provider _config) in
  let model := or_else (SessionRequest.model_override request)
                       (KernelConfig.primary_model _config) in
  _emit session_id None "session_start" INFO
        [("task_len", JInt (Z.of_nat (String.length task)));
         ("provider", JStr provider); ("model", JStr model)] ;;
  fsm_transition RUNNING ;;
  _sync_session session_id None None ;;
  append_message session_id (Message.mk USER (JStr task) JNone JNone) ;;
  trace_id <- lift_world Os.new_id ;;
  history <- get_history session_id ;;
  ctx_started <- lift_world Os.read_utcnow ;;
  ret (started, provider, model,
       ExecutionContext.mk session_id trace_id 0 history
         (Registry.all_manifests _registry) _config ctx_started).

(** The statements of [run] after its [try]. *)
Definition teardown (session_id : string) (started : float)
    (error_type : option string) (error_msg : option message)
  : M SessionResult.t :=
  duration_ms <- elapsed_ms started ;;
  f <- get fsm ;;
  steps <- get step_count ;;
  cost <- get total_cost ;;
  answer <- get final_answer ;;
  _emit session_id None "session_end" INFO
        [("status", JStr (status_value (Fsm.state f))); ("steps", JInt steps);
         ("cost_usd", JFloat (round6 cost)); ("duration_ms", JInt duration_ms)] ;;
  _sync_session session_id error_type error_msg ;;
  ret (SessionResult.mk session_id (Fsm.state f) answer steps (round6 cost)
                        duration_ms error_type error_msg).

(** The iterations the loop can start: the one after [max_steps] raises. *)
Definition loop_fuel : nat := S (Z.to_nat (KernelConfig.max_steps _config)).

(** [AgentKernel.run] *)
Definition run (request : SessionRequest.t) : M SessionResult.t :=
  let session_id := SessionRequest.session_id request in
  started_up <- startup request ;;
  let '(started, provider, model, ctx) := started_up in
  errors <-
    try_except
      (main_loop loop_fuel session_id provider model ctx ;; ret (None, None))
      (fun exc => Some (on_exception session_id exc)) ;;
  teardown session_id started (fst errors) (snd errors).

End WithKernel.

End Kernel.

(** ** Test doubles, after tests/conftest.py and tests/test_router.py *)

Module Scenario.

(** [make_request()] of tests/test_router.py *)
Definition make_request (provider : string) : PromptRequest.t :=
  PromptRequest.mk [] "test" [] provider "mock-model" "test-session" 1.

(** [_fa(text)] of tests/test_router.py; the hash is not computed here. *)
Definition final_answer (text : string) : RawModelResponse.t :=
  RawModelResponse.mk FINAL_ANSWER 10 5 "mock" "mock" "" None (Some text).

(** A provider whose every call raises [ModelProviderError("Server error",
    status_code=500)]. *)
Definition failing_provider : Router.Provider :=
  Router.mkProvider false
    (fun _ _ => Raise (ModelProviderError_ (MStr "Server error") (Some 500)))
    [].

(** A provider that raises [ModelRateLimitError] on its first two calls and
    answers on the third. *)
Definition flaky_provider : Router.Provider :=
  Router.mkProvider false
    (fun history _ =>
       if (length history <? 2)%nat
       then Raise (Exn ModelRateLimitError (MStr "Rate limited"))
       else Ok (final_answer "success after retries"))
    [].

(** A clock that advances one second per read; every draw is 0.5. *)
Definition world0 : Os.World :=
  Os.mkWorld (Os.mkStream (fun n => float_of_Z (Z.of_nat n)) 0)
             (Os.mkStream (fun _ => 0.5%float) 0) []
             (fun s => Ok s) (fun _ => Os.Completed 0 "" "") []
             (Os.mkStream (fun _ => "2026-01-01T00:00:00+00:00") 0)
             (Os.mkStream (fun _ => "00000000-0000-4000-8000-000000000000") 0)
             (Os.mkStream (fun _ => false) 0).

Definition router_of (p : Router.Provider) : Router.ModelRouter :=
  Router.mkRouter {[ "mock" := p ]} {[ "mock" := Breaker.init_default "mock" ]}.

(** [make_manifest(...)] of tests/conftest.py *)
Definition make_manifest (allowed_paths : list string) : ToolManifest.t :=
  ToolManifest.mk "test_tool" "1.0.0" "A test tool for unit testing purposes only."
    [PERM_NONE] 10
    [("type", JStr "object");
     ("properties", JDict [("value", JDict [("type", JStr "string")])]);
     ("required", JList [JStr "value"]);
     ("additionalProperties", JBool false)]
    [("type", JStr "object");
     ("properties", JDict [("result", JDict [("type", JStr "string")])]);
     ("required", JList [JStr "result"]);
     ("additionalProperties", JBool false)]
    256 allowed_paths.

(** A manifest whose output schema asks for nothing. *)
Definition lenient_manifest : ToolManifest.t :=
  ToolManifest.mk "noop_tool" "1.0.0" "A no-operation tool for testing."
    [PERM_NONE] 10
    [("type", JStr "object"); ("properties", JDict []);
     ("additionalProperties", JBool true)]
    [("type", JStr "object"); ("properties", JDict [])]
    256 [].

(** A manifest with an allowed base whose input takes a list of files and
    whose output schema asks for nothing. *)
Definition files_manifest : ToolManifest.t :=
  ToolManifest.mk "read_files" "1.0.0" "Reads the files it is given."
    [PERM_NONE] 10
    [("type", JStr "object");
     ("properties", JDict [("files", JDict [("type", JStr "array")])]);
     ("required", JList [JStr "files"]);
     ("additionalProperties", JBool false)]
    [("type", JStr "object"); ("properties", JDict [])]
    256 ["/tmp"].

(** A stand-in for the [json] module: [loads] knows the texts of a table,
    [dumps] gives a fixed text. *)
Definition json_table (table : list (string * json)) : JsonLib :=
  mkJsonLib (fun _ => "<json>")
    (fun s => match dict_get s table with
              | Some v => inr v
              | None => inl (MStr "Expecting value")
              end).

(** A host whose file system has no symlinks (every path resolves to
    itself) and whose children exit 0 printing [stdout]. *)
Definition host (stdout : string) : Os.World :=
  Os.mkWorld (Os.mkStream (fun n => float_of_Z (Z.of_nat n)) 0)
             (Os.mkStream (fun _ => 0.5%float) 0) []
             (fun s => Ok s) (fun _ => Os.Completed 0 stdout "") []
             (Os.mkStream (fun _ => "2026-01-01T00:00:00+00:00") 0)
             (Os.mkStream (fun _ => "00000000-0000-4000-8000-000000000000") 0)
             (Os.mkStream (fun _ => false) 0).

(** A serializer in the format of [json.dumps] for values without floats
    whose strings need no escaping; a float is rendered by a placeholder. *)
Definition dq : string := String (ascii_of_nat 34) EmptyString.

Fixpoint dumps (v : json) : string :=
  match v with
  | JNone => "null"
  | JBool true => "true"
  | JBool false => "false"
  | JInt z => NilZero.string_of_int (Z.to_int z)
  | JFloat _ => "<float>"
  | JStr s => (dq ++ s ++ dq)%string
  | JList l => ("[" ++ String.concat ", " (map dumps l) ++ "]")%string
  | JDict d =>
      ("{" ++ String.concat ", "
                (map (fun '(k, x) => (dq ++ k ++ dq ++ ": " ++ dumps x)%string) d)
           ++ "}")%string
  end.

Definition lib : JsonLib := mkJsonLib dumps (fun _ => inl (MStr "Expecting value")).

(** The host of a test run: no transaction fails, the clock of [utcnow]
    advances one second per read, every [new_id()] is different. *)
Definition two_digits (n : nat) : string :=
  ((if (n <? 10)%nat then "0" else "")
   ++ NilZero.string_of_uint (Nat.to_uint n))%string.

Definition test_host : Os.World :=
  Os.mkWorld (Os.mkStream (fun n => float_of_Z (Z.of_nat n)) 0)
             (Os.mkStream (fun _ => 0.5%float) 0) []
             (fun s => Ok s) (fun _ => Os.Completed 0 "" "") []
             (Os.mkStream (fun n => ("2026-01-01T00:00:" ++ two_digits n ++ "+00:00")%string) 0)
             (Os.mkStream (fun n => ("id-" ++ NilZero.string_of_uint (Nat.to_uint n))%string) 0)
             (Os.mkStream (fun _ => false) 0).

(** The events of the test "tampered audit record breaks chain". *)
Definition event1 : AuditEvent.t :=
  AuditEvent.mk "s1" "e1" INFO [("v", JStr "orig")] "ev-1" None ""
                "2026-01-01T00:00:01+00:00".

Definition event2 : AuditEvent.t :=
  AuditEvent.mk "s1" "e2" INFO [("v", JStr "2")] "ev-2" None ""
                "2026-01-01T00:00:02+00:00".


Definition opened : Sqlite.SQLiteStorage * Os.World :=
  (Sqlite.mkStorage Sqlite.empty_db ∅ ∅,
   snd (Sqlite.init Sqlite.empty_db test_host)).

Definition after_event1 : Sqlite.SQLiteStorage * Os.World :=
  snd (Sqlite.write_event lib event1 (fst opened) (snd opened)).

Definition after_event2 : Sqlite.SQLiteStorage * Os.World :=
  snd (Sqlite.write_event lib event2 (fst after_event1) (snd after_event1)).

(** The kernel of the integration tests: a mock provider, the test
    configuration, a registry with one tool, a new database. *)
Definition pylib : Kernel.PyLib :=
  Kernel.mkPyLib lib (fun _ _ _ => false) (fun e => class_name (type_of e)).

Definition config (provider model : string) (max_steps : Z) : KernelConfig.t :=
  KernelConfig.mk provider model None None max_steps 1%float 80000
    [PERM_NONE; FILESYSTEM_READ; FILESYSTEM_WRITE] [] "INFO"
    "~/.aria/aria.db" "~/.aria/logs/aria.jsonl".

Definition registry : Registry.ToolRegistry :=
  Registry.mk [("noop_tool", lenient_manifest)] [("noop_tool", "/plugins/noop_tool.py")].

(** A provider that answers every call with the same response. *)
Definition constant_provider (anthropic : bool) (r : RawModelResponse.t)
  : Router.Provider :=
  Router.mkProvider anthropic (fun _ _ => Ok r) [].

Definition answer (text : string) (input_tokens output_tokens : Z)
  : RawModelResponse.t :=
  RawModelResponse.mk FINAL_ANSWER input_tokens output_tokens "mock-model" "mock"
    "" None (Some text).

(** [make_tool_call(tool_name, args)] of tests/conftest.py *)
Definition tool_call (tool_name : string) (args : dict) : RawModelResponse.t :=
  RawModelResponse.mk TOOL_CALL 50 20 "mock-model" "mock" ""
    (Some (ToolCallRequest.mk tool_name args "call-1")) None.

(** The test host, on which the database transaction number [k] fails
    ([k] counted from the opening of the database). *)
Definition host_failing_at (k : nat) : Os.World :=
  Os.mkWorld (Os.monotonic test_host) (Os.uniform01 test_host) []
             (Os.resolve test_host) (Os.child test_host) []
             (Os.utcnow test_host) (Os.uuid4 test_host)
             (Os.mkStream (fun n => Nat.eqb n k) 0).

(** The state in which [run] is called: the database has just been opened
    on the host [w]. *)
Definition fresh (name : string) (p : Router.Provider) (w : Os.World) : Kernel.State :=
  Kernel.mkState
    (Router.mkRouter {[ name := p ]} {[ name := Breaker.init_default name ]})
    (Sqlite.mkStorage Sqlite.empty_db ∅ ∅)
    (snd (Sqlite.init Sqlite.empty_db w))
    [] (Fsm.init "") 0%float 0 None.

Definition request (task : string) : SessionRequest.t :=
  SessionRequest.mk task "session-1" None None None false.

(** One session of the test kernel on the host [w]: the mock provider
    answers every call with [r], at most [max_steps] steps. *)
Definition mock_session (max_steps : Z) (r : RawModelResponse.t) (w : Os.World)
  : result SessionResult.t * Kernel.State :=
  Kernel.run pylib registry (config "mock" "mock-model" max_steps)
             (request "What is 6 times 7?")
             (fresh "mock" (constant_provider false r) w).

(** The same with a provider registered as "anthropic" that is an
    [AnthropicProvider], so that steps have a cost. *)
Definition anthropic_session (r : RawModelResponse.t) (w : Os.World)
  : result SessionResult.t * Kernel.State :=
  Kernel.run pylib registry (config "anthropic" "claude-haiku-4-5-20251001" 5)
             (request "What is 6 times 7?")
             (fresh "anthropic" (constant_provider true r) w).

End Scenario.

(** ** aria/security/secrets.py *)

Module Secrets.

(** [SecretsLoader]: the attribute [_loaded]. *)
Record SecretsLoader : Type := mk {
  _loaded : gmap string string
}.

(** [SecretsLoader.__init__] *)
Definition init : SecretsLoader := mk ∅.

(** [require(env_key, min_length)]; [environ] is [os.environ]. *)
Definition require (environ : gmap string string) (env_key : string)
    (min_length : Z) (l : SecretsLoader) : result string * SecretsLoader :=
  match _loaded l !! env_key with
  | Some v => (Ok v, l)
  | None =>
      match environ !! env_key with
      | None =>
          (Raise (Exn SecretNotFoundError
                    (Msg "Required env var {env_key!r} not set. Set it before starting ARIA."
                         [MStr env_key])), l)
      | Some raw =>
          let value := strip raw in
          if (Z.of_nat (String.length value) <? min_length)%Z
          then (Raise (Exn SecretInvalidError
                         (Msg "Env var {env_key!r} appears invalid (length {len(value)} < {min_length})"
                              [MStr env_key; MInt (Z.of_nat (String.length value));
                               MInt min_length])), l)
          else (Ok value, mk (<[env_key := value]> (_loaded l)))
      end
  end.

(** [optional(env_key, default)] *)
Definition optional (environ : gmap string string) (env_key default : string)
    (l : SecretsLoader) : string * SecretsLoader :=
  match _loaded l !! env_key with
  | Some v => (v, l)
  | None =>
      let value := strip (match environ !! env_key with
                          | Some raw => raw
                          | None => default
                          end) in
      if negb (bool_decide (value = ""))
      then (value, mk (<[env_key := value]> (_loaded l)))
      else (value, l)
  end.

(** property [known_values] *)
Definition known_values (l : SecretsLoader) : gset string :=
  list_to_set (List.filter (fun v => (4 <=? Z.of_nat (String.length v))%Z)
                           (map snd (map_to_list (_loaded l)))).

End Secrets.

(** *** The log scrubber *)

Module Scrub.

(** [_SECRET_KEYS] *)
Definition _SECRET_KEYS : list string :=
  ["api_key"; "apikey"; "secret"; "password"; "token"; "authorization";
   "auth"; "credential"; "private_key"; "access_key"].

Definition _REDACTED : string := "[REDACTED]".

(** [str.lower] on one character of a [str] whose code points are below
    256: A-Z, and the upper-case letters of Latin-1 (all of 192-222 but the
    multiplication sign 215). *)
Definition lower_char (c : ascii) : ascii :=
  let n := nat_of_ascii c in
  if ((65 <=? n) && (n <=? 90)
      || (192 <=? n) && (n <=? 222) && negb (n =? 215))%nat
  then ascii_of_nat (n + 32)
  else c.

Fixpoint lower (s : string) : string :=
  match s with
  | EmptyString => EmptyString
  | String c s' => String (lower_char c) (lower s')
  end.

(** [any(p in k.lower() for p in _SECRET_KEYS)] *)
Definition secret_key (k : string) : bool :=
  existsb (fun p => is_substring p (lower k)) _SECRET_KEYS.

(** [value.replace(old, new)] for a non-empty [old]: the occurrences are
    taken from the left and do not overlap; [skip] characters of a replaced
    occurrence are still to be dropped. *)
Fixpoint replace_from (old new : string) (skip : nat) (value : string) : string :=
  match value with
  | EmptyString => EmptyString
  | String c rest =>
      match skip with
      | S k => replace_from old new k rest
      | O =>
          if String.prefix old value
          then (new ++ replace_from old new (String.length old - 1) rest)%string
          else String c (replace_from old new 0 rest)
      end
  end.

Definition replace (old new value : string) : string := replace_from old new 0 value.

(** The loop [for s in known: if s and s in value: value = value.replace(s,
    _REDACTED)]; [known] lists the frozenset in the order of iteration. *)
Definition redact_known (known : list string) (value : string) : string :=
  fold_left (fun value s =>
               if negb (bool_decide (s = "")) && is_substring s value
               then replace s _REDACTED value
               else value)
            known value.

(** [scrub_value(value, known)]; [secret_sub value] is
    [_SECRET_RE.sub(_REDACTED, value)]. A tuple is a list here. *)
Fixpoint scrub_value (secret_sub : string -> string) (known : list string)
    (value : json) : json :=
  match value with
  | JStr s => JStr (secret_sub (redact_known known s))
  | JDict d =>
      JDict ((fix items (d : list (string * json)) : list (string * json) :=
                match d with
                | [] => []
                | (k, v) :: d' =>
                    (k, if secret_key k then JStr _REDACTED
                        else scrub_value secret_sub known v) :: items d'
                end) d)
  | JList l =>
      JList ((fix elements (l : list json) : list json :=
                match l with
                | [] => []
                | i :: l' => scrub_value secret_sub known i :: elements l'
                end) l)
  | _ => value
  end.

(** [scrub_record(record, known)] *)
Definition scrub_record (secret_sub : string -> string) (known : list string)
    (record : dict) : dict :=
  map (fun '(k, v) => (k, if secret_key k then JStr _REDACTED
                          else scrub_value secret_sub known v)) record.

End Scrub.

(** ** aria/models/providers/anthropic_provider.py (messages and responses) *)

Module AnthropicApi.

(** [_build_messages(messages)] *)
Fixpoint _build_messages (messages : list Message.t) : list json :=
  match messages with
  | [] => []
  | msg :: rest =>
      match Message.role msg with
      | SYSTEM => _build_messages rest
      | TOOL =>
          JDict [("role", JStr "user");
                 ("content",
                  JList [JDict [("type", JStr "tool_result");
                                ("tool_use_id",
                                 if truthy (Message.tool_call_id msg)
                                 then Message.tool_call_id msg
                                 else JStr "unknown");
                                ("content", Message.content msg)]])]
          :: _build_messages rest
      | ASSISTANT =>
          JDict [("role", JStr "assistant"); ("content", Message.content msg)]
          :: _build_messages rest
      | USER =>
          JDict [("role", JStr "user"); ("content", Message.content msg)]
          :: _build_messages rest
      end
  end.

(** A content block of the SDK's response, as [_parse_response] reads it:
    the name of its class, its [type], and the attributes [text], [id],
    [name] and [input], each present or not. *)
Record ContentBlock : Type := mkBlock {
  class_name : string;
  type : string;
  text : option string;
  block_id : option string;
  block_name : option string;
  block_input : option json
}.

(** [block.attr]: a missing attribute raises AttributeError. *)
Definition getattr {A} (block : ContentBlock) (attr : string) (v : option A)
  : result A :=
  match v with
  | Some a => Ok a
  | None =>
      Raise (Exn AttributeError
               (Msg "{!r} object has no attribute {!r}"
                    [MStr (class_name block); MStr attr]))
  end.

(** The response object: [id] when the attribute exists, [usage],
    [content] and [stop_reason]. *)
Record Response : Type := mkResponse {
  id : option string;
  usage_input_tokens : Z;
  usage_output_tokens : Z;
  content : list ContentBlock;
  stop_reason : json
}.

(** [RawModelResponse(...)]: the dataclass constructor with its
    [__post_init__]. *)
Definition new_RawModelResponse (r : RawModelResponse.t) : result RawModelResponse.t :=
  if bool_decide (RawModelResponse.action r = TOOL_CALL) &&
     match RawModelResponse.tool_call r with None => true | Some _ => false end
  then Raise (Exn ValueError (MStr "action=tool_call requires tool_call to be set"))
  else if bool_decide (RawModelResponse.action r = FINAL_ANSWER) &&
          match RawModelResponse.final_answer r with
          | None => true
          | Some s => bool_decide (s = "")
          end
  then Raise (Exn ValueError
                (MStr "action=final_answer requires final_answer to be non-empty"))
  else Ok r.

(** The first block whose type is "tool_use", if any. *)
Definition first_tool_use (blocks : list ContentBlock) : option ContentBlock :=
  List.find (fun b => bool_decide (type b = "tool_use")) blocks.

(** [b.text for b in response.content if hasattr(b, "text") and b.text] *)
Definition texts (blocks : list ContentBlock) : list string :=
  flat_map (fun b => match text b with
                     | Some s => if bool_decide (s = "") then [] else [s]
                     | None => []
                     end) blocks.

(** [_parse_response(response, model, provider)] *)
Definition _parse_response (L : JsonLib) (response : Response)
    (model provider : string) : result RawModelResponse.t :=
  let raw_hash :=
    Sha256.sha256_str
      (json_dumps L (JDict [("model", JStr model);
                            ("id", JStr (default "" (id response)))])) in
  let in_tok := usage_input_tokens response in
  let out_tok := usage_output_tokens response in
  match first_tool_use (content response) with
  | Some block =>
      bind (getattr block "id" (block_id block)) (fun tool_call_id =>
      bind (getattr block "name" (block_name block)) (fun tool_name =>
      bind (getattr block "input" (block_input block)) (fun input =>
      new_RawModelResponse
        (RawModelResponse.mk TOOL_CALL in_tok out_tok model provider raw_hash
           (Some (ToolCallRequest.mk tool_name
                    match input with JDict d => d | _ => [] end
                    tool_call_id))
           None))))
  | None =>
      let text := strip (String.concat " " (texts (content response))) in
      if bool_decide (text = "") then
        Raise (Exn ModelOutputValidationError
                 (Msg "Model returned empty response. Stop reason: {response.stop_reason}"
                      [MVal (stop_reason response)]))
      else
        new_RawModelResponse
          (RawModelResponse.mk FINAL_ANSWER in_tok out_tok model provider raw_hash
             None (Some text))
  end.

End AnthropicApi.

(** *** Registration *)

Module RegistryBuild.

(** What [_register] reads of a plugin class: its name, the attribute
    [manifest] when it is a [ToolManifest], and whether [execute] is
    callable. *)
Record ToolClass : Type := mkClass {
  __name__ : string;
  manifest : option ToolManifest.t;
  has_execute : bool
}.

(** [manifest.permissions - self._config.allowed_permissions] *)
Definition disallowed (config : KernelConfig.t) (m : ToolManifest.t)
  : list ToolPermission :=
  List.filter (fun p => negb (bool_decide (p ∈ KernelConfig.allowed_permissions config)))
              (ToolManifest.permissions m).

(** [d[k] = v] on a dict in insertion order: an existing key keeps its
    place. *)
Fixpoint dict_set {A : Type} (k : string) (v : A) (d : list (string * A))
  : list (string * A) :=
  match d with
  | [] => [(k, v)]
  | (k', v') :: d' =>
      if bool_decide (k' = k) then (k, v) :: d' else (k', v') :: dict_set k v d'
  end.

(** [ToolRegistry._register(cls, module_path)] for the registry of
    configuration [config]; the dict [_executors], which the kernel never
    reads, is left out. *)
Definition _register (config : KernelConfig.t) (cls : ToolClass)
    (module_path : string) (r : Registry.ToolRegistry)
  : result unit * Registry.ToolRegistry :=
  match manifest cls with
  | None =>
      (Raise (Exn ManifestValidationError
                (Msg "{cls.__name__}.manifest must be a ToolManifest"
                     [MStr (__name__ cls)])), r)
  | Some m =>
      if negb (has_execute cls) then
        (Raise (Exn ManifestValidationError
                  (Msg "Tool {manifest.name!r} has no execute() method"
                       [MStr (ToolManifest.name m)])), r)
      else
        match disallowed config m with
        | _ :: _ =>
            (Raise (Exn PermissionDeniedError
                      (Msg "Tool {manifest.name!r} requires {disallowed} not in allowed_permissions: {self._config.allowed_permissions}"
                           [MStr (ToolManifest.name m);
                            MSeq (map Kernel.permission_value (disallowed config m));
                            MSeq (map Kernel.permission_value
                                      (KernelConfig.allowed_permissions config))])),
             r)
        | [] =>
            if Registry.has_tool (ToolManifest.name m) r then
              (Raise (Exn ManifestValidationError
                        (Msg "Duplicate tool name: {manifest.name!r}"
                             [MStr (ToolManifest.name m)])), r)
            else
              (Ok tt,
               Registry.mk (dict_set (ToolManifest.name m) m (Registry._manifests r))
                           (dict_set (ToolManifest.name m) module_path
                                     (Registry._module_paths r)))
        end
  end.

(** [ToolRegistry.__init__] *)
Definition init : Registry.ToolRegistry := Registry.mk [] [].

End RegistryBuild.

(* ===================================================================== *)
(** * Part II. Properties                                                  *)
(* ===================================================================== *)

(** ** Session FSM *)

(** The transition table as the specification words it. *)
Definition legal_transition (from to : SessionStatus) : bool :=
  match from, to with
  | IDLE, (RUNNING | CANCELLED) => true
  | RUNNING, (WAITING | DONE | FAILED | CANCELLED) => true
  | WAITING, (RUNNING | FAILED | CANCELLED) => true
  | _, _ => false
  end.

Lemma valid_table_agrees (from to : SessionStatus) :
  bool_decide (to ∈ Fsm._VALID from) = legal_transition from to.
Proof. destruct from, to; vm_compute; reflexivity. Qed.

Lemma terminal_has_no_successor (fsm : Fsm.SessionFSM) (to : SessionStatus) :
  Fsm.is_terminal fsm = true -> legal_transition (Fsm.state fsm) to = false.
Proof.
  unfold Fsm.is_terminal, Fsm.state.
  destruct (Fsm._state fsm), to; vm_compute; congruence.
Qed.

Lemma transition_by_table (fsm : Fsm.SessionFSM) (to : SessionStatus) :
  Fsm.transition to fsm =
    if legal_transition (Fsm.state fsm) to
    then (Ok tt, Fsm.mkFSM to (Fsm._session_id fsm)
                   (Fsm._history fsm ++ [(Fsm.state fsm, to)]))
    else (Raise (InvalidStateTransitionError_
                   (status_value (Fsm.state fsm)) (status_value to)),
          fsm).
Proof.
  unfold Fsm.transition, Fsm.state.
  rewrite valid_table_agrees.
  destruct (legal_transition (Fsm._state fsm) to); reflexivity.
Qed.

(** C6. A new FSM is in IDLE. [transition to] succeeds exactly on the pairs
    of the transition table, and then sets the state to [to] (recording the
    pair in the history); on every other pair it raises
    [InvalidStateTransitionError(from, to)] and the FSM is unchanged. In
    particular every transition out of DONE, FAILED or CANCELLED raises. *)
Theorem fsm_transition_table :
  (forall sid, Fsm.state (Fsm.init sid) = IDLE) /\
  (forall fsm to,
      Fsm.transition to fsm =
        if legal_transition (Fsm.state fsm) to
        then (Ok tt, Fsm.mkFSM to (Fsm._session_id fsm)
                       (Fsm._history fsm ++ [(Fsm.state fsm, to)]))
        else (Raise (InvalidStateTransitionError_
                       (status_value (Fsm.state fsm)) (status_value to)),
              fsm)) /\
  (forall fsm to,
      Fsm.state fsm ∈ [DONE; FAILED; CANCELLED] ->
      Fsm.transition to fsm =
        (Raise (InvalidStateTransitionError_
                  (status_value (Fsm.state fsm)) (status_value to)), fsm)).
Proof.
  split; [reflexivity|].
  split; [exact transition_by_table|].
  intros fsm to Hterm. rewrite transition_by_table.
  rewrite terminal_has_no_successor; [reflexivity|].
  unfold Fsm.is_terminal. apply bool_decide_eq_true. exact Hterm.
Qed.

Lemma fsm_transition_table_witness :
  Fsm.state (Fsm.mkFSM DONE "s" [(IDLE, RUNNING); (RUNNING, DONE)])
    ∈ [DONE; FAILED; CANCELLED] /\
  Fsm.transition RUNNING (Fsm.mkFSM DONE "s" [(IDLE, RUNNING); (RUNNING, DONE)]) =
    (Raise (InvalidStateTransitionError_ "DONE" "RUNNING"),
     Fsm.mkFSM DONE "s" [(IDLE, RUNNING); (RUNNING, DONE)]).
Proof.
  split.
  - constructor.
  - apply (proj2 (proj2 fsm_transition_table)). constructor.
Defined.

(** ** Circuit breaker *)










(** ** Model router *)

(** The breaker as the specification describes it, for the use the router
    makes of it. [same_breaker cb state failures opened_at] is [cb] with
    these three attributes. *)
Definition same_breaker (cb : Breaker.CircuitBreaker) (state : Breaker.CBState)
    (failures : list float) (opened_at : option float) : Breaker.CircuitBreaker :=
  Breaker.mkCB (Breaker.provider cb) (Breaker._threshold cb) (Breaker._window cb)
    (Breaker._recovery cb) state failures opened_at.

(** Consulting the breaker: CLOSED and HALF_OPEN admit; OPEN rejects with
    CircuitBreakerOpen(provider) until [now - opened_at >= recovery_seconds]
    and is HALF_OPEN, admitting, from then on. Only an OPEN breaker reads
    the clock. The outcome is the error raised, if any. *)
Inductive consulted
  : Breaker.CircuitBreaker -> Os.World ->
    option exn -> Breaker.CircuitBreaker -> Os.World -> Prop :=
| consulted_closed cb w :
    Breaker._state cb = Breaker.CLOSED ->
    consulted cb w None cb w
| consulted_half_open cb w :
    Breaker._state cb = Breaker.HALF_OPEN ->
    consulted cb w None cb w
| consulted_open cb w opened_at now w1 :
    Breaker._state cb = Breaker.OPEN ->
    Breaker._opened_at cb = Some opened_at ->
    Os.time_monotonic w = (now, w1) ->
    (Breaker._recovery cb <=? now - opened_at)%float = false ->
    consulted cb w (Some (CircuitBreakerOpenError_ (Breaker.provider cb))) cb w1
| consulted_recovered cb w opened_at now w1 :
    Breaker._state cb = Breaker.OPEN ->
    Breaker._opened_at cb = Some opened_at ->
    Os.time_monotonic w = (now, w1) ->
    (Breaker._recovery cb <=? now - opened_at)%float = true ->
    consulted cb w None
      (same_breaker cb Breaker.HALF_OPEN (Breaker._failures cb) (Some opened_at)) w1
| consulted_open_for_good cb w :
    (* OPEN without an opening time never recovers *)
    Breaker._state cb = Breaker.OPEN ->
    Breaker._opened_at cb = None ->
    consulted cb w (Some (CircuitBreakerOpenError_ (Breaker.provider cb))) cb w.

(** Recording a failure at time [now]: HALF_OPEN goes back to OPEN with
    [opened_at = now]; otherwise the timestamps older than the window are
    evicted and [now] is appended, and when the count reaches the threshold
    the breaker is OPEN with [opened_at = now] and an empty window. *)
Definition failure_recorded (now : float) (cb : Breaker.CircuitBreaker)
  : Breaker.CircuitBreaker :=
  match Breaker._state cb with
  | Breaker.HALF_OPEN => same_breaker cb Breaker.OPEN (Breaker._failures cb) (Some now)
  | state =>
      let window := List.filter (fun t => (now - t <? Breaker._window cb)%float)
                                (Breaker._failures cb) ++ [now] in
      if (Z.of_nat (length window) >=? Breaker._threshold cb)%Z
      then same_breaker cb Breaker.OPEN [] (Some now)
      else same_breaker cb state window (Breaker._opened_at cb)
  end.

(** Recording a success: the window is cleared, and HALF_OPEN returns to
    CLOSED with [opened_at] cleared. *)
Definition success_recorded (cb : Breaker.CircuitBreaker) : Breaker.CircuitBreaker :=
  match Breaker._state cb with
  | Breaker.HALF_OPEN => same_breaker cb Breaker.CLOSED [] None
  | state => same_breaker cb state [] (Breaker._opened_at cb)
  end.

(** The retry policy in the words of the specification: what one call does
    from attempt [a] on, for the provider [p] and its breaker [cb]. The
    triple is the provider, its breaker and the world (clock, random draws,
    sleeps) before and after. *)
Inductive retry_policy (req : PromptRequest.t)
  : Z -> Router.Provider * Breaker.CircuitBreaker * Os.World ->
    result RawModelResponse.t *
      (Router.Provider * Breaker.CircuitBreaker * Os.World) -> Prop :=
| rp_breaker_open a p cb w e cb1 w1 :
    (* the breaker refuses: the call aborts with that error; the provider is
       not called and no failure is recorded *)
    consulted cb w (Some e) cb1 w1 ->
    retry_policy req a (p, cb, w) (Raise e, (p, cb1, w1))
| rp_success a p cb w cb1 w1 response p1 :
    consulted cb w None cb1 w1 ->
    Router.provider_call req p = (Ok response, p1) ->
    retry_policy req a (p, cb, w)
      (Ok response, (p1, success_recorded cb1, w1))
| rp_output_validation a p cb w cb1 w1 exc p1 now w2 :
    (* not retryable: record the failure and re-raise *)
    consulted cb w None cb1 w1 ->
    Router.provider_call req p = (Raise exc, p1) ->
    isinstance exc ModelOutputValidationError = true ->
    Os.time_monotonic w1 = (now, w2) ->
    retry_policy req a (p, cb, w) (Raise exc, (p1, failure_recorded now cb1, w2))
| rp_retry a p cb w cb1 w1 exc p1 now w2 draw w3 out :
    (* retryable and attempts remain: record the failure, sleep, go on *)
    consulted cb w None cb1 w1 ->
    Router.provider_call req p = (Raise exc, p1) ->
    isinstance_any exc [ModelProviderError; ModelRateLimitError; ModelTimeoutError]
      = true ->
    Os.time_monotonic w1 = (now, w2) ->
    a < 3 ->
    Os.random_uniform01 w2 = (draw, w3) ->
    retry_policy req (a + 1)
      (p1, failure_recorded now cb1,
       Os.time_sleep (min2 (2 * float_of_Z (2 ^ (a - 1)) + draw) 30)%float w3)
      out ->
    retry_policy req a (p, cb, w) out
| rp_exhausted p cb w cb1 w1 exc p1 now w2 :
    (* retryable on the third attempt: record the failure and give up *)
    consulted cb w None cb1 w1 ->
    Router.provider_call req p = (Raise exc, p1) ->
    isinstance_any exc [ModelProviderError; ModelRateLimitError; ModelTimeoutError]
      = true ->
    Os.time_monotonic w1 = (now, w2) ->
    retry_policy req 3 (p, cb, w)
      (Raise (ModelProviderExhaustedError_
                (Msg "Provider {request.provider!r} failed after {_MAX_RETRIES} attempts. Last: {last_err}"
                     [MStr (PromptRequest.provider req); MInt 3; str_of exc])
                3),
       (p1, failure_recorded now cb1, w2))
| rp_other_error a p cb w cb1 w1 exc p1 :
    (* any other exception of the provider passes through untouched *)
    consulted cb w None cb1 w1 ->
    Router.provider_call req p = (Raise exc, p1) ->
    isinstance exc ModelOutputValidationError = false ->
    isinstance_any exc [ModelProviderError; ModelRateLimitError; ModelTimeoutError]
      = false ->
    retry_policy req a (p, cb, w) (Raise exc, (p1, cb1, w1)).

(** [breaker.allow_request()] consults the breaker. *)
Lemma allow_request_consults cb w :
  match Router.breaker_allow_request cb w with
  | (Ok _, cb1, w1) => consulted cb w None cb1 w1
  | (Raise e, cb1, w1) => consulted cb w (Some e) cb1 w1
  end.
Proof.
  unfold Router.breaker_allow_request, Router.state_reads_clock,
    Breaker.allow_request, Breaker.state.
  destruct cb as [p th win rec st fs o].
  destruct st; cbn [Breaker._state Breaker._opened_at].
  - destruct o; cbn; apply consulted_closed; reflexivity.
  - destruct o as [t|].
    + destruct (Os.time_monotonic w) as [now w1] eqn:Hclock.
      cbn [Breaker._recovery].
      destruct (rec <=? now - t)%float eqn:Hrec; cbn.
      * eapply consulted_recovered; [reflexivity|reflexivity|exact Hclock|exact Hrec].
      * eapply (consulted_open (Breaker.mkCB p th win rec Breaker.OPEN fs (Some t)));
          [reflexivity|reflexivity|exact Hclock|exact Hrec].
    + cbn. apply (consulted_open_for_good (Breaker.mkCB p th win rec Breaker.OPEN fs None));
        reflexivity.
  - destruct o; cbn; apply consulted_half_open; reflexivity.
Qed.

(** [breaker.record_failure()] reads the clock and records the failure. *)
Lemma record_failure_records cb w :
  Router.breaker_record_failure cb w
  = (failure_recorded (fst (Os.time_monotonic w)) cb, snd (Os.time_monotonic w)).
Proof.
  unfold Router.breaker_record_failure.
  destruct (Os.time_monotonic w) as [now w1]. cbn [fst snd]. f_equal.
  unfold Breaker.record_failure, failure_recorded, same_breaker.
  destruct cb as [p th win rec st fs o]. cbn.
  destruct st; cbn; try reflexivity;
    destruct (Z.of_nat _ >=? th)%Z; reflexivity.
Qed.

(** [breaker.record_success()] records the success. *)
Lemma record_success_records cb : Breaker.record_success cb = success_recorded cb.
Proof.
  unfold Breaker.record_success, success_recorded, same_breaker.
  destruct cb as [p th win rec st fs o]. destruct st; reflexivity.
Qed.

Lemma call_loop_attempt req a rest last p cb w :
  (a < 3 ->
   forall e' p' cb' w',
     retry_policy req (a + 1) (p', cb', w')
       (Router.call_loop rest req (Some e') p' cb' w')) ->
  (a < 3 \/ (a = 3 /\ rest = [])) ->
  retry_policy req a (p, cb, w) (Router.call_loop (a :: rest) req last p cb w).
Proof.
  intros IH Ha. cbn [Router.call_loop].
  pose proof (allow_request_consults cb w) as Hallow.
  destruct (Router.breaker_allow_request cb w) as [[[u|e] cb1] w1].
  2:{ eapply rp_breaker_open; eassumption. }
  destruct (Router.provider_call req p) as [[response|exc] p1] eqn:Hcall.
  { rewrite record_success_records. eapply rp_success; eassumption. }
  rewrite record_failure_records.
  destruct (Os.time_monotonic w1) as [now w2] eqn:Hclock. cbn [fst snd].
  destruct (isinstance exc ModelOutputValidationError) eqn:Hmov.
  { eapply rp_output_validation; eassumption. }
  change Router._RETRYABLE
    with [ModelProviderError; ModelRateLimitError; ModelTimeoutError].
  destruct (isinstance_any exc _) eqn:Hretry.
  2:{ eapply rp_other_error; eassumption. }
  unfold Router._MAX_RETRIES.
  destruct (Z.ltb_spec a 3) as [Hlt|Hge].
  - destruct (Os.random_uniform01 w2) as [draw w3] eqn:Hdraw.
    eapply rp_retry; try eassumption.
    apply IH. exact Hlt.
  - destruct Ha as [Ha|[Ha Hrest]]; [lia|]. subst a rest. cbn [Router.call_loop].
    eapply rp_exhausted; eassumption.
Qed.

Lemma call_loop_follows_policy req last p cb w :
  retry_policy req 1 (p, cb, w)
    (Router.call_loop (Router.range 1 (Router._MAX_RETRIES + 1)) req last p cb w).
Proof.
  change (Router.range 1 (Router._MAX_RETRIES + 1)) with [1; 2; 3].
  apply call_loop_attempt; [|lia]. intros _ e1 p1 cb1 w1.
  apply (call_loop_attempt req 2 [3]); [|lia]. intros _ e2 p2 cb2 w2.
  apply (call_loop_attempt req 3 []); [lia|]. right. split; reflexivity.
Qed.

Lemma provider_call_calls req p :
  Router.calls (snd (Router.provider_call req p)) = Router.calls p ++ [req].
Proof. reflexivity. Qed.

Lemma call_loop_calls_bound attempts : forall req last p cb w,
  let p' := fst (fst (snd (Router.call_loop attempts req last p cb w))) in
  exists k : nat,
    (k <= length attempts)%nat /\
    Router.calls p' = Router.calls p ++ repeat req k.
Proof.
  induction attempts as [|a rest IH]; intros req last p cb w; cbn zeta.
  - exists 0%nat. cbn. rewrite app_nil_r. split; [lia|reflexivity].
  - cbn [Router.call_loop].
    destruct (Router.breaker_allow_request cb w) as [[[u|e] cb1] w1].
    2:{ exists 0%nat. cbn. rewrite app_nil_r. split; [lia|reflexivity]. }
    unfold Router.provider_call.
    destruct (Router.respond p (Router.calls p) req) as [response|exc].
    { exists 1%nat. cbn. split; [lia|reflexivity]. }
    destruct (isinstance exc ModelOutputValidationError).
    { destruct (Router.breaker_record_failure cb1 w1) as [cb2 w2].
      exists 1%nat. cbn. split; [lia|reflexivity]. }
    destruct (isinstance_any exc Router._RETRYABLE).
    2:{ exists 1%nat. cbn. split; [lia|reflexivity]. }
    destruct (Router.breaker_record_failure cb1 w1) as [cb2 w2].
    destruct (a <? Router._MAX_RETRIES)%Z.
    + destruct (Os.random_uniform01 w2) as [draw w3].
      match goal with
      | |- context [Router.call_loop rest req ?l ?q ?c ?v] =>
          destruct (IH req l q c v) as [k [Hk Hcalls]]
      end.
      exists (S k). split; [cbn; lia|].
      cbn zeta in Hcalls. rewrite Hcalls. cbn [Router.calls].
      rewrite <- app_assoc. reflexivity.
    + match goal with
      | |- context [Router.call_loop rest req ?l ?q ?c ?v] =>
          destruct (IH req l q c v) as [k [Hk Hcalls]]
      end.
      exists (S k). split; [cbn; lia|].
      cbn zeta in Hcalls. rewrite Hcalls. cbn [Router.calls].
      rewrite <- app_assoc. reflexivity.
Qed.

(** C8. For a request whose provider is registered, [call] follows the
    retry policy from attempt 1: it consults the breaker before each
    attempt and aborts on its refusal (CircuitBreakerOpenError from an OPEN
    breaker whose recovery time has not passed), without calling the
    provider or recording a failure; a retryable error (ModelProviderError,
    ModelRateLimitError, ModelTimeoutError) records a breaker failure at the
    time the clock then shows and, before the third attempt, sleeps
    min(2.0 * 2^(attempt-1) + U(0,1), 30.0) and retries, and on the third
    raises ModelProviderExhaustedError with attempts = 3 and the last error
    in its message; a ModelOutputValidationError records a failure and is
    re-raised at once. What consulting the breaker and recording a failure
    or a success do to it is spelt out by [consulted], [failure_recorded]
    and [success_recorded]. The provider is called at most 3 times. *)
Theorem router_call_retry_policy
    (req : PromptRequest.t) (r : Router.ModelRouter) (w : Os.World)
    (p : Router.Provider) (cb : Breaker.CircuitBreaker) :
  Router._providers r !! PromptRequest.provider req = Some p ->
  Router._breakers r !! PromptRequest.provider req = Some cb ->
  exists res p' cb' w' (attempts : nat),
    Router.call req r w =
      (res, (Router.mkRouter
               (<[PromptRequest.provider req := p']> (Router._providers r))
               (<[PromptRequest.provider req := cb']> (Router._breakers r)),
             w')) /\
    retry_policy req 1 (p, cb, w) (res, (p', cb', w')) /\
    Router.calls p' = Router.calls p ++ repeat req attempts /\
    (attempts <= 3)%nat.
Proof.
  intros Hp Hcb. unfold Router.call. rewrite Hp, Hcb.
  pose proof (call_loop_follows_policy req None p cb w) as Hpol.
  pose proof (call_loop_calls_bound
                (Router.range 1 (Router._MAX_RETRIES + 1)) req None p cb w) as Hb.
  cbn zeta in Hb.
  destruct (Router.call_loop _ req None p cb w) as [res [[p' cb'] w']].
  destruct Hb as [k [Hk Hcalls]].
  exists res, p', cb', w', k.
  repeat split; [exact Hpol | exact Hcalls | exact Hk].
Qed.

Lemma router_call_retry_policy_witness :
  Router._providers (Scenario.router_of Scenario.failing_provider)
    !! PromptRequest.provider (Scenario.make_request "mock")
    = Some Scenario.failing_provider /\
  exists res p' cb' w' (attempts : nat),
    Router.call (Scenario.make_request "mock")
                (Scenario.router_of Scenario.failing_provider) Scenario.world0 =
      (res, (Router.mkRouter
               (<["mock" := p']> {[ "mock" := Scenario.failing_provider ]})
               (<["mock" := cb']> {[ "mock" := Breaker.init_default "mock" ]}),
             w')) /\
    retry_policy (Scenario.make_request "mock") 1
      (Scenario.failing_provider, Breaker.init_default "mock", Scenario.world0)
      (res, (p', cb', w')) /\
    Router.calls p' = [] ++ repeat (Scenario.make_request "mock") attempts /\
    (attempts <= 3)%nat.
Proof.
  split; [reflexivity|].
  apply (router_call_retry_policy (Scenario.make_request "mock")
           (Scenario.router_of Scenario.failing_provider) Scenario.world0
           Scenario.failing_provider (Breaker.init_default "mock"));
    reflexivity.
Defined.

(** Three failures in a row: the third raises the exhaustion error, after
    sleeps of 2.5 and 4.5 seconds, and the breaker has opened. *)
Example router_exhausted_after_three :
  let '(res, (r', w')) :=
    Router.call (Scenario.make_request "mock")
                (Scenario.router_of Scenario.failing_provider) Scenario.world0 in
  res = Raise (ModelProviderExhaustedError_
                 (Msg "Provider {request.provider!r} failed after {_MAX_RETRIES} attempts. Last: {last_err}"
                      [MStr "mock"; MInt 3; MStr "Server error"]) 3) /\
  Os.slept w' = [2.5%float; 4.5%float] /\
  option_map (fun p => length (Router.calls p)) (Router._providers r' !! "mock")
    = Some 3%nat /\
  option_map Breaker._state (Router._breakers r' !! "mock") = Some Breaker.OPEN.
Proof. vm_compute. repeat split; reflexivity. Qed.

(** Two rate-limit errors, then an answer: the third response is returned. *)
Example router_succeeds_on_third_attempt :
  let '(res, (r', w')) :=
    Router.call (Scenario.make_request "mock")
                (Scenario.router_of Scenario.flaky_provider) Scenario.world0 in
  res = Ok (Scenario.final_answer "success after retries") /\
  option_map (fun p => length (Router.calls p)) (Router._providers r' !! "mock")
    = Some 3%nat /\
  option_map Breaker._failures (Router._breakers r' !! "mock") = Some [].
Proof. vm_compute. repeat split; reflexivity. Qed.

(** An error named [n] in the specification is an instance of the class
    [n] or [nError] of the code ([PathTraversal] is [PathTraversalError]). *)
Definition spec_named (n : string) (c : ecls) : bool :=
  bool_decide (class_name c = n) || bool_decide (class_name c = (n ++ "Error")%string).

Definition all_classes : list ecls :=
  [BaseException; Exception; ValueError; TypeError; AttributeError; KeyError;
   OSError; RuntimeError; RecursionError; OverflowError; AssertionError; ARIAError; ValidationError;
   ToolInputValidationError; ToolOutputValidationError;
   ModelOutputValidationError; ManifestValidationError; SecurityError;
   PathTraversalError; PermissionDeniedError; PromptInjectionWarning;
   UnknownToolError; SecretNotFoundError; SecretInvalidError; SandboxError;
   ToolTimeoutError; ToolSandboxError; ProviderError; ModelProviderError;
   ModelRateLimitError; ModelTimeoutError; ModelProviderExhaustedError;
   CircuitBreakerOpenError; StateMachineError; InvalidStateTransitionError;
   LimitError; StepLimitExceededError; CostBudgetExceededError; StorageError;
   AuditWriteFailureError; MemoryCorruptionError; ConfigError].

Lemma all_classes_complete (c : ecls) : c ∈ all_classes.
Proof. destruct c; unfold all_classes; set_solver. Qed.

Definition fails_with {A : Type} (n : string) (r : result A) : Prop :=
  exists e c, r = Raise e /\ isinstance e c = true /\ spec_named n c = true.

Lemma no_class_named_UnknownProvider (c : ecls) :
  spec_named "UnknownProvider" c = false.
Proof. destruct c; vm_compute; reflexivity. Qed.

(** C9, as stated, fails: for a request naming the unregistered provider
    "openai", the error [call] raises is not an instance of any class named
    UnknownProvider (the hierarchy has none). *)
Lemma router_unknown_provider_not_named_so :
  ~ fails_with "UnknownProvider"
      (fst (Router.call (Scenario.make_request "openai")
                        (Scenario.router_of Scenario.failing_provider)
                        Scenario.world0)).
Proof.
  intros [e [c [_ [_ Hname]]]].
  rewrite no_class_named_UnknownProvider in Hname. discriminate.
Qed.

(** C9, amended. For a request whose provider name is not a key of the
    provider map, [call] raises the built-in [ValueError] (which is outside
    the ARIAError hierarchy) naming the provider and listing the registered
    ones; no breaker is consulted, no provider called, nothing changes. *)
Theorem router_unknown_provider_value_error
    (req : PromptRequest.t) (r : Router.ModelRouter) (w : Os.World) :
  Router._providers r !! PromptRequest.provider req = None ->
  exists e,
    Router.call req r w = (Raise e, (r, w)) /\
    type_of e = ValueError /\
    isinstance e ARIAError = false /\
    str_of e =
      Msg "Provider {request.provider!r} not registered. Available: {list(self._providers)}"
          [MStr (PromptRequest.provider req);
           MSeq (map fst (map_to_list (Router._providers r)))].
Proof.
  intros Hnone. unfold Router.call. rewrite Hnone.
  eexists. split; [reflexivity|]. repeat split; reflexivity.
Qed.

Lemma router_unknown_provider_value_error_witness :
  Router._providers (Scenario.router_of Scenario.failing_provider)
    !! PromptRequest.provider (Scenario.make_request "openai") = None /\
  exists e,
    Router.call (Scenario.make_request "openai")
                (Scenario.router_of Scenario.failing_provider) Scenario.world0
      = (Raise e, (Scenario.router_of Scenario.failing_provider, Scenario.world0)) /\
    type_of e = ValueError /\
    isinstance e ARIAError = false /\
    str_of e =
      Msg "Provider {request.provider!r} not registered. Available: {list(self._providers)}"
          [MStr "openai";
           MSeq (map fst (map_to_list
                   (Router._providers (Scenario.router_of Scenario.failing_provider))))].
Proof.
  split; [reflexivity|].
  apply (router_unknown_provider_value_error (Scenario.make_request "openai")).
  reflexivity.
Defined.

(** ** Sandbox *)

Lemma for_each_first_raise {A : Type} (P : exn -> Prop)
    (body : A -> result unit) (l : list A) :
  (forall x, In x l -> forall e, body x = Raise e -> P e) ->
  (exists x e, In x l /\ body x = Raise e) ->
  exists e, for_each body l = Raise e /\ P e.
Proof.
  induction l as [|y l IH]; intros Hall [x [e [Hin Hx]]].
  - destruct Hin.
  - cbn [for_each]. destruct (body y) as [[]|ey] eqn:Hy.
    + cbn [bind]. apply IH.
      * intros z Hz. apply Hall. right. exact Hz.
      * destruct Hin as [Heq|Hin].
        -- subst y. rewrite Hx in Hy. discriminate.
        -- exists x, e. split; assumption.
    + exists ey. split; [reflexivity|]. apply (Hall y); [left; reflexivity|exact Hy].
Qed.

(** A value "lies outside every base": it is none of them and under none. *)
Definition outside_all (bases : list string) (resolved : string) : Prop :=
  forall base, In base bases ->
    resolved <> base /\ String.prefix (base ++ "/")%string resolved = false.

Lemma outside_all_existsb bases resolved :
  outside_all bases resolved ->
  existsb (fun base => bool_decide (resolved = base) ||
                       String.prefix (base ++ Sandbox.os_sep)%string resolved)
          bases = false.
Proof.
  intros Hout. apply not_true_is_false. intros Hex.
  apply existsb_exists in Hex. destruct Hex as [base [Hin Hb]].
  destruct (Hout base Hin) as [Hne Hpre].
  apply orb_true_iff in Hb. destruct Hb as [Hb|Hb].
  - apply bool_decide_eq_true in Hb. contradiction.
  - unfold Sandbox.os_sep in Hb. rewrite Hpre in Hb. discriminate.
Qed.

(** A path-like string value that [check] rejects: resolution fails with
    OSError or ValueError, or the resolved path is outside every base. *)
Definition rejected (w : Os.World) (bases : list string) (v : string) : Prop :=
  (is_substring "/" v = true \/ String.prefix "." v = true) /\
  ((exists e, Os.resolve w v = Raise e /\
              isinstance_any e [OSError; ValueError] = true) \/
   (exists resolved, Os.resolve w v = Ok resolved /\ outside_all bases resolved)).

Lemma check_rejected w manifest bases v :
  rejected w bases v ->
  exists e, Sandbox.check w manifest bases (JStr v) = Raise e.
Proof.
  intros [Hlike Hrej]. unfold Sandbox.check.
  assert (negb (is_substring "/" v) && negb (String.prefix "." v) = false) as ->.
  { destruct Hlike as [->| ->]; [reflexivity|].
    rewrite andb_false_r. reflexivity. }
  destruct Hrej as [[e [-> ->]]|[resolved [-> Hout]]].
  - eexists. reflexivity.
  - rewrite (outside_all_existsb _ _ Hout). eexists. reflexivity.
Qed.

(** The spawn [run_tool_sandboxed] performs for a tool call. *)
Definition spawn_of (L : JsonLib) (manifest : ToolManifest.t) (arguments : dict)
    (tool_module_path : string) : Os.Spawn :=
  Os.mkSpawn
    (json_dumps L (JDict [("tool_module_path", JStr tool_module_path);
                          ("input", JDict arguments);
                          ("max_memory_mb", JInt (ToolManifest.max_memory_mb manifest))]))
    (ToolManifest.timeout_seconds manifest).

(** What [check] raises: PathTraversalError, or the exception of a
    resolution that failed with something other than OSError or
    ValueError. *)
Definition traversal_or_resolve_error (w : Os.World) (values : list json) (e : exn)
  : Prop :=
  type_of e = PathTraversalError \/
  exists s, In (JStr s) values /\ Os.resolve w s = Raise e /\
            isinstance_any e [OSError; ValueError] = false.

Lemma check_raises w manifest bases values value e :
  In value values ->
  Sandbox.check w manifest bases value = Raise e ->
  traversal_or_resolve_error w values e.
Proof.
  intros Hin. unfold Sandbox.check.
  destruct value as [| | | |v| |]; try discriminate.
  destruct (negb (is_substring "/" v) && negb (String.prefix "." v)); [discriminate|].
  destruct (Os.resolve w v) as [resolved|e'] eqn:Hr.
  - destruct (negb (existsb _ bases)); [|discriminate].
    intros [= <-]. left. reflexivity.
  - destruct (isinstance_any e' [OSError; ValueError]) eqn:Hcls.
    + intros [= <-]. left. reflexivity.
    + intros [= <-]. right. exists v. repeat split; assumption.
Qed.

(** C2, as stated, fails in two ways.
    - The arguments hold the path-like string "/etc/passwd", which resolves
      to itself and lies outside the only allowed base "/tmp", yet
      [run_tool_sandboxed] raises ToolInputValidationError, not
      PathTraversalError: the input schema (which requires "value" and
      allows no other property) is checked first.
    - The arguments pass the schema and contain "/etc/passwd" inside a
      list: [validate_paths] looks at top-level values only, nothing is
      raised and the child process is spawned. *)
Lemma run_tool_outside_path_without_traversal_error :
  (ToolManifest.allowed_paths (Scenario.make_manifest ["/tmp"]) <> [] /\
   In (JStr "/etc/passwd") (dict_values [("path", JStr "/etc/passwd")]) /\
   is_substring "/" "/etc/passwd" = true /\
   Os.resolve (Scenario.host "") "/etc/passwd" = Ok "/etc/passwd" /\
   outside_all ["/tmp"] "/etc/passwd" /\
   exists e,
     fst (Sandbox.run_tool_sandboxed (Scenario.json_table [])
            (Scenario.make_manifest ["/tmp"]) [("path", JStr "/etc/passwd")]
            "/fake/path.py" (Scenario.host "")) = Raise e /\
     type_of e = ToolInputValidationError /\
     isinstance e PathTraversalError = false) /\
  (Sandbox.validate_input [("files", JList [JStr "/etc/passwd"])]
     Scenario.files_manifest = Ok tt /\
   ToolManifest.allowed_paths Scenario.files_manifest = ["/tmp"] /\
   fst (Sandbox.run_tool_sandboxed
          (Scenario.json_table [("DONE", JDict [("ok", JBool true)])])
          Scenario.files_manifest [("files", JList [JStr "/etc/passwd"])]
          "/fake/path.py" (Scenario.host "DONE"))
   = Ok (ToolResult.mk true "read_files" "" (Some (JDict [])) None None 1000) /\
   Os.spawned
     (snd (Sandbox.run_tool_sandboxed
             (Scenario.json_table [("DONE", JDict [("ok", JBool true)])])
             Scenario.files_manifest [("files", JList [JStr "/etc/passwd"])]
             "/fake/path.py" (Scenario.host "DONE")))
   = [spawn_of (Scenario.json_table [("DONE", JDict [("ok", JBool true)])])
        Scenario.files_manifest [("files", JList [JStr "/etc/passwd"])]
        "/fake/path.py"]).
Proof.
  split.
  - split; [discriminate|]. split; [left; reflexivity|].
    split; [reflexivity|]. split; [reflexivity|]. split.
    + intros base [<-|[]]. split; [discriminate|reflexivity].
    + eexists. split; [vm_compute; reflexivity|]. split; reflexivity.
  - split; [vm_compute; reflexivity|]. split; [reflexivity|].
    split; vm_compute; reflexivity.
Qed.

(** C2, amended. [run_tool_sandboxed] checks the input schema first: when
    the validator reports errors, ToolInputValidationError is raised and no
    child process is spawned. When the arguments pass that check, the
    manifest has a non-empty [allowed_paths] whose entries all resolve, and
    some top-level argument value is a path-like string (it contains "/" or
    starts with ".") whose resolution fails with OSError or ValueError or
    gives a path outside every resolved base, then [run_tool_sandboxed]
    raises and no child process is spawned; the error is a
    PathTraversalError, unless the resolution of one of the argument
    strings fails with another exception, which is then the one raised.
    With an empty [allowed_paths], [validate_paths] accepts any arguments
    without resolving anything. *)
Theorem run_tool_path_traversal_before_spawn
    (L : JsonLib) (manifest : ToolManifest.t) (arguments : dict)
    (tool_module_path : string) (w : Os.World) :
  (forall errors,
     Sandbox._validate_schema (JDict arguments) (ToolManifest.input_schema manifest)
       "input" = Ok errors ->
     errors <> [] ->
     exists w',
       Sandbox.run_tool_sandboxed L manifest arguments tool_module_path w
         = (Raise (Exn ToolInputValidationError
                     (Msg "Tool {manifest.name!r} input validation failed: {'; '.join(errors)}"
                          (MStr (ToolManifest.name manifest) :: errors))),
            w') /\
       Os.spawned w' = Os.spawned w) /\
  (forall bases v,
     Sandbox.validate_input arguments manifest = Ok tt ->
     ToolManifest.allowed_paths manifest <> [] ->
     map_result (Os.resolve w) (ToolManifest.allowed_paths manifest) = Ok bases ->
     In (JStr v) (dict_values arguments) ->
     rejected w bases v ->
     exists e w',
       Sandbox.run_tool_sandboxed L manifest arguments tool_module_path w
         = (Raise e, w') /\
       Os.spawned w' = Os.spawned w /\
       traversal_or_resolve_error w (dict_values arguments) e /\
       ((forall s e', In (JStr s) (dict_values arguments) ->
                      Os.resolve w s = Raise e' ->
                      isinstance_any e' [OSError; ValueError] = true) ->
        type_of e = PathTraversalError)) /\
  (ToolManifest.allowed_paths manifest = [] ->
   Sandbox.validate_paths w arguments manifest = Ok tt).
Proof.
  assert (Hclock : exists started w1,
            Os.time_monotonic w = (started, w1) /\
            Os.resolve w1 = Os.resolve w /\ Os.spawned w1 = Os.spawned w).
  { unfold Os.time_monotonic. destruct (Os.read (Os.monotonic w)) as [t st].
    eexists. eexists. split; [reflexivity|]. split; reflexivity. }
  destruct Hclock as (started & w1 & Hclock & Hr1 & Hs1).
  split; [|split].
  - intros errors Hschema Herrors. exists w1.
    unfold Sandbox.run_tool_sandboxed. rewrite Hclock.
    unfold Sandbox.validate_input. rewrite Hschema. cbn [bind].
    destruct errors as [|m errors]; [contradiction|].
    split; [reflexivity|exact Hs1].
  - intros bases v Hin_ok Hne Hbases Hin Hrej.
    unfold Sandbox.run_tool_sandboxed. rewrite Hclock, Hin_ok.
    assert (Hvp : exists e, Sandbox.validate_paths w1 arguments manifest = Raise e /\
                            traversal_or_resolve_error w (dict_values arguments) e).
    { unfold Sandbox.validate_paths.
      destruct (ToolManifest.allowed_paths manifest) as [|b bs] eqn:Hap; [contradiction|].
      rewrite Hr1, Hbases. cbn [bind].
      apply for_each_first_raise.
      - intros x Hx e He. unfold traversal_or_resolve_error. rewrite <- Hr1.
        eapply check_raises; eassumption.
      - destruct (check_rejected w1 manifest bases v) as [e He].
        { unfold rejected in *. rewrite Hr1. exact Hrej. }
        exists (JStr v), e. split; assumption. }
    destruct Hvp as [e [-> Hcls]].
    exists e, w1. split; [reflexivity|]. split; [exact Hs1|]. split; [exact Hcls|].
    intros Hres. destruct Hcls as [Hty|[s [Hs [Hraise Hnot]]]]; [exact Hty|].
    rewrite (Hres s e Hs Hraise) in Hnot. discriminate.
  - intros Hempty. unfold Sandbox.validate_paths. rewrite Hempty. reflexivity.
Qed.

Lemma run_tool_path_traversal_before_spawn_witness :
  (exists e w',
     Sandbox.run_tool_sandboxed (Scenario.json_table []) (Scenario.make_manifest ["/tmp"])
       [("value", JStr "/etc/passwd")] "/fake/path.py" (Scenario.host "")
     = (Raise e, w') /\
     Os.spawned w' = Os.spawned (Scenario.host "") /\
     type_of e = PathTraversalError) /\
  (exists w',
     Sandbox.run_tool_sandboxed (Scenario.json_table []) (Scenario.make_manifest ["/tmp"])
       [("path", JStr "/etc/passwd")] "/fake/path.py" (Scenario.host "")
     = (Raise (Exn ToolInputValidationError
                 (Msg "Tool {manifest.name!r} input validation failed: {'; '.join(errors)}"
                      [MStr "test_tool";
                       Msg "{path}.{k}: required field missing"
                           [MStr "input"; MVal (JStr "value")];
                       Msg "{path}.{k}: additional property not allowed"
                           [MStr "input"; MStr "path"]])),
        w') /\
     Os.spawned w' = Os.spawned (Scenario.host "")).
Proof.
  split.
  - destruct (proj1 (proj2 (run_tool_path_traversal_before_spawn
                  (Scenario.json_table []) (Scenario.make_manifest ["/tmp"])
                  [("value", JStr "/etc/passwd")] "/fake/path.py" (Scenario.host "")))
                ["/tmp"] "/etc/passwd")
      as (e & w' & Hrun & Hspawn & _ & Hty).
    + vm_compute. reflexivity.
    + discriminate.
    + reflexivity.
    + left. reflexivity.
    + split; [left; reflexivity|]. right. exists "/etc/passwd". split; [reflexivity|].
      intros base [<-|[]]. split; [discriminate|reflexivity].
    + exists e, w'. split; [exact Hrun|]. split; [exact Hspawn|].
      apply Hty. intros s e' _ H. discriminate H.
  - apply (proj1 (run_tool_path_traversal_before_spawn
                    (Scenario.json_table []) (Scenario.make_manifest ["/tmp"])
                    [("path", JStr "/etc/passwd")] "/fake/path.py" (Scenario.host ""))).
    + vm_compute. reflexivity.
    + discriminate.
Defined.

Lemma validate_paths_after_clock_read w arguments manifest :
  Sandbox.validate_paths (snd (Os.time_monotonic w)) arguments manifest =
  Sandbox.validate_paths w arguments manifest.
Proof. reflexivity. Qed.

(** What the supported schema subset finds wrong with an empty object at
    [path], in the words of the specification: an object schema asks for
    each of its required keys; a string, integer, boolean or array schema
    does not accept an object; any other schema asks for nothing. *)
Definition declared_type (schema : dict) : string :=
  match dict_get "type" schema with
  | Some (JStr t) => t
  | _ => ""
  end.

Definition empty_object_errors (schema : dict) (path : string) : list message :=
  let t := declared_type schema in
  if bool_decide (t = "object") then
    match dict_get "required" schema with
    | Some (JList keys) =>
        map (fun k => Msg "{path}.{k}: required field missing" [MStr path; MVal k]) keys
    | _ => []
    end
  else if bool_decide (t = "string") then
    [Msg "{path}: expected string, got {type(data).__name__}" [MStr path; MStr "dict"]]
  else if bool_decide (t = "integer") then
    [Msg "{path}: expected integer, got {type(data).__name__}" [MStr path; MStr "dict"]]
  else if bool_decide (t = "boolean") then
    [Msg "{path}: expected boolean, got {type(data).__name__}" [MStr path; MStr "dict"]]
  else if bool_decide (t = "array") then
    [Msg "{path}: expected array, got {type(data).__name__}" [MStr path; MStr "dict"]]
  else [].

(** An object schema written as JSON Schema has it: "required", when
    present, is a list of strings and "properties", when present, is an
    object. *)
Definition well_formed_schema (schema : dict) : Prop :=
  declared_type schema = "object" ->
  (dict_get "required" schema = None \/
   exists keys, dict_get "required" schema = Some (JList (map JStr keys))) /\
  (dict_get "properties" schema = None \/
   exists props, dict_get "properties" schema = Some (JDict props)).

Lemma for_collect_all_nil {A B : Type} (body : A -> result (list B)) (l : list A) :
  (forall x, In x l -> body x = Ok []) -> for_collect body l = Ok [].
Proof.
  induction l as [|x l IH]; intros H; cbn [for_collect]; [reflexivity|].
  rewrite (H x) by (left; reflexivity). cbn [bind].
  rewrite IH by (intros y Hy; apply H; right; exact Hy). reflexivity.
Qed.

Lemma required_of_empty_object path keys :
  for_collect (fun k =>
     bind (key_in_dict k []) (fun present =>
     Ok (Sandbox.when (negb present)
           (Msg "{path}.{k}: required field missing" [MStr path; MVal k]))))
    (map JStr keys)
  = Ok (map (fun k => Msg "{path}.{k}: required field missing" [MStr path; MVal k])
            (map JStr keys)).
Proof.
  induction keys as [|k keys IH]; cbn [map for_collect]; [reflexivity|].
  rewrite IH. reflexivity.
Qed.

(** The validator on an empty object, for a well-formed schema. *)
Lemma validate_schema_empty_object schema path :
  well_formed_schema schema ->
  Sandbox._validate_schema (JDict []) schema path
  = Ok (empty_object_errors schema path).
Proof.
  intros Hwf. unfold Sandbox._validate_schema, empty_object_errors.
  cbn [Sandbox.validate_schema_fuel].
  unfold well_formed_schema, declared_type in *. unfold Sandbox.type_is.
  destruct (dict_get "type" schema) as [[| | | |t| |]|]; try reflexivity.
  destruct (bool_decide_reflect (t = "object")) as [Hobj|Hother].
  - destruct (Hwf Hobj) as [Hreq Hprops]. unfold dict_get_default.
    cbn [dict_mem dict_get map].
    assert (Hp : forall pd : list (string * json),
              for_collect (fun '(_, _) => Ok ([] : list message)) pd = Ok []).
    { intros pd. apply for_collect_all_nil. intros [k sub] _. reflexivity. }
    destruct Hreq as [-> | [keys ->]]; destruct Hprops as [-> | [props ->]];
      destruct (dict_get "additionalProperties" schema) as [[| [] | | | | |]|];
      cbn [py_iter bind for_collect];
      rewrite ?required_of_empty_object, ?Hp; cbn [bind app];
      rewrite ?app_nil_r; reflexivity.
  - repeat match goal with
           | |- context [bool_decide (t = ?n)] =>
               destruct (bool_decide (t = n)); [reflexivity|]
           end.
    reflexivity.
Qed.

(** What [run_tool_sandboxed] does with an empty object as the data of a
    successful child, given what the output schema finds wrong with it. *)
Definition result_for_no_data (manifest : ToolManifest.t) (ms : Z)
    (errors : list message) : result ToolResult.t :=
  match errors with
  | [] =>
      Ok (ToolResult.mk true (ToolManifest.name manifest) ""
            (Some (JDict [])) None None ms)
  | _ =>
      Raise (Exn ToolOutputValidationError
               (Msg "Tool {manifest.name!r} output validation failed: {'; '.join(errors)}"
                    (MStr (ToolManifest.name manifest) :: errors)))
  end.

(** C10. A call that passes the two input checks and whose child exits 0
    printing (up to surrounding white space) a JSON object [payload_out]:
    - if ["ok"] is missing or falsy, the call returns
      [ToolResult(ok=False, error_type="ToolExecutionError")] whose
      [error_message] is the value at ["error"], or ["Unknown"] when the
      key is absent;
    - if ["ok"] is truthy and ["data"] is missing or null, the data is the
      empty dict and it is validated against [output_schema]: for a
      well-formed schema, an object schema with required keys, or a schema
      of another type, makes the call raise ToolOutputValidationError with
      one message per missing key (or the type mismatch), and otherwise the
      call returns [ToolResult(ok=True, data={})]; for any schema, an
      exception of the validator itself propagates. *)
Theorem run_tool_reads_ok_flag
    (L : JsonLib) (manifest : ToolManifest.t) (arguments : dict)
    (tool_module_path : string) (w : Os.World)
    (stdout stderr : string) (payload_out : dict) (ms : Z) :
  Sandbox.validate_input arguments manifest = Ok tt ->
  Sandbox.validate_paths w arguments manifest = Ok tt ->
  Os.child w (spawn_of L manifest arguments tool_module_path)
    = Os.Completed 0 stdout stderr ->
  strip stdout <> "" ->
  json_loads L (strip stdout) = inr (JDict payload_out) ->
  int_of_float ((Os.at_ (Os.monotonic w) (S (Os.reads (Os.monotonic w)))
                 - Os.at_ (Os.monotonic w) (Os.reads (Os.monotonic w)))
                * 1000)%float = Ok ms ->
  let outcome :=
    fst (Sandbox.run_tool_sandboxed L manifest arguments tool_module_path w) in
  (truthy (dict_get_default "ok" (JBool false) payload_out) = false ->
   outcome =
     Ok (ToolResult.mk false (ToolManifest.name manifest) "" None
           (Some "ToolExecutionError")
           (Some (MVal match dict_get "error" payload_out with
                       | Some v => v
                       | None => JStr "Unknown"
                       end))
           ms)) /\
  (truthy (dict_get_default "ok" (JBool false) payload_out) = true ->
   dict_get "data" payload_out = None \/ dict_get "data" payload_out = Some JNone ->
   (well_formed_schema (ToolManifest.output_schema manifest) ->
    outcome =
      result_for_no_data manifest ms
        (empty_object_errors (ToolManifest.output_schema manifest) "output")) /\
   outcome =
     match Sandbox._validate_schema (JDict []) (ToolManifest.output_schema manifest)
             "output" with
     | Raise e => Raise e
     | Ok errors => result_for_no_data manifest ms errors
     end).
Proof.
  intros Hin Hpaths Hchild Hnonempty Hloads Hms outcome.
  assert (Hout : outcome = Sandbox.parse_output L manifest stdout ms).
  { unfold outcome, Sandbox.run_tool_sandboxed.
    destruct (Os.time_monotonic w) as [started w1] eqn:Hclock.
    pose proof (validate_paths_after_clock_read w arguments manifest) as Hvp.
    rewrite Hclock in Hvp. cbn [snd] in Hvp.
    rewrite Hin, Hvp, Hpaths.
    unfold Os.time_monotonic in Hclock. injection Hclock as <- <-.
    unfold Os.subprocess_run. cbn [Os.child]. fold (spawn_of L manifest arguments tool_module_path).
    rewrite Hchild. unfold Sandbox.elapsed_ms, Os.time_monotonic, Os.read.
    cbn [Os.monotonic Os.at_ Os.reads fst snd]. rewrite Hms. reflexivity. }
  rewrite Hout. unfold Sandbox.parse_output.
  rewrite bool_decide_eq_false_2 by exact Hnonempty.
  rewrite Hloads. split.
  - intros Hok. rewrite Hok. cbn [negb]. unfold dict_get_default. reflexivity.
  - intros Hok Hdata. rewrite Hok. cbn [negb].
    assert (dict_get_default "data" JNone payload_out = JNone) as ->.
    { unfold dict_get_default. destruct Hdata as [-> | ->]; reflexivity. }
    cbn [truthy]. unfold Sandbox.validate_output.
    assert (Hgen : forall r : result (list message),
              bind (bind r (fun errors =>
                      match errors with
                      | [] => Ok tt
                      | _ => Raise (Exn ToolOutputValidationError
                               (Msg "Tool {manifest.name!r} output validation failed: {'; '.join(errors)}"
                                    (MStr (ToolManifest.name manifest) :: errors)))
                      end))
                   (fun _ => Ok (ToolResult.mk true (ToolManifest.name manifest) ""
                                   (Some (JDict [])) None None ms))
              = match r with
                | Raise e => Raise e
                | Ok errors => result_for_no_data manifest ms errors
                end).
    { intros [[|m errors]|e]; reflexivity. }
    split.
    + intros Hwf. rewrite Hgen, (validate_schema_empty_object _ _ Hwf). reflexivity.
    + apply Hgen.
Qed.

Lemma run_tool_reads_ok_flag_witness :
  fst (Sandbox.run_tool_sandboxed
         (Scenario.json_table [("FAILED", JDict [("ok", JBool false)])])
         Scenario.lenient_manifest [] "/fake/path.py" (Scenario.host " FAILED "))
  = Ok (ToolResult.mk false "noop_tool" "" None (Some "ToolExecutionError")
          (Some (MVal (JStr "Unknown"))) 1000) /\
  fst (Sandbox.run_tool_sandboxed
         (Scenario.json_table [("DONE", JDict [("ok", JBool true); ("data", JNone)])])
         (Scenario.make_manifest []) [("value", JStr "x")] "/fake/path.py"
         (Scenario.host "DONE"))
  = Raise (Exn ToolOutputValidationError
             (Msg "Tool {manifest.name!r} output validation failed: {'; '.join(errors)}"
                  [MStr "test_tool";
                   Msg "{path}.{k}: required field missing"
                       [MStr "output"; MVal (JStr "result")]])) /\
  fst (Sandbox.run_tool_sandboxed
         (Scenario.json_table [("DONE", JDict [("ok", JBool true)])])
         Scenario.lenient_manifest [] "/fake/path.py" (Scenario.host "DONE"))
  = Ok (ToolResult.mk true "noop_tool" "" (Some (JDict [])) None None 1000).
Proof.
  split; [|split].
  - apply (proj1 (run_tool_reads_ok_flag
             (Scenario.json_table [("FAILED", JDict [("ok", JBool false)])])
             Scenario.lenient_manifest [] "/fake/path.py"
             (Scenario.host " FAILED ") " FAILED " "" [("ok", JBool false)] 1000
             ltac:(vm_compute; reflexivity) eq_refl eq_refl
             ltac:(vm_compute; discriminate) ltac:(vm_compute; reflexivity)
             ltac:(vm_compute; reflexivity))).
    reflexivity.
  - apply (proj1 (proj2 (run_tool_reads_ok_flag
             (Scenario.json_table [("DONE", JDict [("ok", JBool true); ("data", JNone)])])
             (Scenario.make_manifest []) [("value", JStr "x")] "/fake/path.py"
             (Scenario.host "DONE") "DONE" "" [("ok", JBool true); ("data", JNone)] 1000
             ltac:(vm_compute; reflexivity) eq_refl eq_refl
             ltac:(vm_compute; discriminate) ltac:(vm_compute; reflexivity)
             ltac:(vm_compute; reflexivity))
           eq_refl (or_intror eq_refl))).
    intros _. split.
    + right. exists ["result"]. reflexivity.
    + right. eexists. reflexivity.
  - apply (proj1 (proj2 (run_tool_reads_ok_flag
             (Scenario.json_table [("DONE", JDict [("ok", JBool true)])])
             Scenario.lenient_manifest [] "/fake/path.py"
             (Scenario.host "DONE") "DONE" "" [("ok", JBool true)] 1000
             ltac:(vm_compute; reflexivity) eq_refl eq_refl
             ltac:(vm_compute; discriminate) ltac:(vm_compute; reflexivity)
             ltac:(vm_compute; reflexivity))
           eq_refl (or_introl eq_refl))).
    intros _. split.
    + left. reflexivity.
    + right. eexists. reflexivity.
Defined.

(** A child that reports success without data, run under the schema of the
    test manifest (which requires "result"): the empty dict is validated and
    the call raises ToolOutputValidationError. *)
Example run_tool_null_data_is_validated :
  exists m,
    fst (Sandbox.run_tool_sandboxed
           (Scenario.json_table [("DONE", JDict [("ok", JBool true); ("data", JNone)])])
           (Scenario.make_manifest []) [("value", JStr "x")] "/fake/path.py"
           (Scenario.host "DONE"))
    = Raise (Exn ToolOutputValidationError m).
Proof. eexists. vm_compute. reflexivity. Qed.

(** The same child under a schema that asks for nothing: the result carries
    the empty dict. *)
Example run_tool_null_data_is_empty_dict :
  fst (Sandbox.run_tool_sandboxed
         (Scenario.json_table [("DONE", JDict [("ok", JBool true); ("data", JNone)])])
         Scenario.lenient_manifest [] "/fake/path.py" (Scenario.host "DONE"))
  = Ok (ToolResult.mk true "noop_tool" "" (Some (JDict [])) None None 1000).
Proof. vm_compute. reflexivity. Qed.

(** ** Audit store: the event chain *)

Lemma chars_app (a b : string) :
  list_ascii_of_string (a ++ b)%string
  = list_ascii_of_string a ++ list_ascii_of_string b.
Proof. induction a as [|c a IH]; simpl; [reflexivity|]. f_equal. exact IH. Qed.

Lemma chars_inj (a b : string) :
  list_ascii_of_string a = list_ascii_of_string b -> a = b.
Proof.
  intros H. rewrite <- (string_of_list_ascii_of_string a),
    <- (string_of_list_ascii_of_string b), H. reflexivity.
Qed.

Lemma append_inj_r (a b c : string) : (a ++ c)%string = (b ++ c)%string -> a = b.
Proof.
  intros H. apply chars_inj. apply (f_equal list_ascii_of_string) in H.
  rewrite !chars_app in H. eapply app_inv_tail. exact H.
Qed.

(** The keys of the two namespaces never meet: one ends in "t", the other
    in "p". *)
Lemma event_key_not_step_key (a b : string) :
  (a ++ ":event")%string <> (b ++ ":step")%string.
Proof.
  intros H. apply (f_equal list_ascii_of_string) in H.
  rewrite !chars_app in H. apply (f_equal last) in H.
  rewrite !last_app in H. cbn in H. discriminate.
Qed.

Definition event_key (sid : string) : string := (sid ++ ":event")%string.

Definition hash_link (prev payload_json : string) : string :=
  Sha256.sha256_str (prev ++ Sha256.sha256_str payload_json)%string.

(** Each payload is text and each [chain_hash] is
    SHA-256(previous chain hash ∥ SHA-256(payload)), the first one from
    [prev]. *)
Fixpoint chained (prev : string) (rows : list Sqlite.EventRow.t) : Prop :=
  match rows with
  | [] => True
  | r :: rest =>
      (exists payload_json,
         Sqlite.EventRow.payload_json r = Sqlite.Text payload_json /\
         Sqlite.EventRow.chain_hash r = hash_link prev payload_json)
      /\ chained (Sqlite.EventRow.chain_hash r) rest
  end.

(** The chain hash of the last row, [prev] when there is none. *)
Fixpoint last_hash (prev : string) (rows : list Sqlite.EventRow.t) : string :=
  match rows with
  | [] => prev
  | r :: rest => last_hash (Sqlite.EventRow.chain_hash r) rest
  end.

Fixpoint sorted_ts (rows : list Sqlite.EventRow.t) : Prop :=
  match rows with
  | r1 :: ((r2 :: _) as rest) =>
      String.leb (Sqlite.EventRow.timestamp r1) (Sqlite.EventRow.timestamp r2) = true
      /\ sorted_ts rest
  | _ => True
  end.

Lemma chained_app prev l1 l2 :
  chained prev (l1 ++ l2) <-> chained prev l1 /\ chained (last_hash prev l1) l2.
Proof.
  revert prev. induction l1 as [|r l1 IH]; intros prev; cbn.
  - tauto.
  - rewrite IH. tauto.
Qed.

Lemma last_hash_app prev l1 l2 :
  last_hash prev (l1 ++ l2) = last_hash (last_hash prev l1) l2.
Proof. revert prev. induction l1 as [|r l1 IH]; intros prev; cbn; auto. Qed.

Lemma sorted_ts_snoc l r :
  sorted_ts l ->
  (forall r', In r' l ->
     String.leb (Sqlite.EventRow.timestamp r') (Sqlite.EventRow.timestamp r) = true) ->
  sorted_ts (l ++ [r]).
Proof.
  induction l as [|r1 l IH]; intros Hs Hle; cbn; [exact I|].
  destruct l as [|r2 l].
  - cbn. split; [apply Hle; left; reflexivity|exact I].
  - cbn in Hs |- *. destruct Hs as [H12 Hs]. split; [exact H12|].
    apply IH; [exact Hs|]. intros r' Hin. apply Hle. right. exact Hin.
Qed.

Lemma order_by_timestamp_sorted l :
  sorted_ts l -> Sqlite.order_by_timestamp l = l.
Proof.
  induction l as [|r1 l IH]; intros Hs; cbn; [reflexivity|].
  destruct l as [|r2 l].
  - reflexivity.
  - cbn in Hs. destruct Hs as [H12 Hs]. rewrite (IH Hs).
    cbn. rewrite H12. reflexivity.
Qed.


Lemma verify_rows_app prev l1 l2 :
  chained prev l1 ->
  Sqlite.verify_rows prev (l1 ++ l2) = Sqlite.verify_rows (last_hash prev l1) l2.
Proof.
  revert prev. induction l1 as [|r l1 IH]; intros prev; cbn; [reflexivity|].
  intros [[p [-> Hr]] Hrest]. cbn. fold (hash_link prev p).
  rewrite bool_decide_eq_true_2 by (symmetry; exact Hr). cbn. apply IH. exact Hrest.
Qed.

(** What the event chain of a store rests on: per session, the rows are in
    timestamp order, chained from the seed, and the in-memory head is the
    last stored chain hash; event ids are unique. *)
Definition chain_inv (s : Sqlite.SQLiteStorage) : Prop :=
  NoDup (map Sqlite.EventRow.event_id (Sqlite.audit_events (Sqlite._conn s))) /\
  forall sid,
    let rows := Sqlite.events_of sid (Sqlite._conn s) in
    chained Sqlite.seed rows /\
    sorted_ts rows /\
    default Sqlite.seed (Sqlite._chain_hashes s !! event_key sid)
      = last_hash Sqlite.seed rows.

(** Two stores with the same events and the same heads of event chains. *)
Definition same_events (s s' : Sqlite.SQLiteStorage) : Prop :=
  Sqlite.audit_events (Sqlite._conn s') = Sqlite.audit_events (Sqlite._conn s) /\
  forall sid, Sqlite._chain_hashes s' !! event_key sid
              = Sqlite._chain_hashes s !! event_key sid.

Lemma same_events_refl s : same_events s s.
Proof. split; reflexivity. Qed.

Lemma same_events_trans s1 s2 s3 :
  same_events s1 s2 -> same_events s2 s3 -> same_events s1 s3.
Proof.
  intros [H1 H2] [H3 H4]. split; [congruence|].
  intros sid. rewrite H4. apply H2.
Qed.

Lemma chain_inv_same_events s s' :
  same_events s s' -> chain_inv s -> chain_inv s'.
Proof.
  intros [Hev Hk] [Hnd Hinv]. unfold chain_inv, Sqlite.events_of in *.
  rewrite Hev. split; [exact Hnd|].
  intros sid. rewrite Hk. apply Hinv.
Qed.

Lemma create_session_same_events L sid task config s w r s' w' :
  Sqlite.create_session L sid task config s w = (r, (s', w')) -> same_events s s'.
Proof.
  unfold Sqlite.create_session.
  destruct (Os.read_utcnow w) as [now w1]. destruct (Os.sqlite_fails w1) as [fails w2].
  destruct (fails || _); intros [= <- <- <-]; split; reflexivity.
Qed.

Lemma update_session_status_same_events sid st n c et em s w r s' w' :
  Sqlite.update_session_status sid st n c et em s w = (r, (s', w')) -> same_events s s'.
Proof.
  unfold Sqlite.update_session_status.
  destruct (bool_decide _).
  - destruct (Os.read_utcnow w) as [now w1].
    destruct (Os.sqlite_fails w1) as [[] w2]; intros [= <- <- <-]; split; reflexivity.
  - destruct (Os.sqlite_fails w) as [[] w2]; intros [= <- <- <-]; split; reflexivity.
Qed.

Lemma get_kv_same_storage key ns s w r s' w' :
  Sqlite.get_kv key ns s w = (r, (s', w')) -> s' = s.
Proof.
  unfold Sqlite.get_kv. destruct (Os.sqlite_fails w) as [[] w1];
    intros [= <- <- <-]; reflexivity.
Qed.

Lemma set_kv_same_events key v ns sid s w r s' w' :
  Sqlite.set_kv key v ns sid s w = (r, (s', w')) -> same_events s s'.
Proof.
  unfold Sqlite.set_kv.
  destruct (Os.read_utcnow w) as [now w1].
  destruct (Os.sqlite_fails w1) as [[] w2]; intros [= <- <- <-]; split; reflexivity.
Qed.

Lemma get_conversation_history_same_storage sid s w r s' w' :
  Sqlite.get_conversation_history sid s w = (r, (s', w')) -> s' = s.
Proof.
  unfold Sqlite.get_conversation_history.
  destruct (Sqlite.get_kv _ _ s w) as [[v|e] [s1 w1]] eqn:Hget;
    apply get_kv_same_storage in Hget; subst s1.
  - destruct v; intros [= <- <- <-]; reflexivity.
  - intros [= <- <- <-]; reflexivity.
Qed.

Lemma append_message_same_events sid m s w r s' w' :
  Sqlite.append_message sid m s w = (r, (s', w')) -> same_events s s'.
Proof.
  unfold Sqlite.append_message.
  destruct (Sqlite.get_conversation_history sid s w) as [[h|e] [s1 w1]] eqn:Hget;
    apply get_conversation_history_same_storage in Hget; subst s1.
  - apply set_kv_same_events.
  - intros [= <- <- <-]. apply same_events_refl.
Qed.

Lemma write_step_start_same_events L t s w r s' w' :
  Sqlite.write_step_start L t s w = (r, (s', w')) -> same_events s s'.
Proof.
  unfold Sqlite.write_step_start, Sqlite._next_step_chain_hash.
  destruct (Os.sqlite_fails w) as [fails w1]. cbn [Sqlite._conn].
  destruct (fails || _ || _); intros [= <- <- <-]; split; reflexivity.
Qed.

Lemma write_step_end_same_events L t s w r s' w' :
  Sqlite.write_step_end L t s w = (r, (s', w')) -> same_events s s'.
Proof.
  unfold Sqlite.write_step_end, Sqlite._next_chain_hash.
  destruct (Os.sqlite_fails w) as [fails w1]. cbn [Sqlite._conn].
  assert (Hkey : forall sid,
    (<[(StepTrace.session_id t ++ ":" ++ "step")%string :=
        Sha256.sha256_str
          (default Sqlite.seed
             (Sqlite._chain_hashes s !! (StepTrace.session_id t ++ ":" ++ "step")%string)
           ++ Sha256.sha256_str
                (json_dumps L
                   (JDict [("step_id", JStr (StepTrace.step_id t));
                           ("status", JStr (step_status_value (StepTrace.status t)));
                           ("hash", json_of_option (StepTrace.model_output_hash t))])))%string]>
       (Sqlite._chain_hashes s)) !! event_key sid
    = Sqlite._chain_hashes s !! event_key sid).
  { intros sid. apply lookup_insert_ne. intros Heq. symmetry in Heq.
    exact (event_key_not_step_key _ _ Heq). }
  destruct fails; intros [= <- <- <-]; split; first [reflexivity | exact Hkey].
Qed.

Lemma events_of_snoc sid db_evs (row : Sqlite.EventRow.t) ss st kv :
  Sqlite.events_of sid (Sqlite.mkDb ss st (db_evs ++ [row]) kv) =
  Sqlite.events_of sid (Sqlite.mkDb ss st db_evs kv)
  ++ (if bool_decide (Sqlite.EventRow.session_id row = sid) then [row] else []).
Proof. unfold Sqlite.events_of. cbn. rewrite List.filter_app. reflexivity. Qed.

Lemma write_event_chain_inv L e s w s' w' :
  chain_inv s ->
  (forall r, In r (Sqlite.events_of (AuditEvent.session_id e) (Sqlite._conn s)) ->
     String.leb (Sqlite.EventRow.timestamp r) (AuditEvent.timestamp e) = true) ->
  Sqlite.write_event L e s w = (Ok tt, (s', w')) ->
  chain_inv s'.
Proof.
  intros [Hnd Hinv] Hts. unfold Sqlite.write_event, Sqlite._next_chain_hash.
  destruct (Os.sqlite_fails w) as [fails w1]. cbn [Sqlite._conn].
  destruct (fails || _) eqn:Hfail; [discriminate|].
  intros [= <- <-]. apply orb_false_iff in Hfail. destruct Hfail as [_ Hfresh].
  destruct s as [[ss st evs kv] hashes step_hashes]. cbn in *.
  set (payload_json := json_dumps L (JDict (AuditEvent.payload e))) in *.
  change (AuditEvent.session_id e ++ ":" ++ "event")%string
    with (event_key (AuditEvent.session_id e)).
  split.
  - cbn. rewrite map_app. cbn. apply NoDup_app. split; [exact Hnd|]. split.
    + intros x Hx [Heq|[]]%list_elem_of_In. subst x.
      apply list_elem_of_In, in_map_iff in Hx. destruct Hx as [r [Hid Hin]].
      assert (existsb (fun r => bool_decide
                (Sqlite.EventRow.event_id r = AuditEvent.event_id e)) evs = true) as Hex.
      { apply existsb_exists. exists r. split; [exact Hin|].
        apply bool_decide_eq_true. exact Hid. }
      rewrite Hex in Hfresh. discriminate.
    + apply NoDup_singleton.
  - intros sid. cbn zeta. unfold Sqlite.set_conn. cbn [Sqlite._conn Sqlite._chain_hashes].
    rewrite events_of_snoc. cbn [Sqlite.EventRow.session_id].
    specialize (Hinv sid) as Hsid. cbn zeta in Hsid. destruct Hsid as [Hch [Hso Hhead]].
    destruct (bool_decide_reflect (AuditEvent.session_id e = sid)) as [Heq|Hne].
    + subst sid. rewrite lookup_insert_eq. cbn [default].
      split; [|split].
      * apply chained_app. split; [exact Hch|]. cbn. split; [|exact I].
        exists payload_json. split; [reflexivity|]. rewrite Hhead. reflexivity.
      * apply sorted_ts_snoc; [exact Hso|]. intros r' Hin. cbn. apply Hts. exact Hin.
      * rewrite last_hash_app. cbn. reflexivity.
    + rewrite app_nil_r. rewrite lookup_insert_ne.
      * split; [exact Hch|]. split; [exact Hso|exact Hhead].
      * unfold event_key. intros Heq. apply append_inj_r in Heq. contradiction.
Qed.

(** *** Timestamps are compared as text: the order of [String.leb] *)

Lemma ascii_compare_N (a b : ascii) :
  Ascii.compare a b = N.compare (N_of_ascii a) (N_of_ascii b).
Proof. reflexivity. Qed.

Lemma string_leb_trans (s1 s2 s3 : string) :
  String.leb s1 s2 = true -> String.leb s2 s3 = true -> String.leb s1 s3 = true.
Proof.
  unfold String.leb. revert s2 s3.
  induction s1 as [|c1 s1 IH]; intros [|c2 s2] [|c3 s3]; cbn; try congruence.
  rewrite !ascii_compare_N.
  destruct (N.compare_spec (N_of_ascii c1) (N_of_ascii c2)) as [H12|H12|H12];
    destruct (N.compare_spec (N_of_ascii c2) (N_of_ascii c3)) as [H23|H23|H23];
    try congruence.
  - rewrite H12, H23, N.compare_refl. apply IH.
  - rewrite H12. rewrite (proj2 (N.compare_lt_iff _ _) H23). reflexivity.
  - rewrite <- H23. rewrite (proj2 (N.compare_lt_iff _ _) H12). reflexivity.
  - rewrite (proj2 (N.compare_lt_iff _ _) (N.lt_trans _ _ _ H12 H23)). reflexivity.
Qed.

Lemma string_leb_refl (s : string) : String.leb s s = true.
Proof. destruct (String.leb_total s s); assumption. Qed.

Lemma sorted_ts_last l x :
  sorted_ts (l ++ [x]) ->
  forall r, In r (l ++ [x]) ->
    String.leb (Sqlite.EventRow.timestamp r) (Sqlite.EventRow.timestamp x) = true.
Proof.
  induction l as [|r1 l IH]; intros Hs r Hin.
  - destruct Hin as [<-|[]]. apply string_leb_refl.
  - destruct Hin as [<-|Hin].
    + destruct l as [|r2 l].
      * cbn in Hs. tauto.
      * cbn in Hs. destruct Hs as [H12 Hs].
        eapply string_leb_trans; [exact H12|].
        apply (IH Hs). left. reflexivity.
    + apply IH; [|exact Hin].
      destruct l as [|r2 l]; [exact I|]. cbn in Hs. tauto.
Qed.

Lemma find_first_of_filter {A : Type} (p q : A -> bool) l x rest :
  (forall r, p r = true -> q r = true) ->
  List.filter q l = x :: rest -> p x = true -> List.find p l = Some x.
Proof.
  intros Hpq. induction l as [|y l IH]; cbn; [discriminate|].
  destruct (q y) eqn:Hq.
  - intros [= -> _] Hp. rewrite Hp. reflexivity.
  - intros Hf Hp. destruct (p y) eqn:Hpy.
    + rewrite (Hpq y Hpy) in Hq. discriminate.
    + apply IH; assumption.
Qed.

Lemma find_none_of_filter {A : Type} (p q : A -> bool) l :
  (forall r, p r = true -> q r = true) ->
  List.filter q l = [] -> List.find p l = None.
Proof.
  intros Hpq. induction l as [|y l IH]; cbn; [reflexivity|].
  destruct (q y) eqn:Hq; [discriminate|].
  intros Hf. destruct (p y) eqn:Hpy.
  - rewrite (Hpq y Hpy) in Hq. discriminate.
  - apply IH. exact Hf.
Qed.

(** The head that [_load_chain_hashes] computes for a session: the chain
    hash of the last row, in table order, that carries the greatest
    timestamp of the session. *)
Lemma loaded_head db sid l :
  fold_left (fun (m : gmap string string) r =>
               if Sqlite.is_latest db r
               then <[(Sqlite.EventRow.session_id r ++ ":event")%string
                      := Sqlite.EventRow.chain_hash r]> m
               else m) l (∅ : gmap string string) !! event_key sid
  = option_map Sqlite.EventRow.chain_hash
      (List.find (fun r => bool_decide (Sqlite.EventRow.session_id r = sid)
                           && Sqlite.is_latest db r) (rev l)).
Proof.
  induction l as [|r l IH] using rev_ind.
  - cbn. apply lookup_empty.
  - rewrite fold_left_app, rev_app_distr. cbn [fold_left rev app List.find].
    destruct (Sqlite.is_latest db r).
    + destruct (bool_decide_reflect (Sqlite.EventRow.session_id r = sid)) as [Heq|Hne].
      * subst sid. cbn. apply lookup_insert_eq.
      * cbn. rewrite lookup_insert_ne; [exact IH|].
        unfold event_key. intros Heq. apply append_inj_r in Heq. contradiction.
    + rewrite andb_false_r. exact IH.
Qed.

Lemma rows_load_head db sid :
  let rows := Sqlite.events_of sid db in
  sorted_ts rows ->
  default Sqlite.seed
    (fold_left (fun (m : gmap string string) r =>
                  if Sqlite.is_latest db r
                  then <[(Sqlite.EventRow.session_id r ++ ":event")%string
                         := Sqlite.EventRow.chain_hash r]> m
                  else m) (Sqlite.audit_events db) (∅ : gmap string string)
     !! event_key sid)
  = last_hash Sqlite.seed rows.
Proof.
  intros rows Hso. rewrite loaded_head.
  set (p := fun r => bool_decide (Sqlite.EventRow.session_id r = sid)
                    && Sqlite.is_latest db r).
  set (q := fun r => bool_decide (Sqlite.EventRow.session_id r = sid)).
  assert (Hpq : forall r, p r = true -> q r = true).
  { intros r H. unfold p in H. apply andb_true_iff in H. tauto. }
  assert (Hrev : List.filter q (rev (Sqlite.audit_events db)) = rev rows).
  { unfold rows, Sqlite.events_of. fold q. clearbody q. clear.
    induction (Sqlite.audit_events db) as [|x l IH]; [reflexivity|].
    cbn [rev List.filter]. rewrite List.filter_app, IH. cbn [List.filter].
    destruct (q x); cbn [rev]; [reflexivity|apply app_nil_r]. }
  destruct rows as [|x l _] eqn:Hrows using rev_ind.
  - cbn [rev] in Hrev. rewrite (find_none_of_filter p q _ Hpq Hrev). reflexivity.
  - rewrite rev_app_distr in Hrev. cbn [rev app] in Hrev.
    assert (Hx : In x (Sqlite.events_of sid db)).
    { fold rows. rewrite Hrows. apply in_or_app. right. left. reflexivity. }
    assert (Hsid : Sqlite.EventRow.session_id x = sid).
    { unfold Sqlite.events_of in Hx. apply filter_In in Hx. destruct Hx as [_ Hx].
      apply bool_decide_eq_true in Hx. exact Hx. }
    assert (Hp : p x = true).
    { unfold p, q. rewrite bool_decide_eq_true_2 by exact Hsid. cbn.
      unfold Sqlite.is_latest. apply forallb_forall. intros r' Hin.
      rewrite Hsid in Hin. fold rows in Hin. rewrite Hrows in Hin.
      apply (sorted_ts_last l x Hso). exact Hin. }
    rewrite (find_first_of_filter p q _ x (rev l) Hpq Hrev Hp).
    rewrite last_hash_app. reflexivity.
Qed.

(** Opening a database whose event rows are chained and in order: when
    the query of [_load_chain_hashes] succeeds, the new storage object has
    the heads of the chains. *)
Lemma init_chain_inv s w s' w' :
  chain_inv s ->
  Sqlite.init (Sqlite._conn s) w = (Ok s', w') ->
  fst (Os.sqlite_fails (snd (Os.sqlite_fails (snd (Os.sqlite_fails w))))) = false ->
  chain_inv s'.
Proof.
  intros [Hnd Hinv] Hinit. unfold Sqlite.init, Sqlite._load_chain_hashes in Hinit.
  destruct (Os.sqlite_fails w) as [f1 w1]. cbn [snd].
  destruct (Os.sqlite_fails w1) as [f2 w2]. cbn [snd].
  destruct (Os.sqlite_fails w2) as [f3 w3]. cbn [fst].
  destruct f1; [discriminate|]. destruct f2; [discriminate|].
  intros ->. injection Hinit as <- <-.
  split; [exact Hnd|]. intros sid. cbn zeta. cbn [Sqlite._conn Sqlite._chain_hashes].
  destruct (Hinv sid) as (Hch & Hso & _).
  split; [exact Hch|]. split; [exact Hso|].
  apply rows_load_head. exact Hso.
Qed.

(** The stores a process reaches by opening a new database file and calling
    the storage methods, where every [write_event] returned normally and
    carried a timestamp no earlier than those already stored for its
    session ("written in order"). The other methods may succeed or fail.
    The database file of such a store can be opened again, by a storage
    object whose [_load_chain_hashes] query succeeds. *)
Inductive written_in_order (L : JsonLib) : Sqlite.SQLiteStorage -> Prop :=
| wio_open w s w' :
    Sqlite.init Sqlite.empty_db w = (Ok s, w') ->
    written_in_order L s
| wio_reopen s w s' w' :
    written_in_order L s ->
    Sqlite.init (Sqlite._conn s) w = (Ok s', w') ->
    fst (Os.sqlite_fails (snd (Os.sqlite_fails (snd (Os.sqlite_fails w))))) = false ->
    written_in_order L s'
| wio_write_event s w e s' w' :
    written_in_order L s ->
    (forall r, In r (Sqlite.events_of (AuditEvent.session_id e) (Sqlite._conn s)) ->
       String.leb (Sqlite.EventRow.timestamp r) (AuditEvent.timestamp e) = true) ->
    Sqlite.write_event L e s w = (Ok tt, (s', w')) ->
    written_in_order L s'
| wio_create_session s w sid task config r s' w' :
    written_in_order L s ->
    Sqlite.create_session L sid task config s w = (r, (s', w')) ->
    written_in_order L s'
| wio_update_session_status s w sid st n c et em r s' w' :
    written_in_order L s ->
    Sqlite.update_session_status sid st n c et em s w = (r, (s', w')) ->
    written_in_order L s'
| wio_set_kv s w key v ns sid r s' w' :
    written_in_order L s ->
    Sqlite.set_kv key v ns sid s w = (r, (s', w')) ->
    written_in_order L s'
| wio_append_message s w sid m r s' w' :
    written_in_order L s ->
    Sqlite.append_message sid m s w = (r, (s', w')) ->
    written_in_order L s'
| wio_write_step_start s w t r s' w' :
    written_in_order L s ->
    Sqlite.write_step_start L t s w = (r, (s', w')) ->
    written_in_order L s'
| wio_write_step_end s w t r s' w' :
    written_in_order L s ->
    Sqlite.write_step_end L t s w = (r, (s', w')) ->
    written_in_order L s'.

Lemma init_empty_chain_inv w s w' :
  Sqlite.init Sqlite.empty_db w = (Ok s, w') -> chain_inv s.
Proof.
  unfold Sqlite.init, Sqlite._load_chain_hashes.
  destruct (Os.sqlite_fails w) as [[] w1]; [discriminate|].
  destruct (Os.sqlite_fails w1) as [[] w2]; [discriminate|].
  destruct (Os.sqlite_fails w2) as [[] w3]; intros [= <- <-];
    (split; [constructor|]; intros sid; cbn; repeat split; reflexivity).
Qed.

Lemma written_in_order_chain_inv L s : written_in_order L s -> chain_inv s.
Proof.
  induction 1.
  - eapply init_empty_chain_inv; eassumption.
  - eapply init_chain_inv; eassumption.
  - eapply write_event_chain_inv; eassumption.
  - eapply chain_inv_same_events; [eapply create_session_same_events|]; eassumption.
  - eapply chain_inv_same_events; [eapply update_session_status_same_events|]; eassumption.
  - eapply chain_inv_same_events; [eapply set_kv_same_events|]; eassumption.
  - eapply chain_inv_same_events; [eapply append_message_same_events|]; eassumption.
  - eapply chain_inv_same_events; [eapply write_step_start_same_events|]; eassumption.
  - eapply chain_inv_same_events; [eapply write_step_end_same_events|]; eassumption.
Qed.













Example sha256_str_abc :
  Sha256.sha256_str "abc"
  = "ba7816bf8f01cfea414140de5dae2223b00361a396177a9cb410ff61f20015ad".
Proof. vm_compute. reflexivity. Qed.

Example sha256_str_empty :
  Sha256.sha256_str ""
  = "e3b0c44298fc1c149afbf4c8996fb92427ae41e4649b934ca495991b7852b855".
Proof. vm_compute. reflexivity. Qed.

Lemma run_eta {A S : Type} (p : result A * S) (a : A) :
  fst p = Ok a -> p = (Ok a, snd p).
Proof. destruct p as [r s]. cbn. intros ->. reflexivity. Qed.

Lemma run_eta2 {A S W : Type} (p : result A * (S * W)) (a : A) :
  fst p = Ok a -> p = (Ok a, (fst (snd p), snd (snd p))).
Proof. destruct p as [r [s w]]. cbn. intros ->. reflexivity. Qed.

Lemma scenario_written_in_order :
  written_in_order Scenario.lib (fst Scenario.after_event2).
Proof.
  eapply (wio_write_event Scenario.lib (fst Scenario.after_event1)
            (snd Scenario.after_event1) Scenario.event2
            (fst Scenario.after_event2) (snd Scenario.after_event2)).
  - eapply (wio_write_event Scenario.lib (fst Scenario.opened) (snd Scenario.opened)
              Scenario.event1 (fst Scenario.after_event1) (snd Scenario.after_event1)).
    + eapply (wio_open Scenario.lib Scenario.test_host (fst Scenario.opened)
                (snd Scenario.opened)).
      apply run_eta. vm_compute. reflexivity.
    + intros r Hin. vm_compute in Hin. destruct Hin.
    + apply run_eta2. vm_compute. reflexivity.
  - intros r Hin. vm_compute in Hin. destruct Hin as [<-|[]]. vm_compute. reflexivity.
  - apply run_eta2. vm_compute. reflexivity.
Qed.

(** The two events are stored with the chain hashes Python computes. *)
Example scenario_chain_hashes :
  map Sqlite.EventRow.chain_hash
      (Sqlite.audit_events (Sqlite._conn (fst Scenario.after_event2)))
  = ["cae49bdbf608259e52c4c1c5a18552085a3e366d6cc107fa00cbe16e3c28f1c3";
     "6a96d6f53f1cf44b5144efbf8f1e1808e371c7aeb081a86869637b96d32a8744"].
Proof. vm_compute. reflexivity. Qed.


(** ** Kernel: reasoning about code in [Kernel.M] *)

(** [wp m Q E s]: run from [s], [m] returns [a] in a state satisfying
    [Q a], or raises [e] in a state satisfying [E e]. *)
Definition wp {A : Type} (m : Kernel.M A)
    (Q : A -> Kernel.State -> Prop) (E : exn -> Kernel.State -> Prop)
    (s : Kernel.State) : Prop :=
  match m s with
  | (Ok a, s') => Q a s'
  | (Raise e, s') => E e s'
  end.

Lemma wp_run {A : Type} (m : Kernel.M A) Q E s :
  wp m Q E s ->
  (forall a s', m s = (Ok a, s') -> Q a s') /\
  (forall e s', m s = (Raise e, s') -> E e s').
Proof. unfold wp. destruct (m s) as [[a|e] s']; intros H; split; congruence. Qed.

Lemma wp_ret {A : Type} (a : A) Q E s : Q a s -> wp (Kernel.ret a) Q E s.
Proof. exact (fun H => H). Qed.

Lemma wp_raise {A : Type} (e : exn) (Q : A -> Kernel.State -> Prop) E s :
  E e s -> wp (Kernel.raise e) Q E s.
Proof. exact (fun H => H). Qed.

Lemma wp_bind {A B : Type} (m : Kernel.M A) (k : A -> Kernel.M B) Q E s :
  wp m (fun a => wp (k a) Q E) E s -> wp (Kernel.mbind m k) Q E s.
Proof. unfold wp, Kernel.mbind. destruct (m s) as [[a|e] s']; exact (fun H => H). Qed.

Lemma wp_conseq {A : Type} (m : Kernel.M A) (Q Q' : A -> Kernel.State -> Prop)
    (E E' : exn -> Kernel.State -> Prop) s :
  wp m Q E s ->
  (forall a s', Q a s' -> Q' a s') ->
  (forall e s', E e s' -> E' e s') ->
  wp m Q' E' s.
Proof. unfold wp. destruct (m s) as [[a|e] s']; auto. Qed.

Lemma wp_get {A : Type} (f : Kernel.State -> A) Q E s :
  Q (f s) s -> wp (Kernel.get f) Q E s.
Proof. exact (fun H => H). Qed.

Lemma wp_modify (f : Kernel.State -> Kernel.State) Q E s :
  Q tt (f s) -> wp (Kernel.modify f) Q E s.
Proof. exact (fun H => H). Qed.

Lemma wp_lift_result {A : Type} (r : result A) Q E s :
  match r with Ok a => Q a s | Raise e => E e s end ->
  wp (Kernel.lift_result r) Q E s.
Proof. unfold wp, Kernel.lift_result. destruct r; exact (fun H => H). Qed.

Lemma wp_try_except {A : Type} (m : Kernel.M A) h Q E s :
  wp m Q (fun e s' => match h e with
                      | Some k => wp k Q E s'
                      | None => E e s'
                      end) s ->
  wp (Kernel.try_except m h) Q E s.
Proof.
  unfold wp, Kernel.try_except. destruct (m s) as [[a|e] s']; [exact (fun H => H)|].
  destruct (h e); exact (fun H => H).
Qed.

(** What the properties below follow through a run: the state of the FSM,
    the two counters, the step table and the ids of the session table. *)
Record View : Type := mkView {
  v_state : SessionStatus;
  v_step_count : Z;
  v_total_cost : float;
  v_steps : list Sqlite.StepRow.t;
  v_session_ids : list string
}.

Definition view (s : Kernel.State) : View :=
  mkView (Fsm.state (Kernel.fsm s)) (Kernel.step_count s) (Kernel.total_cost s)
    (Sqlite.steps (Sqlite._conn (Kernel.storage s)))
    (map Sqlite.SessionRow.session_id
         (Sqlite.sessions (Sqlite._conn (Kernel.storage s)))).

(** Code that leaves the view as it is, whether it returns or raises. *)
Definition keeps_view {A : Type} (m : Kernel.M A) : Prop :=
  forall s r s', m s = (r, s') -> view s' = view s.

Lemma wp_keeps_view {A : Type} (m : Kernel.M A) Q E s :
  keeps_view m ->
  (forall a s', view s' = view s -> Q a s') ->
  (forall e s', view s' = view s -> E e s') ->
  wp m Q E s.
Proof.
  intros Hk HQ HE. unfold wp. destruct (m s) as [[a|e] s'] eqn:Hm;
    [apply HQ|apply HE]; eapply Hk; exact Hm.
Qed.

Lemma keeps_ret {A : Type} (a : A) : keeps_view (Kernel.ret a).
Proof. intros s r s' [= <- <-]. reflexivity. Qed.

Lemma keeps_raise {A : Type} (e : exn) : keeps_view (@Kernel.raise A e).
Proof. intros s r s' [= <- <-]. reflexivity. Qed.

Lemma keeps_get {A : Type} (f : Kernel.State -> A) : keeps_view (Kernel.get f).
Proof. intros s r s' [= <- <-]. reflexivity. Qed.

Lemma keeps_lift_result {A : Type} (x : result A) : keeps_view (Kernel.lift_result x).
Proof. intros s r s' [= <- <-]. reflexivity. Qed.

Lemma keeps_bind {A B : Type} (m : Kernel.M A) (k : A -> Kernel.M B) :
  keeps_view m -> (forall a, keeps_view (k a)) -> keeps_view (Kernel.mbind m k).
Proof.
  intros Hm Hk s r s'. unfold Kernel.mbind.
  destruct (m s) as [[a|e] s1] eqn:H1.
  - intros H2. rewrite (Hk a _ _ _ H2). eapply Hm. exact H1.
  - intros [= <- <-]. eapply Hm. exact H1.
Qed.

Lemma keeps_try_except {A : Type} (m : Kernel.M A) h :
  keeps_view m ->
  (forall e k, h e = Some k -> keeps_view k) ->
  keeps_view (Kernel.try_except m h).
Proof.
  intros Hm Hh s r s'. unfold Kernel.try_except.
  destruct (m s) as [[a|e] s1] eqn:H1.
  - intros [= <- <-]. eapply Hm. exact H1.
  - destruct (h e) as [k|] eqn:Hhe.
    + intros H2. rewrite (Hh e k Hhe _ _ _ H2). eapply Hm. exact H1.
    + intros [= <- <-]. eapply Hm. exact H1.
Qed.

Lemma keeps_lift_world {A : Type} (f : Os.World -> A * Os.World) :
  keeps_view (Kernel.lift_world f).
Proof.
  intros s r s'. unfold Kernel.lift_world. destruct (f (Kernel.world s)) as [a w].
  intros [= <- <-]. reflexivity.
Qed.

Lemma keeps_log level name : keeps_view (Kernel._log level name).
Proof. intros s r s' [= <- <-]. reflexivity. Qed.

(** A storage method that leaves the step table and the session ids alone. *)
Definition storage_keeps {A : Type}
    (op : Sqlite.SQLiteStorage -> Os.World ->
          result A * (Sqlite.SQLiteStorage * Os.World)) : Prop :=
  forall st w r st' w', op st w = (r, (st', w')) ->
    Sqlite.steps (Sqlite._conn st') = Sqlite.steps (Sqlite._conn st) /\
    map Sqlite.SessionRow.session_id (Sqlite.sessions (Sqlite._conn st'))
    = map Sqlite.SessionRow.session_id (Sqlite.sessions (Sqlite._conn st)).

Lemma keeps_lift_storage {A : Type}
    (op : Sqlite.SQLiteStorage -> Os.World ->
          result A * (Sqlite.SQLiteStorage * Os.World)) :
  storage_keeps op -> keeps_view (Kernel.lift_storage op).
Proof.
  intros Hop s r s'. unfold Kernel.lift_storage.
  destruct (op (Kernel.storage s) (Kernel.world s)) as [r1 [st w]] eqn:H.
  intros [= <- <-]. destruct (Hop _ _ _ _ _ H) as [H1 H2].
  unfold view. cbn. rewrite H1, H2. reflexivity.
Qed.

Lemma write_event_keeps L e : storage_keeps (Sqlite.write_event L e).
Proof.
  intros st w r st' w'. unfold Sqlite.write_event, Sqlite._next_chain_hash.
  destruct (Os.sqlite_fails w) as [fails w1]. cbn [Sqlite._conn].
  destruct (fails || _); intros [= <- <- <-]; split; reflexivity.
Qed.

Lemma get_kv_keeps key ns : storage_keeps (Sqlite.get_kv key ns).
Proof.
  intros st w r st' w' H. apply get_kv_same_storage in H. subst. split; reflexivity.
Qed.

Lemma set_kv_keeps key v ns sid : storage_keeps (Sqlite.set_kv key v ns sid).
Proof.
  intros st w r st' w'. unfold Sqlite.set_kv.
  destruct (Os.read_utcnow w) as [now w1].
  destruct (Os.sqlite_fails w1) as [[] w2]; intros [= <- <- <-]; split; reflexivity.
Qed.

Lemma get_conversation_history_keeps sid :
  storage_keeps (Sqlite.get_conversation_history sid).
Proof.
  intros st w r st' w' H. apply get_conversation_history_same_storage in H.
  subst. split; reflexivity.
Qed.

Lemma append_message_keeps sid m : storage_keeps (Sqlite.append_message sid m).
Proof.
  intros st w r st' w'. unfold Sqlite.append_message.
  destruct (Sqlite.get_conversation_history sid st w) as [[h|e] [s1 w1]] eqn:Hget;
    apply get_conversation_history_same_storage in Hget; subst s1.
  - apply set_kv_keeps.
  - intros [= <- <- <-]. split; reflexivity.
Qed.

Lemma map_session_id_update (f : Sqlite.SessionRow.t -> Sqlite.SessionRow.t) l :
  (forall r, Sqlite.SessionRow.session_id (f r) = Sqlite.SessionRow.session_id r) ->
  map Sqlite.SessionRow.session_id (map f l) = map Sqlite.SessionRow.session_id l.
Proof.
  intros Hf. rewrite map_map. apply map_ext. exact Hf.
Qed.

Lemma update_session_status_keeps sid st0 n c et em :
  storage_keeps (Sqlite.update_session_status sid st0 n c et em).
Proof.
  intros st w r st' w'. unfold Sqlite.update_session_status.
  destruct (if bool_decide _ then _ else _) as [finished w1].
  destruct (Os.sqlite_fails w1) as [[] w2]; intros [= <- <- <-];
    (split; [reflexivity|]); [reflexivity|].
  cbn. apply map_session_id_update. intros r.
  destruct (bool_decide _); reflexivity.
Qed.

Lemma keeps_emit P sid step_id event_type level payload :
  keeps_view (Kernel._emit P sid step_id event_type level payload).
Proof.
  unfold Kernel._emit.
  apply keeps_bind; [apply keeps_lift_world|intros event_id].
  apply keeps_bind; [apply keeps_lift_world|intros timestamp].
  apply keeps_try_except.
  - apply keeps_lift_storage, write_event_keeps.
  - intros e k. destruct (isinstance e AuditWriteFailureError); [|discriminate].
    intros [= <-]. apply keeps_bind; [apply keeps_log|intros _; apply keeps_raise].
Qed.

Lemma keeps_sync_session sid et em : keeps_view (Kernel._sync_session sid et em).
Proof.
  unfold Kernel._sync_session.
  apply keeps_bind; [apply keeps_get|intros f].
  apply keeps_bind; [apply keeps_get|intros steps].
  apply keeps_bind; [apply keeps_get|intros cost].
  apply keeps_try_except.
  - apply keeps_lift_storage, update_session_status_keeps.
  - intros e k. destruct (isinstance e AuditWriteFailureError); [|discriminate].
    intros [= <-]. apply keeps_bind; [apply keeps_log|intros _; apply keeps_raise].
Qed.

Lemma keeps_calculate_cost provider model i o :
  keeps_view (Kernel._calculate_cost provider model i o).
Proof.
  unfold Kernel._calculate_cost.
  apply keeps_bind; [apply keeps_get|intros rt; apply keeps_ret].
Qed.

Lemma keeps_router_call req : keeps_view (Kernel.router_call req).
Proof.
  intros s r s'. unfold Kernel.router_call.
  destruct (Router.call req (Kernel.router s) (Kernel.world s)) as [r1 [rt w]].
  intros [= <- <-]. reflexivity.
Qed.

Lemma keeps_run_tool L manifest arguments path :
  keeps_view (Kernel.run_tool L manifest arguments path).
Proof.
  intros s r s'. unfold Kernel.run_tool.
  destruct (Sandbox.run_tool_sandboxed _ _ _ _ _) as [r1 w].
  intros [= <- <-]. reflexivity.
Qed.

Lemma keeps_elapsed_ms t0 : keeps_view (Kernel.elapsed_ms t0).
Proof.
  unfold Kernel.elapsed_ms.
  apply keeps_bind; [apply keeps_lift_world|intros now; apply keeps_lift_result].
Qed.

Lemma keeps_get_history sid : keeps_view (Kernel.get_history sid).
Proof. apply keeps_lift_storage, get_conversation_history_keeps. Qed.

Lemma keeps_append_message sid m : keeps_view (Kernel.append_message sid m).
Proof. apply keeps_lift_storage, append_message_keeps. Qed.

Lemma keeps_execute_tool P reg sid step_id manifest arguments tool_call_id :
  keeps_view (Kernel._execute_tool P reg sid step_id manifest arguments tool_call_id).
Proof.
  unfold Kernel._execute_tool.
  apply keeps_bind; [apply keeps_emit|intros _].
  apply keeps_bind.
  - apply keeps_try_except.
    + apply keeps_bind; [apply keeps_run_tool|intros r; apply keeps_ret].
    + intros e k. destruct (isinstance_any e _); [|discriminate].
      intros [= <-]. apply keeps_ret.
  - intros [result|exc].
    + apply keeps_bind; [apply keeps_emit|intros _; apply keeps_ret].
    + apply keeps_bind; [apply keeps_log|intros _].
      apply keeps_bind; [apply keeps_emit|intros _; apply keeps_ret].
Qed.

(** The operations that change the view. *)

Lemma wp_fsm_transition to Q E s :
  (if legal_transition (v_state (view s)) to
   then forall s', view s' = mkView to (v_step_count (view s)) (v_total_cost (view s))
                                    (v_steps (view s)) (v_session_ids (view s)) ->
                   Q tt s'
   else forall e s', view s' = view s -> E e s') ->
  wp (Kernel.fsm_transition to) Q E s.
Proof.
  unfold wp, Kernel.fsm_transition.
  rewrite transition_by_table.
  change (Fsm.state (Kernel.fsm s)) with (v_state (view s)).
  destruct (legal_transition (v_state (view s)) to); intros H; apply H; reflexivity.
Qed.

Lemma wp_write_step_start L trace Q E s :
  (forall s' row,
     view s' = mkView (v_state (view s)) (v_step_count (view s)) (v_total_cost (view s))
                      (v_steps (view s) ++ [row]) (v_session_ids (view s)) ->
     Sqlite.StepRow.step_id row = StepTrace.step_id trace ->
     Sqlite.StepRow.session_id row = StepTrace.session_id trace ->
     Sqlite.StepRow.cost_usd row = None ->
     ~ In (StepTrace.step_id trace) (map Sqlite.StepRow.step_id (v_steps (view s))) ->
     Q tt s') ->
  (forall e s', view s' = view s -> isinstance e AuditWriteFailureError = true ->
                E e s') ->
  wp (Kernel.lift_storage (Sqlite.write_step_start L trace)) Q E s.
Proof.
  intros HQ HE. unfold wp, Kernel.lift_storage, Sqlite.write_step_start,
    Sqlite._next_step_chain_hash.
  destruct (Os.sqlite_fails (Kernel.world s)) as [fails w1]. cbn [Sqlite._conn].
  destruct (fails || _ || _) eqn:Hfail.
  - apply HE; reflexivity.
  - apply orb_false_iff in Hfail. destruct Hfail as [Hfail _].
    apply orb_false_iff in Hfail. destruct Hfail as [_ Hfresh].
    eapply HQ; try reflexivity.
    intros Hin. apply in_map_iff in Hin. destruct Hin as [r [Hid Hr]].
    assert (existsb (fun r => bool_decide
              (Sqlite.StepRow.step_id r = StepTrace.step_id trace))
              (Sqlite.steps (Sqlite._conn (Kernel.storage s))) = true) as Hex.
    { apply existsb_exists. exists r. split; [exact Hr|].
      apply bool_decide_eq_true. exact Hid. }
    rewrite Hex in Hfresh. discriminate.
Qed.

(** The UPDATE of [write_step_end] on one row. *)
Definition end_step (trace : StepTrace.t) (chain : string) (r : Sqlite.StepRow.t)
  : Sqlite.StepRow.t :=
  if bool_decide (Sqlite.StepRow.step_id r = StepTrace.step_id trace)
  then Sqlite.StepRow.mk (Sqlite.StepRow.step_id r) (Sqlite.StepRow.session_id r)
         (Sqlite.StepRow.step_number r) (Sqlite.StepRow.step_type r)
         (step_status_value (StepTrace.status trace))
         (Sqlite.StepRow.prompt_hash r) (StepTrace.model_output_hash trace)
         (Sqlite.StepRow.tool_name r) (Sqlite.StepRow.tool_input_json r)
         (StepTrace.tool_output_json trace)
         (StepTrace.input_tokens trace) (StepTrace.output_tokens trace)
         (StepTrace.cost_usd trace) (StepTrace.duration_ms trace)
         (Sqlite.StepRow.started_at r) (StepTrace.finished_at trace) chain
  else r.

Lemma wp_write_step_end L trace Q E s :
  (forall s' chain,
     view s' = mkView (v_state (view s)) (v_step_count (view s)) (v_total_cost (view s))
                      (map (end_step trace chain) (v_steps (view s)))
                      (v_session_ids (view s)) ->
     Q tt s') ->
  (forall e s', view s' = view s -> isinstance e AuditWriteFailureError = true ->
                E e s') ->
  wp (Kernel.lift_storage (Sqlite.write_step_end L trace)) Q E s.
Proof.
  intros HQ HE. unfold wp, Kernel.lift_storage, Sqlite.write_step_end,
    Sqlite._next_chain_hash.
  destruct (Os.sqlite_fails (Kernel.world s)) as [fails w1]. cbn [Sqlite._conn].
  destruct fails.
  - apply HE; reflexivity.
  - eapply HQ. reflexivity.
Qed.

Lemma end_step_others trace chain l :
  ~ In (StepTrace.step_id trace) (map Sqlite.StepRow.step_id l) ->
  map (end_step trace chain) l = l.
Proof.
  induction l as [|r l IH]; cbn; intros H; [reflexivity|].
  rewrite IH by tauto. unfold end_step.
  rewrite bool_decide_eq_false_2 by tauto. reflexivity.
Qed.


(** What one iteration of the loop does to the view, from a view [v] in
    which the FSM is RUNNING: when it returns, one step row of the session
    has been added, with its cost, which has been added to the total; the
    step limit was not exceeded. *)
(** One iteration that returns: a new step row of the session, with its
    cost, and the counters moved by it. *)
Definition body_returned (sid : string) (max_steps : Z) (v v' : View) : Prop :=
  (v_state v' = RUNNING \/ v_state v' = DONE) /\
  v_step_count v' = v_step_count v + 1 /\
  v_step_count v' <= max_steps /\
  v_session_ids v' = v_session_ids v /\
  exists row c,
    v_steps v' = v_steps v ++ [row] /\
    Sqlite.StepRow.session_id row = sid /\
    Sqlite.StepRow.cost_usd row = Some c /\
    v_total_cost v' = (v_total_cost v + c)%float /\
    ~ In (Sqlite.StepRow.step_id row) (map Sqlite.StepRow.step_id (v_steps v)).

(** One iteration that raises: the step was counted, and the FSM is still
    in a state it can fail from. Either the step table and the cost total
    are as they were (the iteration was stopped before [write_step_start]
    returned), or the step was within the limit and its row has been added
    to the table. *)
Definition body_raised (sid : string) (max_steps : Z) (v v' : View) : Prop :=
  (v_state v' = RUNNING \/ v_state v' = WAITING) /\
  v_step_count v' = v_step_count v + 1 /\
  v_session_ids v' = v_session_ids v /\
  ((v_steps v' = v_steps v /\ v_total_cost v' = v_total_cost v) \/
   (v_step_count v' <= max_steps /\
    exists row, v_steps v' = v_steps v ++ [row] /\
                Sqlite.StepRow.session_id row = sid)).

Ltac exc H :=
  rewrite H; unfold body_raised; cbn;
  split; [auto|]; split; [reflexivity|]; split; [reflexivity|];
  first [ left; split; reflexivity
        | right; split; [assumption|];
          eexists; split; [reflexivity|]; cbn; assumption ].

Ltac keep H tac :=
  apply wp_bind; apply wp_keeps_view;
  [ tac
  | intros ? ? Hnew; rewrite H in Hnew; clear H; rename Hnew into H
  | intros ? ? Hnew; rewrite H in Hnew; exc Hnew ].

Lemma wp_modify_eq (f : Kernel.State -> Kernel.State) Q E s :
  (forall s', s' = f s -> Q tt s') -> wp (Kernel.modify f) Q E s.
Proof. intros H. apply wp_modify, H. reflexivity. Qed.

Ltac new_view H Heq V :=
  let Hnew := fresh "Hnew" in
  match type of Heq with
  | ?s' = _ =>
      assert (Hnew : view s' = V)
        by (subst s'; unfold view in *; cbn in *; injection H; intros;
            f_equal; congruence);
      clear H Heq; rename Hnew into H
  end.

Ltac step_end H Hid Hfresh :=
  apply wp_bind, wp_write_step_end;
  [ let Hnew := fresh "Hnew" in
    intros ? ? Hnew; rewrite H in Hnew; cbn in Hnew;
    rewrite map_app, end_step_others in Hnew by (cbn; exact Hfresh);
    cbn [map] in Hnew; unfold end_step in Hnew;
    rewrite bool_decide_eq_true_2 in Hnew by exact Hid;
    cbn in Hnew; clear H; rename Hnew into H
  | let Hnew := fresh "Hnew" in
    intros ? ? Hnew _; rewrite H in Hnew; exc Hnew ].

Ltac transition H :=
  apply wp_bind, wp_fsm_transition; rewrite H; cbn;
  let Hnew := fresh "Hnew" in
  intros ? Hnew; clear H; rename Hnew into H.

Ltac returned H Hid Hsid Hfresh Hle :=
  try apply wp_ret; unfold body_returned; rewrite H; cbn;
  repeat split; auto;
  eexists; eexists; split; [reflexivity|]; cbn; repeat split;
  [exact Hsid|rewrite Hid; exact Hfresh].

Lemma loop_body_spec P reg cfg sid provider model ctx s :
  v_state (view s) = RUNNING ->
  wp (Kernel.loop_body P reg cfg sid provider model ctx)
     (fun _ s' => body_returned sid (KernelConfig.max_steps cfg) (view s) (view s'))
     (fun _ s' => body_raised sid (KernelConfig.max_steps cfg) (view s) (view s'))
     s.
Proof.
  intros Hrun. destruct (view s) as [st sc tc steps sess] eqn:Hv. cbn in Hrun. subst st.
  unfold Kernel.loop_body.
  assert (Hsc0 : Kernel.step_count s = sc) by (injection Hv; auto).
  apply wp_bind, wp_modify_eq. intros s1 Heq.
  rewrite Hsc0 in Heq. new_view Hv Heq (mkView RUNNING (sc + 1) tc steps sess).
  apply wp_bind, wp_get.
  assert (Hsc : Kernel.step_count s1 = sc + 1) by (injection Hv; auto).
  rewrite Hsc. clear Hsc Hsc0 s.
  keep Hv ltac:(apply keeps_lift_world).
  keep Hv ltac:(apply keeps_get_history).
  keep Hv ltac:(apply keeps_lift_world).
  apply wp_bind.
  destruct (Z.gtb_spec (sc + 1) (KernelConfig.max_steps cfg)) as [Hgt|Hle].
  { apply wp_raise. exc Hv. }
  apply wp_ret.
  apply wp_bind, wp_get.
  match goal with |- context [Kernel.total_cost ?x] =>
    assert (Htc : Kernel.total_cost x = tc) by (injection Hv; auto); rewrite Htc; clear Htc
  end.
  apply wp_bind.
  destruct (KernelConfig.max_cost_usd cfg <? tc)%float.
  { apply wp_raise. exc Hv. }
  apply wp_ret.
  keep Hv ltac:(apply keeps_lift_world).
  keep Hv ltac:(apply keeps_lift_world).
  apply wp_bind, wp_write_step_start.
  2:{ intros e sx Hnew _. rewrite Hv in Hnew. exc Hnew. }
  intros sx row Hnew Hid Hsid Hcost Hfresh. rewrite Hv in Hnew, Hfresh.
  cbn in Hnew, Hfresh, Hid, Hsid. clear Hv. rename Hnew into Hv.
  keep Hv ltac:(apply keeps_lift_world).
  keep Hv ltac:(apply keeps_router_call).
  keep Hv ltac:(apply keeps_elapsed_ms).
  keep Hv ltac:(apply keeps_calculate_cost).
  apply wp_bind, wp_modify_eq. intros s2 Heq.
  new_view Hv Heq (mkView RUNNING (sc + 1) (tc + a7)%float (steps ++ [row]) sess).
  keep Hv ltac:(apply keeps_lift_world).
  destruct (RawModelResponse.action a5).
  - destruct (RawModelResponse.tool_call a5) as [tc0|]; [|apply wp_raise; exc Hv].
    apply wp_bind.
    destruct (negb _); [apply wp_raise; exc Hv|apply wp_ret].
    apply wp_bind, wp_lift_result.
    destruct (Registry.get_manifest _ _) as [manifest|e]; [|exc Hv].
    apply wp_bind.
    destruct (List.filter _ _); [apply wp_ret|apply wp_raise; exc Hv].
    step_end Hv Hid Hfresh.
    keep Hv ltac:(apply keeps_append_message).
    transition Hv.
    keep Hv ltac:(apply keeps_sync_session).
    keep Hv ltac:(apply keeps_execute_tool).
    transition Hv.
    keep Hv ltac:(apply keeps_sync_session).
    keep Hv ltac:(apply keeps_append_message).
    returned Hv Hid Hsid Hfresh Hle.
  - step_end Hv Hid Hfresh.
    apply wp_bind, wp_modify_eq. intros s4 Heq.
    match type of Hv with _ = ?V => new_view Hv Heq V end.
    keep Hv ltac:(apply keeps_append_message).
    transition Hv.
    returned Hv Hid Hsid Hfresh Hle.
Qed.

(** What the claim on the session record compares the counters with: the
    step rows of the session, and the sum of their costs (NULLs skipped). *)
Definition steps_of (sid : string) (l : list Sqlite.StepRow.t) : list Sqlite.StepRow.t :=
  List.filter (fun r => bool_decide (Sqlite.StepRow.session_id r = sid)) l.

Definition sum_costs (rows : list Sqlite.StepRow.t) : float :=
  fold_left (fun acc r => match Sqlite.StepRow.cost_usd r with
                          | Some c => (acc + c)%float
                          | None => acc
                          end) rows 0%float.

Definition totals_agree (sid : string) (v : View) : Prop :=
  v_step_count v = Z.of_nat (length (steps_of sid (v_steps v))) /\
  v_total_cost v = sum_costs (steps_of sid (v_steps v)).

Lemma steps_of_snoc sid l row :
  Sqlite.StepRow.session_id row = sid ->
  steps_of sid (l ++ [row]) = steps_of sid l ++ [row].
Proof.
  intros H. unfold steps_of. rewrite List.filter_app. cbn.
  rewrite bool_decide_eq_true_2 by exact H. reflexivity.
Qed.

Lemma sum_costs_snoc l row c :
  Sqlite.StepRow.cost_usd row = Some c ->
  sum_costs (l ++ [row]) = (sum_costs l + c)%float.
Proof. intros H. unfold sum_costs. rewrite fold_left_app. cbn. rewrite H. reflexivity. Qed.

Lemma body_returned_totals sid max_steps v v' :
  totals_agree sid v -> body_returned sid max_steps v v' -> totals_agree sid v'.
Proof.
  intros [Hn Hc] (_ & Hsc & _ & _ & row & c & Hrows & Hsid & Hcost & Htc & _).
  unfold totals_agree. rewrite Hrows, (steps_of_snoc _ _ _ Hsid).
  rewrite (sum_costs_snoc _ _ _ Hcost), length_app, Hsc, Htc, Hn, Hc. cbn.
  split; [lia|reflexivity].
Qed.

Lemma is_terminal_view s :
  Fsm.is_terminal (Kernel.fsm s) = bool_decide (v_state (view s) ∈ [DONE; FAILED; CANCELLED]).
Proof. reflexivity. Qed.

(** The loop: it ends normally only in DONE, with the counters in step with
    the step table if they were so when it started, and raises only from
    RUNNING or WAITING. *)
Lemma main_loop_spec P reg cfg sid provider model fuel : forall ctx s,
  (v_state (view s) = RUNNING \/ v_state (view s) = DONE) ->
  wp (Kernel.main_loop P reg cfg fuel sid provider model ctx)
     (fun _ s' => v_state (view s') = DONE /\
                  (totals_agree sid (view s) -> totals_agree sid (view s')) /\
                  v_session_ids (view s') = v_session_ids (view s))
     (fun _ s' => (v_state (view s') = RUNNING \/ v_state (view s') = WAITING) /\
                  v_session_ids (view s') = v_session_ids (view s))
     s.
Proof.
  induction fuel as [|fuel IH]; intros ctx s Hstate; cbn [Kernel.main_loop];
    apply wp_bind, wp_get; rewrite is_terminal_view;
    destruct Hstate as [Hrun|Hdone];
    try (rewrite Hdone; apply wp_ret; auto);
    rewrite Hrun.
  - apply wp_raise. auto.
  - change (bool_decide (RUNNING ∈ [DONE; FAILED; CANCELLED])) with false. cbv iota.
    apply wp_bind.
    eapply wp_conseq; [apply loop_body_spec; exact Hrun| |].
    + intros ctx' s' Hret.
      pose proof (fun Htot => body_returned_totals _ _ _ _ Htot Hret) as Htot'.
      destruct Hret as (Hst & _ & _ & Hids & _).
      eapply wp_conseq; [apply IH; assumption| |]; cbv beta; rewrite <- Hids.
      * intros _ s2 (Hdone & Htot2 & Hids2). auto.
      * intros e s2 H. exact H.
    + intros e s' (Hst & _ & Hids & _). auto.
Qed.

(** The session rows of [sid] carry the counters [n] and [c]. *)
Definition session_totals (sid : string) (n : Z) (c : float) (s : Kernel.State) : Prop :=
  forall r, In r (Sqlite.sessions (Sqlite._conn (Kernel.storage s))) ->
            Sqlite.SessionRow.session_id r = sid ->
            Sqlite.SessionRow.total_steps r = n /\
            Sqlite.SessionRow.total_cost_usd r = c.

(** [_sync_session] that returns has written the kernel's counters, the
    cost rounded to six decimals, into the rows of the session. *)
Lemma wp_sync_session sid et em (Q : unit -> Kernel.State -> Prop) E s :
  (forall s', view s' = view s ->
              session_totals sid (v_step_count (view s))
                             (round6 (v_total_cost (view s))) s' ->
              Q tt s') ->
  (forall e s', view s' = view s -> E e s') ->
  wp (Kernel._sync_session sid et em) Q E s.
Proof.
  intros HQ HE.
  pose proof (keeps_sync_session sid et em) as Hk.
  unfold wp. destruct (Kernel._sync_session sid et em s) as [[[]|e] s'] eqn:Hrun.
  2:{ apply HE. eapply Hk. exact Hrun. }
  apply HQ; [eapply Hk; exact Hrun|].
  revert Hrun. unfold Kernel._sync_session, Kernel.mbind, Kernel.get,
    Kernel.try_except, Kernel.lift_storage, Sqlite.update_session_status.
  destruct (if bool_decide _ then _ else _) as [finished w1].
  destruct (Os.sqlite_fails w1) as [[] w2].
  - cbn. intros [= <-].
  - intros [= <-]. intros r Hin Hsid. cbn in Hin.
    apply in_map_iff in Hin. destruct Hin as [r0 [<- Hin]].
    destruct (bool_decide (Sqlite.SessionRow.session_id r0 = sid)) eqn:Hd.
    + split; reflexivity.
    + apply bool_decide_eq_false in Hd. contradiction.
Qed.

Ltac keep_or H tac fin :=
  apply wp_bind; apply wp_keeps_view;
  [ tac
  | intros ? ? Hnew; rewrite H in Hnew; clear H; rename Hnew into H
  | intros ? ? Hnew; rewrite H in Hnew; fin Hnew ].
Ltac anything H := exact I.

(** The statements after the [try]: the result reports the FSM state and
    the counters, which the last sync has written to the session rows. *)
Lemma teardown_spec P sid started et em s :
  wp (Kernel.teardown P sid started et em)
     (fun res s' =>
        SessionResult.status res = v_state (view s) /\
        SessionResult.steps_taken res = v_step_count (view s) /\
        SessionResult.total_cost_usd res = round6 (v_total_cost (view s)) /\
        view s' = view s /\
        session_totals sid (v_step_count (view s)) (round6 (v_total_cost (view s))) s')
     (fun _ _ => True) s.
Proof.
  unfold Kernel.teardown.
  remember (view s) as v eqn:Hv. symmetry in Hv.
  keep_or Hv ltac:(apply keeps_elapsed_ms) anything.
  apply wp_bind, wp_get. apply wp_bind, wp_get. apply wp_bind, wp_get.
  apply wp_bind, wp_get.
  change (Fsm.state (Kernel.fsm s')) with (v_state (view s')).
  change (Kernel.step_count s') with (v_step_count (view s')).
  change (Kernel.total_cost s') with (v_total_cost (view s')).
  rewrite Hv.
  keep_or Hv ltac:(apply keeps_emit) anything.
  apply wp_bind, wp_sync_session; [|intros; exact I].
  intros s2 Hv2 Htot. rewrite Hv in Hv2. rewrite Hv in Htot.
  apply wp_ret. cbn. auto.
Qed.

Lemma wp_fail_unless_terminal (Q : unit -> Kernel.State -> Prop) E s :
  v_state (view s) = RUNNING \/ v_state (view s) = WAITING ->
  (forall s', view s' = mkView FAILED (v_step_count (view s)) (v_total_cost (view s))
                               (v_steps (view s)) (v_session_ids (view s)) ->
              Q tt s') ->
  wp Kernel.fail_unless_terminal Q E s.
Proof.
  intros Hst HQ. unfold Kernel.fail_unless_terminal.
  apply wp_bind, wp_get. rewrite is_terminal_view.
  destruct Hst as [Hst|Hst]; rewrite Hst; cbn [bool_decide decide_rel];
    (change (bool_decide (_ ∈ [DONE; FAILED; CANCELLED])) with false; cbv iota);
    apply wp_fsm_transition; rewrite Hst; exact HQ.
Qed.

(** A handler of [run] that returns has moved the FSM to FAILED and left
    the counters and the tables of steps and sessions as they were. *)
Lemma on_exception_spec P sid exc s :
  v_state (view s) = RUNNING \/ v_state (view s) = WAITING ->
  wp (Kernel.on_exception P sid exc)
     (fun _ s' => view s' = mkView FAILED (v_step_count (view s))
                                   (v_total_cost (view s)) (v_steps (view s))
                                   (v_session_ids (view s)))
     (fun _ _ => True) s.
Proof.
  intros Hst. unfold Kernel.on_exception.
  remember (view s) as v eqn:Hv. symmetry in Hv.
  repeat match goal with
         | |- wp (if ?b then _ else _) _ _ _ => destruct b
         end;
    try (apply wp_raise; exact I);
    (keep_or Hv ltac:(apply keeps_log) anything);
    try (keep_or Hv ltac:(apply keeps_emit) anything);
    (apply wp_bind, wp_fail_unless_terminal; [rewrite Hv; exact Hst|]);
    intros s2 Hv2; rewrite Hv in Hv2;
    try (apply wp_ret; exact Hv2).
  apply wp_bind, wp_keeps_view; [apply keeps_sync_session| |intros; exact I].
  intros _ s3 _. apply wp_raise. exact I.
Qed.

Lemma wp_create_session L sid task cfg (Q : unit -> Kernel.State -> Prop) E s :
  (forall s',
     view s' = mkView (v_state (view s)) (v_step_count (view s)) (v_total_cost (view s))
                      (v_steps (view s)) (v_session_ids (view s) ++ [sid]) ->
     ~ In sid (v_session_ids (view s)) ->
     Q tt s') ->
  (forall e s', view s' = view s -> E e s') ->
  wp (Kernel.lift_storage (Sqlite.create_session L sid task cfg)) Q E s.
Proof.
  intros HQ HE. unfold wp, Kernel.lift_storage, Sqlite.create_session.
  destruct (Os.read_utcnow (Kernel.world s)) as [now w1].
  destruct (Os.sqlite_fails w1) as [fails w2].
  destruct (fails || _) eqn:Hfail.
  - apply HE. reflexivity.
  - apply orb_false_iff in Hfail. destruct Hfail as [_ Hnew].
    apply HQ.
    + unfold view. cbn. rewrite map_app. reflexivity.
    + intros Hin. apply in_map_iff in Hin. destruct Hin as [r [Hid Hr]].
      assert (existsb (fun r => bool_decide (Sqlite.SessionRow.session_id r = sid))
                (Sqlite.sessions (Sqlite._conn (Kernel.storage s))) = true) as Hex.
      { apply existsb_exists. exists r. split; [exact Hr|].
        apply bool_decide_eq_true. exact Hid. }
      rewrite Hex in Hnew. discriminate.
Qed.

(** The statements before the [try]: when they return, the session is new
    in the session table, the FSM is in RUNNING and the counters are 0. *)
Lemma startup_spec P reg cfg req s :
  wp (Kernel.startup P reg cfg req)
     (fun _ s' =>
        view s' = mkView RUNNING 0 0%float (v_steps (view s))
                         (v_session_ids (view s) ++ [SessionRequest.session_id req]) /\
        ~ In (SessionRequest.session_id req) (v_session_ids (view s)))
     (fun _ _ => True) s.
Proof.
  unfold Kernel.startup.
  destruct (view s) as [st sc tc steps sess] eqn:Hv. cbn [v_steps v_session_ids].
  apply wp_bind, wp_modify_eq. intros s1 Heq.
  new_view Hv Heq (mkView IDLE 0 0%float steps sess).
  keep_or Hv ltac:(apply keeps_lift_world) anything.
  apply wp_bind, wp_try_except, wp_create_session.
  2:{ intros e s2 _. destruct (isinstance e AuditWriteFailureError); exact I. }
  intros s2 Hv2 Hnone. rewrite Hv in Hv2. rewrite Hv in Hnone. cbn in Hv2, Hnone. clear Hv.
  rename Hv2 into Hv.
  apply wp_bind, wp_keeps_view.
  { destruct (Scrubber.assert_clean_input _ _ _) as [u|exc]; [apply keeps_ret|].
    destruct (isinstance exc PromptInjectionWarning); [|apply keeps_raise].
    apply keeps_bind; [apply keeps_log|intros _; apply keeps_emit]. }
  2:{ intros; exact I. }
  intros _ s3 Hv3. rewrite Hv in Hv3. clear Hv. rename Hv3 into Hv.
  keep_or Hv ltac:(apply keeps_emit) anything.
  transition Hv.
  keep_or Hv ltac:(apply keeps_sync_session) anything.
  keep_or Hv ltac:(apply keeps_append_message) anything.
  keep_or Hv ltac:(apply keeps_lift_world) anything.
  keep_or Hv ltac:(apply keeps_get_history) anything.
  keep_or Hv ltac:(apply keeps_lift_world) anything.
  apply wp_ret. split; [exact Hv|exact Hnone].
Qed.

(** Foreign key of the step table: every step row belongs to a session of
    the session table. *)
Definition steps_reference_sessions (v : View) : Prop :=
  forall r, In r (v_steps v) -> In (Sqlite.StepRow.session_id r) (v_session_ids v).

Lemma new_session_has_no_steps sid v :
  steps_reference_sessions v -> ~ In sid (v_session_ids v) ->
  steps_of sid (v_steps v) = [].
Proof.
  intros Hfk Hnew. unfold steps_of.
  destruct (List.filter _ (v_steps v)) as [|r l] eqn:Hrows; [reflexivity|].
  assert (In r (List.filter
                  (fun r => bool_decide (Sqlite.StepRow.session_id r = sid))
                  (v_steps v))) as Hin by (rewrite Hrows; left; reflexivity).
  apply filter_In in Hin. destruct Hin as [Hin Hsid].
  apply bool_decide_eq_true in Hsid. subst sid.
  destruct (Hnew (Hfk r Hin)).
Qed.

(** What the counters of a session whose loop raised are to its step rows:
    one step more than the rows, with the cost total still their sum (the
    last iteration was stopped before its row was written), or as many
    steps as rows, within the step limit. *)
Definition stopped_totals (sid : string) (max_steps : Z) (v : View) : Prop :=
  let rows := steps_of sid (v_steps v) in
  (v_step_count v = Z.of_nat (length rows) + 1 /\ v_total_cost v = sum_costs rows) \/
  (v_step_count v = Z.of_nat (length rows) /\ v_step_count v <= max_steps).

Lemma body_raised_totals sid max_steps v v' :
  totals_agree sid v -> body_raised sid max_steps v v' ->
  stopped_totals sid max_steps v'.
Proof.
  intros [Hn Hc] (_ & Hsc & _ & [[Hrows Htc]|[Hle [row [Hrows Hsid]]]]);
    unfold stopped_totals; cbn zeta; rewrite Hrows.
  - left. split; [lia|congruence].
  - right. rewrite (steps_of_snoc _ _ _ Hsid), length_app. cbn [length].
    split; [lia|exact Hle].
Qed.

(** The loop, with the counters in step with the step table when it
    starts and fuel for the iterations that are left: it ends normally only
    in DONE with the counters still in step, and when it raises the
    counters are as [stopped_totals] says. *)
Lemma main_loop_totals P reg cfg sid provider model fuel : forall ctx s,
  (v_state (view s) = RUNNING \/ v_state (view s) = DONE) ->
  totals_agree sid (view s) ->
  (Z.to_nat (KernelConfig.max_steps cfg - v_step_count (view s)) < fuel)%nat ->
  wp (Kernel.main_loop P reg cfg fuel sid provider model ctx)
     (fun _ s' => v_state (view s') = DONE /\
                  totals_agree sid (view s') /\
                  v_session_ids (view s') = v_session_ids (view s))
     (fun _ s' => (v_state (view s') = RUNNING \/ v_state (view s') = WAITING) /\
                  stopped_totals sid (KernelConfig.max_steps cfg) (view s') /\
                  v_session_ids (view s') = v_session_ids (view s))
     s.
Proof.
  induction fuel as [|fuel IH]; intros ctx s Hstate Htot Hfuel; [lia|].
  cbn [Kernel.main_loop]. apply wp_bind, wp_get. rewrite is_terminal_view.
  destruct Hstate as [Hrun|Hdone]; [|rewrite Hdone; apply wp_ret; auto].
  rewrite Hrun.
  change (bool_decide (RUNNING ∈ [DONE; FAILED; CANCELLED])) with false. cbv iota.
  apply wp_bind.
  eapply wp_conseq; [apply loop_body_spec; exact Hrun| |].
  - intros ctx' s' Hret.
    pose proof (body_returned_totals _ _ _ _ Htot Hret) as Htot'.
    destruct Hret as (Hst & Hsc & Hle & Hids & _).
    eapply wp_conseq; [apply IH; [exact Hst|exact Htot'|lia]| |];
      cbv beta; rewrite <- Hids.
    + intros _ s2 H. exact H.
    + intros e s2 H. exact H.
  - intros e s' Hraised.
    pose proof (body_raised_totals _ _ _ _ Htot Hraised) as Hstopped.
    destruct Hraised as (Hst & _ & Hids & _). auto.
Qed.

(** An iteration that starts with the step limit reached or the cost
    budget exceeded: it counts the step and raises; no step row is written
    and the cost total stays. *)
Lemma loop_body_over_limit P reg cfg sid provider model ctx s :
  v_step_count (view s) + 1 > KernelConfig.max_steps cfg \/
  (KernelConfig.max_cost_usd cfg <? v_total_cost (view s))%float = true ->
  wp (Kernel.loop_body P reg cfg sid provider model ctx)
     (fun _ _ => False)
     (fun _ s' => v_steps (view s') = v_steps (view s) /\
                  v_step_count (view s') = v_step_count (view s) + 1 /\
                  v_total_cost (view s') = v_total_cost (view s))
     s.
Proof.
  intros Hover. destruct (view s) as [st sc tc steps sess] eqn:Hv.
  cbn [v_step_count v_total_cost v_steps] in *.
  unfold Kernel.loop_body.
  assert (Hsc0 : Kernel.step_count s = sc) by (injection Hv; auto).
  apply wp_bind, wp_modify_eq. intros s1 Heq.
  rewrite Hsc0 in Heq. new_view Hv Heq (mkView st (sc + 1) tc steps sess).
  apply wp_bind, wp_get.
  assert (Hsc : Kernel.step_count s1 = sc + 1) by (injection Hv; auto).
  rewrite Hsc. clear Hsc Hsc0 s.
  assert (Hend : forall s', view s' = mkView st (sc + 1) tc steps sess ->
            v_steps (view s') = steps /\ v_step_count (view s') = sc + 1 /\
            v_total_cost (view s') = tc).
  { intros s' ->. repeat split. }
  apply wp_bind, wp_keeps_view; [apply keeps_lift_world| |];
    [|intros ? ? Hnew; rewrite Hv in Hnew; apply Hend; exact Hnew].
  intros ? ? Hnew; rewrite Hv in Hnew; clear Hv; rename Hnew into Hv.
  apply wp_bind, wp_keeps_view; [apply keeps_get_history| |];
    [|intros ? ? Hnew; rewrite Hv in Hnew; apply Hend; exact Hnew].
  intros ? ? Hnew; rewrite Hv in Hnew; clear Hv; rename Hnew into Hv.
  apply wp_bind, wp_keeps_view; [apply keeps_lift_world| |];
    [|intros ? ? Hnew; rewrite Hv in Hnew; apply Hend; exact Hnew].
  intros ? ? Hnew; rewrite Hv in Hnew; clear Hv; rename Hnew into Hv.
  apply wp_bind.
  destruct (Z.gtb_spec (sc + 1) (KernelConfig.max_steps cfg)) as [Hgt|Hle].
  { apply wp_raise. apply Hend. exact Hv. }
  destruct Hover as [Hover|Hover]; [lia|].
  apply wp_ret.
  apply wp_bind, wp_get.
  match goal with |- context [Kernel.total_cost ?x] =>
    assert (Htc : Kernel.total_cost x = tc) by (injection Hv; auto); rewrite Htc; clear Htc
  end.
  apply wp_bind. rewrite Hover. apply wp_raise. apply Hend. exact Hv.
Qed.

(** C5, as stated, fails in three ways.
    - With [max_steps = 1] and a model that asks for a tool, the second
      iteration is counted and then stopped by the step limit before its
      step row is written: the session row says 2 steps, the step table has
      one row of the session.
    - The model (50 and 20 tokens, priced) asks for a tool that is not
      registered: the step row stays as [write_step_start] wrote it,
      without a cost, and the session row carries the cost of the call.
    - The total written by the last sync is rounded: one input token of
      the cheapest model costs 0.8e-6, which the step row keeps, and the
      session row of the DONE session says 1e-6. *)
Lemma session_record_differs_from_step_rows :
  (fst (Scenario.mock_session 1 (Scenario.tool_call "noop_tool" []) Scenario.test_host)
   = Ok (SessionResult.mk "session-1" FAILED None 2 0 5000
           (Some "StepLimitExceededError")
           (Some (Msg "Exceeded max_steps={self._config.max_steps}" [MInt 1]))) /\
   map (fun r => (Sqlite.SessionRow.session_id r, Sqlite.SessionRow.total_steps r))
       (Sqlite.sessions (Sqlite._conn (Kernel.storage (snd
          (Scenario.mock_session 1 (Scenario.tool_call "noop_tool" [])
             Scenario.test_host)))))
   = [("session-1", 2)] /\
   length (steps_of "session-1"
             (Sqlite.steps (Sqlite._conn (Kernel.storage (snd
                (Scenario.mock_session 1 (Scenario.tool_call "noop_tool" [])
                   Scenario.test_host)))))) = 1%nat) /\
  (fst (Scenario.anthropic_session (Scenario.tool_call "missing_tool" [])
          Scenario.test_host)
   = Ok (SessionResult.mk "session-1" FAILED None 1
           (round6 ((50 * 0.8 + 20 * 4) / 1000000)%float) 3000
           (Some "UnknownToolError")
           (Some (Msg "Model requested unknown tool: {tc.tool_name!r}"
                      [MStr "missing_tool"]))) /\
   map Sqlite.SessionRow.total_cost_usd
       (Sqlite.sessions (Sqlite._conn (Kernel.storage (snd
          (Scenario.anthropic_session (Scenario.tool_call "missing_tool" [])
             Scenario.test_host)))))
   = [round6 ((50 * 0.8 + 20 * 4) / 1000000)%float] /\
   map Sqlite.StepRow.cost_usd
       (Sqlite.steps (Sqlite._conn (Kernel.storage (snd
          (Scenario.anthropic_session (Scenario.tool_call "missing_tool" [])
             Scenario.test_host)))))
   = [None] /\
   (round6 ((50 * 0.8 + 20 * 4) / 1000000) =? 0)%float = false) /\
  (option_map SessionResult.status
     (match fst (Scenario.anthropic_session (Scenario.answer "The answer is 42." 1 0)
                   Scenario.test_host) with
      | Ok res => Some res
      | Raise _ => None
      end) = Some DONE /\
   map Sqlite.StepRow.cost_usd
       (Sqlite.steps (Sqlite._conn (Kernel.storage (snd
          (Scenario.anthropic_session (Scenario.answer "The answer is 42." 1 0)
             Scenario.test_host)))))
   = [Some (0.8 / 1000000)%float] /\
   map Sqlite.SessionRow.total_cost_usd
       (Sqlite.sessions (Sqlite._conn (Kernel.storage (snd
          (Scenario.anthropic_session (Scenario.answer "The answer is 42." 1 0)
             Scenario.test_host)))))
   = [(1 / 1000000)%float] /\
   ((1 / 1000000) =? (0.8 / 1000000))%float = false).
Proof.
  split; [|split].
  - split; [|split]; vm_compute; reflexivity.
  - split; [|split; [|split]]; vm_compute; reflexivity.
  - split; [|split; [|split]]; vm_compute; reflexivity.
Qed.

(** C5, amended. When [run] returns on a database that respects the foreign
    key of the step table, the session has a row in the session table, and
    every such row carries, as the result does, the kernel's step counter
    as [total_steps] and its cost total rounded to six decimals as
    [total_cost_usd].
    - Status DONE: the counter is the number of step rows of the session
      and the cost is the sum of their [cost_usd] values, in row order,
      rounded to six decimals.
    - Status FAILED: the counter is the number of step rows or one more; it
      is one more whenever it exceeds [max_steps]; and whenever it is one
      more, the cost is still the rounded sum of the rows' costs.
    - An iteration of the loop that starts with the step limit reached or
      the cost budget exceeded counts the step and raises without writing a
      step row or changing the cost total. *)
Theorem session_totals_after_run P reg cfg req s0 res s' :
  steps_reference_sessions (view s0) ->
  Kernel.run P reg cfg req s0 = (Ok res, s') ->
  let sid := SessionRequest.session_id req in
  let db := Sqlite._conn (Kernel.storage s') in
  let rows := steps_of sid (Sqlite.steps db) in
  (exists r, In r (Sqlite.sessions db) /\ Sqlite.SessionRow.session_id r = sid) /\
  (forall r, In r (Sqlite.sessions db) -> Sqlite.SessionRow.session_id r = sid ->
             Sqlite.SessionRow.total_steps r = SessionResult.steps_taken res /\
             Sqlite.SessionRow.total_cost_usd r = SessionResult.total_cost_usd res) /\
  (SessionResult.status res = DONE ->
   SessionResult.steps_taken res = Z.of_nat (length rows) /\
   SessionResult.total_cost_usd res = round6 (sum_costs rows)) /\
  (SessionResult.status res = FAILED ->
   (SessionResult.steps_taken res = Z.of_nat (length rows) \/
    SessionResult.steps_taken res = Z.of_nat (length rows) + 1) /\
   (SessionResult.steps_taken res > KernelConfig.max_steps cfg ->
    SessionResult.steps_taken res = Z.of_nat (length rows) + 1) /\
   (SessionResult.steps_taken res = Z.of_nat (length rows) + 1 ->
    SessionResult.total_cost_usd res = round6 (sum_costs rows))) /\
  (forall provider model ctx s,
     Kernel.step_count s + 1 > KernelConfig.max_steps cfg \/
     (KernelConfig.max_cost_usd cfg <? Kernel.total_cost s)%float = true ->
     exists e s1,
       Kernel.loop_body P reg cfg sid provider model ctx s = (Raise e, s1) /\
       Kernel.step_count s1 = Kernel.step_count s + 1 /\
       Kernel.total_cost s1 = Kernel.total_cost s /\
       Sqlite.steps (Sqlite._conn (Kernel.storage s1))
       = Sqlite.steps (Sqlite._conn (Kernel.storage s))).
Proof.
  intros Hfk Hrun sid db rows.
  assert (Hlimit : forall provider model ctx s,
     Kernel.step_count s + 1 > KernelConfig.max_steps cfg \/
     (KernelConfig.max_cost_usd cfg <? Kernel.total_cost s)%float = true ->
     exists e s1,
       Kernel.loop_body P reg cfg sid provider model ctx s = (Raise e, s1) /\
       Kernel.step_count s1 = Kernel.step_count s + 1 /\
       Kernel.total_cost s1 = Kernel.total_cost s /\
       Sqlite.steps (Sqlite._conn (Kernel.storage s1))
       = Sqlite.steps (Sqlite._conn (Kernel.storage s))).
  { intros provider model ctx s Hover.
    pose proof (loop_body_over_limit P reg cfg sid provider model ctx s Hover) as Hwp.
    unfold wp in Hwp.
    destruct (Kernel.loop_body P reg cfg sid provider model ctx s) as [[ctx'|e] s1];
      [destruct Hwp|].
    destruct Hwp as (Hsteps & Hcount & Hcost). exists e, s1. auto. }
  unfold Kernel.run in Hrun. unfold Kernel.mbind at 1 in Hrun.
  destruct (Kernel.startup P reg cfg req s0) as [[x|e] s1] eqn:Hstart; [|discriminate].
  destruct x as [[[started provider] model] ctx].
  destruct (proj1 (wp_run _ _ _ _ (startup_spec P reg cfg req s0)) _ _ Hstart)
    as [Hv1 Hnew].
  pose proof (new_session_has_no_steps _ _ Hfk Hnew) as Hnone.
  assert (Htot1 : totals_agree sid (view s1)).
  { rewrite Hv1. unfold totals_agree. cbn [v_step_count v_total_cost v_steps].
    fold sid in Hnone. rewrite Hnone.
    split; reflexivity. }
  assert (Hin1 : In sid (v_session_ids (view s1))).
  { rewrite Hv1. cbn. apply in_or_app. right. left. reflexivity. }
  assert (Hst1 : v_state (view s1) = RUNNING \/ v_state (view s1) = DONE).
  { rewrite Hv1. left. reflexivity. }
  assert (Hfuel : (Z.to_nat (KernelConfig.max_steps cfg - v_step_count (view s1))
                   < Kernel.loop_fuel cfg)%nat).
  { rewrite Hv1. cbn [v_step_count]. unfold Kernel.loop_fuel. lia. }
  pose proof (wp_run _ _ _ _
                (main_loop_totals P reg cfg sid provider model (Kernel.loop_fuel cfg)
                                  ctx s1 Hst1 Htot1 Hfuel)) as [Hok Hraise].
  unfold Kernel.mbind at 1, Kernel.try_except, Kernel.mbind at 1 in Hrun.
  fold sid in Hrun.
  assert (Hrow : forall s2, view s' = view s2 ->
            v_session_ids (view s2) = v_session_ids (view s1) ->
            exists r, In r (Sqlite.sessions db) /\ Sqlite.SessionRow.session_id r = sid).
  { intros s2 Hv' Hids2.
    assert (Hin : In sid (v_session_ids (view s'))).
    { rewrite Hv', Hids2. exact Hin1. }
    apply in_map_iff in Hin. destruct Hin as [r [Hr Hin]]. exists r. auto. }
  destruct (Kernel.main_loop P reg cfg (Kernel.loop_fuel cfg) sid provider model ctx s1)
    as [[[]|e] s2] eqn:Hloop.
  - destruct (Hok _ _ eq_refl) as (Hst2 & [Hn Hc] & Hids2).
    cbn [Kernel.ret fst snd] in Hrun.
    destruct (proj1 (wp_run _ _ _ _ (teardown_spec P sid started None None s2)) _ _ Hrun)
      as (Hstatus & Hsteps & Hcost & Hv' & Hrows).
    assert (Hsame : rows = steps_of sid (v_steps (view s2))).
    { rewrite <- Hv'. reflexivity. }
    split; [exact (Hrow s2 Hv' Hids2)|].
    split; [rewrite Hsteps, Hcost; exact Hrows|].
    split; [intros _; rewrite Hsteps, Hcost, Hsame, <- Hn, <- Hc; split; reflexivity|].
    split; [|exact Hlimit].
    intros Hfailed. rewrite Hstatus, Hst2 in Hfailed. discriminate.
  - destruct (Hraise _ _ eq_refl) as (Hst2 & Hstopped & Hids2).
    pose proof (wp_run _ _ _ _ (on_exception_spec P sid e s2 Hst2)) as [Hexc _].
    destruct (Kernel.on_exception P sid e s2) as [[errors|e'] s3] eqn:Hhandler;
      [|discriminate].
    pose proof (Hexc _ _ eq_refl) as Hv3.
    destruct (proj1 (wp_run _ _ _ _
                       (teardown_spec P sid started (fst errors) (snd errors) s3))
                    _ _ Hrun) as (Hstatus & Hsteps & Hcost & Hv' & Hrows).
    rewrite Hv3 in Hstatus, Hsteps, Hcost, Hrows.
    cbn [v_state v_step_count v_total_cost] in Hstatus, Hsteps, Hcost, Hrows.
    assert (Hsame : rows = steps_of sid (v_steps (view s2))).
    { unfold rows, db. change (Sqlite.steps (Sqlite._conn (Kernel.storage s')))
        with (v_steps (view s')). rewrite Hv', Hv3. reflexivity. }
    split.
    { apply (Hrow s3 Hv'). rewrite Hv3. cbn [v_session_ids]. exact Hids2. }
    split; [rewrite Hsteps, Hcost; exact Hrows|].
    split; [intros Hdone; rewrite Hstatus in Hdone; discriminate|].
    split; [|exact Hlimit].
    intros _. rewrite Hsteps, Hcost, Hsame.
    unfold stopped_totals in Hstopped. cbn zeta in Hstopped.
    destruct Hstopped as [[Hn Hc]|[Hn Hle]].
    + split; [right; exact Hn|]. split; [intros _; exact Hn|].
      intros _. rewrite Hc. reflexivity.
    + split; [left; exact Hn|]. split; intros H; lia.
Qed.

Lemma session_totals_after_run_witness :
  Z.of_nat (length (steps_of "session-1"
    (Sqlite.steps (Sqlite._conn (Kernel.storage (snd
       (Kernel.run Scenario.pylib Scenario.registry
          (Scenario.config "anthropic" "claude-haiku-4-5-20251001" 5)
          (Scenario.request "What is 6 times 7?")
          (Scenario.fresh "anthropic"
             (Scenario.constant_provider true
                (Scenario.answer "The answer is 42." 50 20))
             Scenario.test_host)))))))) = 1 /\
  Z.of_nat (length (steps_of "session-1"
    (Sqlite.steps (Sqlite._conn (Kernel.storage (snd
       (Kernel.run Scenario.pylib Scenario.registry
          (Scenario.config "mock" "mock-model" 1)
          (Scenario.request "What is 6 times 7?")
          (Scenario.fresh "mock"
             (Scenario.constant_provider false (Scenario.tool_call "noop_tool" []))
             Scenario.test_host)))))))) + 1 = 2.
Proof.
  split.
  - pose (res := SessionResult.mk "session-1" DONE (Some "The answer is 42.") 1
                   (round6 ((50 * 0.8 + 20 * 4) / 1000000)%float) 3000 None None).
    assert (Hfk : steps_reference_sessions
                    (view (Scenario.fresh "anthropic"
                             (Scenario.constant_provider true
                                (Scenario.answer "The answer is 42." 50 20))
                             Scenario.test_host))).
    { intros r Hin. exact (match Hin with end). }
    assert (Hfst : fst (Kernel.run Scenario.pylib Scenario.registry
                          (Scenario.config "anthropic" "claude-haiku-4-5-20251001" 5)
                          (Scenario.request "What is 6 times 7?")
                          (Scenario.fresh "anthropic"
                             (Scenario.constant_provider true
                                (Scenario.answer "The answer is 42." 50 20))
                             Scenario.test_host)) = Ok res).
    { vm_compute. reflexivity. }
    pose proof (run_eta _ _ Hfst) as Hrun.
    pose proof (session_totals_after_run _ _ _ _ _ _ _ Hfk Hrun) as H.
    destruct H as (_ & _ & Hdone & _).
    destruct (Hdone eq_refl) as [Hn _].
    exact (eq_sym Hn).
  - pose (res := SessionResult.mk "session-1" FAILED None 2 0 5000
                   (Some "StepLimitExceededError")
                   (Some (Msg "Exceeded max_steps={self._config.max_steps}" [MInt 1]))).
    assert (Hfk : steps_reference_sessions
                    (view (Scenario.fresh "mock"
                             (Scenario.constant_provider false
                                (Scenario.tool_call "noop_tool" []))
                             Scenario.test_host))).
    { intros r Hin. exact (match Hin with end). }
    assert (Hfst : fst (Kernel.run Scenario.pylib Scenario.registry
                          (Scenario.config "mock" "mock-model" 1)
                          (Scenario.request "What is 6 times 7?")
                          (Scenario.fresh "mock"
                             (Scenario.constant_provider false
                                (Scenario.tool_call "noop_tool" []))
                             Scenario.test_host)) = Ok res).
    { vm_compute. reflexivity. }
    pose proof (run_eta _ _ Hfst) as Hrun.
    pose proof (session_totals_after_run _ _ _ _ _ _ _ Hfk Hrun) as H.
    destruct H as (_ & _ & _ & Hfailed & _).
    destruct (Hfailed eq_refl) as (_ & Hover & _).
    exact (eq_sym (Hover eq_refl)).
Defined.

(** The fuel of the loop is enough: an iteration that returns has counted a
    step within [max_steps], so more fuel than the steps that are left
    changes nothing. *)
Lemma main_loop_fuel P reg cfg sid provider model : forall fuel1 fuel2 ctx s,
  v_state (view s) = RUNNING \/ v_state (view s) = DONE ->
  (Z.to_nat (KernelConfig.max_steps cfg - v_step_count (view s)) < fuel1)%nat ->
  (Z.to_nat (KernelConfig.max_steps cfg - v_step_count (view s)) < fuel2)%nat ->
  Kernel.main_loop P reg cfg fuel1 sid provider model ctx s
  = Kernel.main_loop P reg cfg fuel2 sid provider model ctx s.
Proof.
  induction fuel1 as [|fuel1 IH]; intros fuel2 ctx s Hstate H1 H2; [lia|].
  destruct fuel2 as [|fuel2]; [lia|].
  cbn [Kernel.main_loop]. unfold Kernel.mbind at 1 3, Kernel.get.
  rewrite is_terminal_view.
  destruct Hstate as [Hrun|Hdone]; [|rewrite Hdone; reflexivity].
  rewrite Hrun.
  change (bool_decide (RUNNING ∈ [DONE; FAILED; CANCELLED])) with false. cbv iota.
  unfold Kernel.mbind.
  pose proof (wp_run _ _ _ _ (loop_body_spec P reg cfg sid provider model ctx s Hrun))
    as [Hret _].
  destruct (Kernel.loop_body P reg cfg sid provider model ctx s) as [[ctx'|e] s'];
    [|reflexivity].
  destruct (Hret _ _ eq_refl) as (Hst & Hsc & Hle & _).
  apply IH; [exact Hst|lia|lia].
Qed.

Lemma loop_fuel_enough P reg cfg sid provider model fuel ctx s :
  v_state (view s) = RUNNING -> v_step_count (view s) = 0 ->
  (Kernel.loop_fuel cfg <= fuel)%nat ->
  Kernel.main_loop P reg cfg fuel sid provider model ctx s
  = Kernel.main_loop P reg cfg (Kernel.loop_fuel cfg) sid provider model ctx s.
Proof.
  intros Hrun Hzero Hfuel. unfold Kernel.loop_fuel in *.
  apply main_loop_fuel; [auto|rewrite Hzero; lia|rewrite Hzero; lia].
Qed.

(** ** The handler of AuditWriteFailureError *)

Lemma audit_write_failure_clause exc :
  isinstance exc AuditWriteFailureError = true ->
  isinstance_any exc [StepLimitExceededError; CostBudgetExceededError; LimitError] = false /\
  isinstance_any exc [SecurityError; PathTraversalError] = false /\
  isinstance_any exc [ModelProviderExhaustedError; CircuitBreakerOpenError] = false.
Proof.
  unfold isinstance_any, isinstance.
  destruct (type_of exc); vm_compute; intros H; try discriminate H; repeat split.
Qed.

(** What the handler leaves in the session rows of [sid] when its sync
    succeeds. *)
Definition session_marked_failed (sid : string) (s : Kernel.State) : Prop :=
  forall r, In r (Sqlite.sessions (Sqlite._conn (Kernel.storage s))) ->
            Sqlite.SessionRow.session_id r = sid ->
            Sqlite.SessionRow.status r = "FAILED" /\
            Sqlite.SessionRow.error_type r = Some "AuditWriteFailureError" /\
            Sqlite.SessionRow.error_msg r =
              Some (MStr "Audit write failed — session terminated").

Definition halt_record : LogLevel * string := (CRITICAL, "audit_write_failure_halt").

(** The outcome of the handler on [exc], started in [s] and ended in [s']
    raising [e']. *)
Definition halted (sid : string) (exc : exn) (s : Kernel.State)
    (e' : exn) (s' : Kernel.State) : Prop :=
  isinstance e' AuditWriteFailureError = true /\
  Fsm.state (Kernel.fsm s') = FAILED /\
  Sqlite.audit_events (Sqlite._conn (Kernel.storage s'))
  = Sqlite.audit_events (Sqlite._conn (Kernel.storage s)) /\
  ((e' = exc /\
    Kernel.log s' = Kernel.log s ++ [halt_record] /\
    session_marked_failed sid s')
   \/
   (e' = Sqlite.audit_write_failure "update_session_status failed: {e}" /\
    Kernel.log s' = Kernel.log s ++ [halt_record; (CRITICAL, "session_sync_failed")] /\
    Sqlite.sessions (Sqlite._conn (Kernel.storage s'))
    = Sqlite.sessions (Sqlite._conn (Kernel.storage s)))).

Lemma on_exception_audit_write_failure P sid exc s :
  isinstance exc AuditWriteFailureError = true ->
  v_state (view s) = RUNNING \/ v_state (view s) = WAITING ->
  exists e' s',
    Kernel.on_exception P sid exc s = (Raise e', s') /\ halted sid exc s e' s'.
Proof.
  intros Hawf Hst. unfold Kernel.on_exception.
  destruct (audit_write_failure_clause exc Hawf) as (-> & -> & ->). rewrite Hawf.
  assert (Hnt : Fsm.is_terminal (Kernel.fsm s) = false).
  { rewrite is_terminal_view. destruct Hst as [-> | ->]; reflexivity. }
  assert (Hlegal : legal_transition (Fsm.state (Kernel.fsm s)) FAILED = true).
  { change (Fsm.state (Kernel.fsm s)) with (v_state (view s)).
    destruct Hst as [-> | ->]; reflexivity. }
  unfold Kernel.mbind at 1. unfold Kernel._log, Kernel.modify.
  unfold Kernel.mbind at 1. unfold Kernel.fail_unless_terminal, Kernel.mbind at 1.
  unfold Kernel.get. cbn [Kernel.fsm Kernel.with_log]. rewrite Hnt.
  unfold Kernel.fsm_transition. cbn [Kernel.fsm Kernel.with_log].
  rewrite transition_by_table, Hlegal.
  unfold Kernel.mbind at 1. unfold Kernel._sync_session.
  unfold Kernel.mbind, Kernel.get, Kernel.try_except, Kernel.lift_storage,
    Sqlite.update_session_status.
  cbn [Kernel.fsm Kernel.with_fsm Kernel.with_log Kernel.storage Kernel.world
       Kernel.step_count Kernel.total_cost Fsm.state Fsm._state].
  change (bool_decide (FAILED ∈ [DONE; FAILED; CANCELLED])) with true. cbv iota.
  destruct (Os.read_utcnow (Kernel.world s)) as [now w1].
  destruct (Os.sqlite_fails w1) as [[] w2].
  - eexists. eexists. split; [reflexivity|].
    unfold halted. cbn. repeat split. right. repeat split.
    rewrite <- app_assoc. reflexivity.
  - eexists. eexists. split; [reflexivity|].
    unfold halted. cbn. repeat split; [exact Hawf|]. left. repeat split.
    all: apply in_map_iff in H; destruct H as [r0 [<- Hin]];
      destruct (bool_decide (Sqlite.SessionRow.session_id r0 = sid)) eqn:Hd;
      [reflexivity|apply bool_decide_eq_false in Hd; contradiction].
Qed.

Lemma run_eta_raise {A S : Type} (p : result A * S) (e : exn) :
  fst p = Raise e -> p = (Raise e, snd p).
Proof. destruct p as [r s]. cbn. intros ->. reflexivity. Qed.

(** C4, counterexample. The database refuses the INSERT of the first step
    row: [write_step_start] raises AuditWriteFailureError in the main loop,
    the handler logs "audit_write_failure_halt" and the error leaves [run],
    but the audit table holds no event of that type (only "session_start"). *)
Lemma audit_write_failure_emits_no_event :
  let p := Scenario.mock_session 5 (Scenario.answer "The answer is 42." 50 20)
                                 (Scenario.host_failing_at 10) in
  fst p = Raise (Sqlite.audit_write_failure "write_step_start failed: {e}") /\
  Kernel.log (snd p) = [(CRITICAL, "audit_write_failure_halt")] /\
  map Sqlite.EventRow.event_type
      (Sqlite.audit_events (Sqlite._conn (Kernel.storage (snd p))))
  = ["session_start"].
Proof.
  intros p. split; [|split]; vm_compute; reflexivity.
Qed.

(** C4 (amended). When the main loop raises an AuditWriteFailureError
    [exc], the handler writes the record "audit_write_failure_halt" to the
    log at CRITICAL and no audit event, moves the FSM to FAILED and syncs
    the session row with status FAILED and error type
    "AuditWriteFailureError"; [run] then raises [exc] again, or, when that
    sync itself fails, the AuditWriteFailureError of the sync (after the
    record "session_sync_failed", the session rows being as before). *)
Theorem run_audit_write_failure_halts P reg cfg req s0 started provider model ctx s1
    exc s2 :
  Kernel.startup P reg cfg req s0 = (Ok (started, provider, model, ctx), s1) ->
  Kernel.main_loop P reg cfg (Kernel.loop_fuel cfg) (SessionRequest.session_id req)
                   provider model ctx s1 = (Raise exc, s2) ->
  isinstance exc AuditWriteFailureError = true ->
  exists e' s',
    Kernel.run P reg cfg req s0 = (Raise e', s') /\
    halted (SessionRequest.session_id req) exc s2 e' s'.
Proof.
  intros Hstart Hloop Hawf.
  destruct (proj1 (wp_run _ _ _ _ (startup_spec P reg cfg req s0)) _ _ Hstart)
    as [Hv1 _].
  assert (Hst1 : v_state (view s1) = RUNNING \/ v_state (view s1) = DONE).
  { rewrite Hv1. left. reflexivity. }
  destruct (proj2 (wp_run _ _ _ _
                     (main_loop_spec P reg cfg (SessionRequest.session_id req)
                        provider model (Kernel.loop_fuel cfg) ctx s1 Hst1))
                  _ _ Hloop) as [Hst2 _].
  destruct (on_exception_audit_write_failure P (SessionRequest.session_id req)
              exc s2 Hawf Hst2) as (e' & s' & Hhandler & Hhalted).
  exists e', s'. split; [|exact Hhalted].
  unfold Kernel.run. unfold Kernel.mbind at 1. rewrite Hstart.
  unfold Kernel.mbind at 1, Kernel.try_except, Kernel.mbind at 1.
  rewrite Hloop, Hhandler. reflexivity.
Qed.

Lemma run_audit_write_failure_halts_witness :
  exists e' s',
    Kernel.run Scenario.pylib Scenario.registry (Scenario.config "mock" "mock-model" 5)
      (Scenario.request "What is 6 times 7?")
      (Scenario.fresh "mock"
         (Scenario.constant_provider false (Scenario.answer "The answer is 42." 50 20))
         (Scenario.host_failing_at 10))
    = (Raise e', s') /\
    isinstance e' AuditWriteFailureError = true /\
    Fsm.state (Kernel.fsm s') = FAILED.
Proof.
  pose (ctx := ExecutionContext.mk "session-1" "id-1" 0
                 [Message.mk USER (JStr "What is 6 times 7?") JNone JNone]
                 (Registry.all_manifests Scenario.registry)
                 (Scenario.config "mock" "mock-model" 5)
                 "2026-01-01T00:00:03+00:00").
  assert (Hstart : fst (Kernel.startup Scenario.pylib Scenario.registry
      (Scenario.config "mock" "mock-model" 5)
      (Scenario.request "What is 6 times 7?")
      (Scenario.fresh "mock"
         (Scenario.constant_provider false (Scenario.answer "The answer is 42." 50 20))
         (Scenario.host_failing_at 10)))
    = Ok (0%float, "mock", "mock-model", ctx)).
  { vm_compute. reflexivity. }
  apply run_eta in Hstart.
  assert (Hloop : fst (Kernel.main_loop Scenario.pylib Scenario.registry
      (Scenario.config "mock" "mock-model" 5)
      (Kernel.loop_fuel (Scenario.config "mock" "mock-model" 5))
      (SessionRequest.session_id (Scenario.request "What is 6 times 7?"))
      "mock" "mock-model" ctx
      (snd (Kernel.startup Scenario.pylib Scenario.registry
      (Scenario.config "mock" "mock-model" 5)
      (Scenario.request "What is 6 times 7?")
      (Scenario.fresh "mock"
         (Scenario.constant_provider false (Scenario.answer "The answer is 42." 50 20))
         (Scenario.host_failing_at 10)))))
    = Raise (Sqlite.audit_write_failure "write_step_start failed: {e}")).
  { vm_compute. reflexivity. }
  apply run_eta_raise in Hloop.
  destruct (run_audit_write_failure_halts _ _ _ _ _ _ _ _ _ _ _ _ Hstart Hloop eq_refl)
    as (e' & s' & Hrun & Hawf & Hfailed & _).
  exists e', s'. split; [exact Hrun|split; [exact Hawf|exact Hfailed]].
Defined.

(** C3. [run] on a host whose database fails the read of the conversation
    history that follows the first sync (transaction 6 since the opening of
    the database): the MemoryCorruptionError of [get_kv] leaves [run], which
    is not an AuditWriteFailureError. The same failure at the same read
    inside the loop (transaction 9) is caught: [run] returns a FAILED
    result. *)
Theorem run_lets_startup_read_failure_through :
  let session := Scenario.mock_session 5 (Scenario.answer "The answer is 42." 50 20) in
  fst (session (Scenario.host_failing_at 6))
  = Raise (Sqlite.memory_corruption "get_kv failed: {e}") /\
  isinstance (Sqlite.memory_corruption "get_kv failed: {e}") AuditWriteFailureError
  = false /\
  fst (session (Scenario.host_failing_at 9))
  = Ok (SessionResult.mk "session-1" FAILED None 1 0 1000
          (Some "MemoryCorruptionError")
          (Some (Msg "Unexpected error ({error_type}). Check audit log."
                     [MStr "MemoryCorruptionError"]))).
Proof.
  intros session. split; [|split]; vm_compute; reflexivity.
Qed.

(** ** Kernel: which exceptions leave [run] *)

(** Code that raises only exceptions in [C]. *)
Definition raises_only {A : Type} (C : exn -> Prop) (m : Kernel.M A) : Prop :=
  forall s e s', m s = (Raise e, s') -> C e.

Lemma raises_bind {A B : Type} C (m : Kernel.M A) (k : A -> Kernel.M B) :
  raises_only C m -> (forall a, raises_only C (k a)) ->
  raises_only C (Kernel.mbind m k).
Proof.
  intros Hm Hk s e s'. unfold Kernel.mbind.
  destruct (m s) as [[a|e1] s1] eqn:H1.
  - apply Hk.
  - intros [= <- <-]. eapply Hm. exact H1.
Qed.

Lemma raises_lift_world {A : Type} C (f : Os.World -> A * Os.World) :
  raises_only C (Kernel.lift_world f).
Proof.
  intros s e s'. unfold Kernel.lift_world. destruct (f (Kernel.world s)). discriminate.
Qed.

Lemma raises_get {A : Type} C (f : Kernel.State -> A) : raises_only C (Kernel.get f).
Proof. intros s e s'. discriminate. Qed.

Lemma raises_ret {A : Type} C (a : A) : raises_only C (Kernel.ret a).
Proof. intros s e s'. discriminate. Qed.

Lemma raises_log C level name : raises_only C (Kernel._log level name).
Proof. intros s e s'. discriminate. Qed.

Definition is_audit_write_failure (e : exn) : Prop :=
  isinstance e AuditWriteFailureError = true.

(** A storage write wrapped in [try: ... except AuditWriteFailureError:
    log; raise]. *)
Lemma raises_guarded_write {A : Type}
    (op : Sqlite.SQLiteStorage -> Os.World ->
          result A * (Sqlite.SQLiteStorage * Os.World)) name :
  (forall st w e st' w', op st w = (Raise e, (st', w')) -> is_audit_write_failure e) ->
  raises_only is_audit_write_failure
    (Kernel.try_except (Kernel.lift_storage op)
       (fun e => if isinstance e AuditWriteFailureError
                 then Some (Kernel.mbind (Kernel._log CRITICAL name)
                                         (fun _ => Kernel.raise e))
                 else None)).
Proof.
  intros Hop s e s'. unfold Kernel.try_except, Kernel.lift_storage.
  destruct (op (Kernel.storage s) (Kernel.world s)) as [[a|e1] [st w]] eqn:H1;
    [discriminate|].
  pose proof (Hop _ _ _ _ _ H1) as Hawf. unfold is_audit_write_failure in Hawf.
  rewrite Hawf. intros [= <- <-]. exact Hawf.
Qed.

Lemma write_event_raises L ev st w e st' w' :
  Sqlite.write_event L ev st w = (Raise e, (st', w')) -> is_audit_write_failure e.
Proof.
  unfold Sqlite.write_event, Sqlite._next_chain_hash.
  destruct (Os.sqlite_fails w) as [fails w1]. cbn [Sqlite._conn].
  destruct (fails || _); intros [= <- <- <-]. reflexivity.
Qed.

Lemma update_session_status_raises sid st0 n c et em st w e st' w' :
  Sqlite.update_session_status sid st0 n c et em st w = (Raise e, (st', w')) ->
  is_audit_write_failure e.
Proof.
  unfold Sqlite.update_session_status.
  destruct (if bool_decide _ then _ else _) as [finished w1].
  destruct (Os.sqlite_fails w1) as [[] w2]; intros [= <- <- <-]. reflexivity.
Qed.

Lemma emit_raises P sid step_id event_type level payload :
  raises_only is_audit_write_failure
    (Kernel._emit P sid step_id event_type level payload).
Proof.
  unfold Kernel._emit.
  apply raises_bind; [apply raises_lift_world|intros event_id].
  apply raises_bind; [apply raises_lift_world|intros timestamp].
  apply raises_guarded_write. intros st w e st' w'. apply write_event_raises.
Qed.

Lemma sync_session_raises sid et em :
  raises_only is_audit_write_failure (Kernel._sync_session sid et em).
Proof.
  unfold Kernel._sync_session.
  apply raises_bind; [apply raises_get|intros f].
  apply raises_bind; [apply raises_get|intros steps].
  apply raises_bind; [apply raises_get|intros cost].
  apply raises_guarded_write. intros st w e st' w'. apply update_session_status_raises.
Qed.

Lemma wp_keeps_raises {A : Type} (m : Kernel.M A) C
    (Q : A -> Kernel.State -> Prop) (E : exn -> Kernel.State -> Prop) s :
  keeps_view m -> raises_only C m ->
  (forall a s', view s' = view s -> Q a s') ->
  (forall e s', view s' = view s -> C e -> E e s') ->
  wp m Q E s.
Proof.
  intros Hk Hr HQ HE. unfold wp. destruct (m s) as [[a|e] s'] eqn:Hm.
  - apply HQ. eapply Hk. exact Hm.
  - apply HE; [eapply Hk; exact Hm|eapply Hr; exact Hm].
Qed.

Ltac stepk H C K R :=
  apply wp_bind; apply (wp_keeps_raises _ C);
  [ apply K
  | apply R
  | intros ? ? Hnew; rewrite H in Hnew; clear H; rename Hnew into H
  | intros ? ? _ Hc; try (left; exact Hc); try contradiction ].

Definition never (e : exn) : Prop := False.

(** The handlers of [run], started in RUNNING or WAITING: a handler that
    returns has moved the FSM to FAILED, left the counters and the tables
    of steps and sessions alone and set both error fields; a handler raises
    only an AuditWriteFailureError, or the exception it handles when that is
    no [Exception]. *)
Lemma on_exception_full P sid exc s :
  v_state (view s) = RUNNING \/ v_state (view s) = WAITING ->
  wp (Kernel.on_exception P sid exc)
     (fun r s' =>
        view s' = mkView FAILED (v_step_count (view s)) (v_total_cost (view s))
                         (v_steps (view s)) (v_session_ids (view s)) /\
        exists et em, r = (Some et, Some em))
     (fun e' _ =>
        is_audit_write_failure e' \/ (e' = exc /\ isinstance exc Exception = false))
     s.
Proof.
  intros Hst. unfold Kernel.on_exception.
  remember (view s) as v eqn:Hv. symmetry in Hv.
  destruct (isinstance_any exc [StepLimitExceededError; CostBudgetExceededError; LimitError]);
    [|destruct (isinstance_any exc [SecurityError; PathTraversalError]);
      [|destruct (isinstance_any exc [ModelProviderExhaustedError; CircuitBreakerOpenError]);
        [|destruct (isinstance exc AuditWriteFailureError) eqn:Hawf;
          [|destruct (isinstance exc Exception) eqn:Hexc]]]].
  1-3,5:
    stepk Hv never keeps_log raises_log;
    stepk Hv is_audit_write_failure keeps_emit emit_raises;
    (apply wp_bind, wp_fail_unless_terminal; [rewrite Hv; exact Hst|]);
    intros s2 Hv2; rewrite Hv in Hv2;
    apply wp_ret; split; [exact Hv2|eexists; eexists; reflexivity].
  - stepk Hv never keeps_log raises_log.
    apply wp_bind, wp_fail_unless_terminal; [rewrite Hv; exact Hst|].
    intros s2 Hv2. rewrite Hv in Hv2. clear Hv. rename Hv2 into Hv.
    stepk Hv is_audit_write_failure keeps_sync_session sync_session_raises.
    apply wp_raise. left. exact Hawf.
  - apply wp_raise. right. split; reflexivity.
Qed.

Lemma int_of_float_raises f e :
  int_of_float f = Raise e -> In (type_of e) [OverflowError; ValueError].
Proof.
  unfold int_of_float. destruct (Prim2SF f); intros [= <-]; cbn; auto.
Qed.

Definition teardown_error (e : exn) : Prop :=
  is_audit_write_failure e \/ In (type_of e) [OverflowError; ValueError].

Lemma elapsed_ms_raises t0 :
  raises_only (fun e => In (type_of e) [OverflowError; ValueError]) (Kernel.elapsed_ms t0).
Proof.
  unfold Kernel.elapsed_ms.
  apply raises_bind; [apply raises_lift_world|intros now].
  intros s e s'. unfold Kernel.lift_result. intros [= H _]. exact (int_of_float_raises _ _ H).
Qed.

(** The statements after the [try]: the result carries the state of the
    FSM, the step counter and the two error fields; only the final writes
    (AuditWriteFailureError) and the conversion of the duration can raise. *)
Lemma teardown_full P sid started et em s :
  wp (Kernel.teardown P sid started et em)
     (fun res s' =>
        SessionResult.status res = v_state (view s) /\
        SessionResult.steps_taken res = v_step_count (view s) /\
        SessionResult.error_type res = et /\
        SessionResult.error_message res = em)
     (fun e _ => teardown_error e) s.
Proof.
  unfold Kernel.teardown.
  remember (view s) as v eqn:Hv. symmetry in Hv.
  apply wp_bind.
  apply (wp_keeps_raises _ (fun e => In (type_of e) [OverflowError; ValueError]));
    [apply keeps_elapsed_ms|apply elapsed_ms_raises| |intros e s1 _ H; right; exact H].
  intros ms s1 Hv1. rewrite Hv in Hv1. clear Hv. rename Hv1 into Hv.
  apply wp_bind, wp_get. apply wp_bind, wp_get. apply wp_bind, wp_get.
  apply wp_bind, wp_get.
  change (Fsm.state (Kernel.fsm s1)) with (v_state (view s1)).
  change (Kernel.step_count s1) with (v_step_count (view s1)).
  rewrite Hv.
  apply wp_bind.
  apply (wp_keeps_raises _ is_audit_write_failure);
    [apply keeps_emit|apply emit_raises| |intros e s2 _ H; left; exact H].
  intros _ s2 _.
  apply wp_bind.
  apply (wp_keeps_raises _ is_audit_write_failure);
    [apply keeps_sync_session|apply sync_session_raises| |intros e s3 _ H; left; exact H].
  intros _ s3 _.
  apply wp_ret. cbn. auto.
Qed.

(** The step counter along the loop: it stays within [max_steps] while the
    loop goes on, and an iteration that raises has counted one step more at
    most. *)
Lemma main_loop_count P reg cfg sid provider model fuel : forall ctx s,
  (v_state (view s) = RUNNING \/ v_state (view s) = DONE) ->
  0 <= v_step_count (view s) <= Z.max (KernelConfig.max_steps cfg) 0 ->
  wp (Kernel.main_loop P reg cfg fuel sid provider model ctx)
     (fun _ s' => v_state (view s') = DONE /\
                  0 <= v_step_count (view s') <= Z.max (KernelConfig.max_steps cfg) 0)
     (fun _ s' => (v_state (view s') = RUNNING \/ v_state (view s') = WAITING) /\
                  0 <= v_step_count (view s')
                    <= Z.max (KernelConfig.max_steps cfg) 0 + 1)
     s.
Proof.
  induction fuel as [|fuel IH]; intros ctx s Hstate Hcount; cbn [Kernel.main_loop];
    apply wp_bind, wp_get; rewrite is_terminal_view;
    destruct Hstate as [Hrun|Hdone];
    try (rewrite Hdone; apply wp_ret; auto);
    rewrite Hrun.
  - apply wp_raise. split; [auto|lia].
  - change (bool_decide (RUNNING ∈ [DONE; FAILED; CANCELLED])) with false. cbv iota.
    apply wp_bind.
    eapply wp_conseq; [apply loop_body_spec; exact Hrun| |].
    + intros ctx' s' (Hst & Hsc & Hle & _).
      apply IH; [exact Hst|lia].
    + intros e s' (Hst & Hsc & _). split; [exact Hst|lia].
Qed.

(** What [run] has established when it returns [res]. *)
Lemma run_returns P reg cfg req s0 res s' :
  Kernel.run P reg cfg req s0 = (Ok res, s') ->
  ((SessionResult.status res = DONE /\
    SessionResult.error_type res = None /\
    SessionResult.error_message res = None) \/
   (SessionResult.status res = FAILED /\
    exists et em, SessionResult.error_type res = Some et /\
                  SessionResult.error_message res = Some em)) /\
  0 <= SessionResult.steps_taken res <= Z.max (KernelConfig.max_steps cfg) 0 + 1.
Proof.
  intros Hrun.
  unfold Kernel.run in Hrun. unfold Kernel.mbind at 1 in Hrun.
  destruct (Kernel.startup P reg cfg req s0) as [[x|e] s1] eqn:Hstart; [|discriminate].
  destruct x as [[[started provider] model] ctx].
  destruct (proj1 (wp_run _ _ _ _ (startup_spec P reg cfg req s0)) _ _ Hstart)
    as [Hv1 _].
  assert (Hst1 : v_state (view s1) = RUNNING \/ v_state (view s1) = DONE).
  { rewrite Hv1. left. reflexivity. }
  assert (Hc1 : 0 <= v_step_count (view s1) <= Z.max (KernelConfig.max_steps cfg) 0).
  { rewrite Hv1. cbn [v_step_count]. lia. }
  pose proof (wp_run _ _ _ _
                (main_loop_count P reg cfg (SessionRequest.session_id req) provider
                   model (Kernel.loop_fuel cfg) ctx s1 Hst1 Hc1)) as [Hok Hraise].
  unfold Kernel.mbind at 1, Kernel.try_except, Kernel.mbind at 1 in Hrun.
  destruct (Kernel.main_loop P reg cfg (Kernel.loop_fuel cfg)
              (SessionRequest.session_id req) provider model ctx s1)
    as [[[]|e] s2] eqn:Hloop.
  - destruct (Hok _ _ eq_refl) as (Hst2 & Hc2).
    cbn [Kernel.ret fst snd] in Hrun.
    destruct (proj1 (wp_run _ _ _ _ (teardown_full P _ started None None s2)) _ _ Hrun)
      as (Hstatus & Hsteps & Het & Hem).
    rewrite Hstatus, Hsteps, Het, Hem, Hst2. split; [left; auto|lia].
  - destruct (Hraise _ _ eq_refl) as [Hst2 Hc2].
    pose proof (wp_run _ _ _ _ (on_exception_full P (SessionRequest.session_id req)
                                  e s2 Hst2)) as [Hexc _].
    destruct (Kernel.on_exception P (SessionRequest.session_id req) e s2)
      as [[errors|e'] s3] eqn:Hhandler; [|discriminate].
    destruct (Hexc _ _ eq_refl) as (Hv3 & et & em & ->).
    destruct (proj1 (wp_run _ _ _ _
                       (teardown_full P _ started (Some et) (Some em) s3))
                    _ _ Hrun) as (Hstatus & Hsteps & Het & Hem).
    rewrite Hstatus, Hsteps, Het, Hem, Hv3. cbn [v_step_count v_state].
    split; [right; eauto|lia].
Qed.

(** X1. A result returned by [run] is final and consistent: its status is
    DONE with both error fields empty, or FAILED with both error fields
    set; no other status is ever returned. *)
Theorem run_result_is_final P reg cfg req s0 res s' :
  Kernel.run P reg cfg req s0 = (Ok res, s') ->
  (SessionResult.status res = DONE /\
   SessionResult.error_type res = None /\
   SessionResult.error_message res = None) \/
  (SessionResult.status res = FAILED /\
   exists et em, SessionResult.error_type res = Some et /\
                 SessionResult.error_message res = Some em).
Proof. intros Hrun. exact (proj1 (run_returns _ _ _ _ _ _ _ Hrun)). Qed.

(** X2. The steps reported by [run] lie between 0 and [max_steps + 1]
    ([1] when [max_steps] is negative): the iteration that hits the limit is
    counted. *)
Theorem run_steps_within_limit P reg cfg req s0 res s' :
  Kernel.run P reg cfg req s0 = (Ok res, s') ->
  0 <= SessionResult.steps_taken res <= Z.max (KernelConfig.max_steps cfg) 0 + 1.
Proof. intros Hrun. exact (proj2 (run_returns _ _ _ _ _ _ _ Hrun)). Qed.


Lemma run_result_is_final_witness :
  exists res s',
    Kernel.run Scenario.pylib Scenario.registry (Scenario.config "mock" "mock-model" 1)
      (Scenario.request "What is 6 times 7?")
      (Scenario.fresh "mock"
         (Scenario.constant_provider false (Scenario.tool_call "noop_tool" []))
         Scenario.test_host)
    = (Ok res, s') /\
    SessionResult.status res = FAILED /\
    SessionResult.error_type res = Some "StepLimitExceededError".
Proof.
  pose (res := SessionResult.mk "session-1" FAILED None 2 0 5000
                 (Some "StepLimitExceededError")
                 (Some (Msg "Exceeded max_steps={self._config.max_steps}" [MInt 1]))).
  assert (Hfst : fst (Kernel.run Scenario.pylib Scenario.registry
                        (Scenario.config "mock" "mock-model" 1)
                        (Scenario.request "What is 6 times 7?")
                        (Scenario.fresh "mock"
                           (Scenario.constant_provider false
                              (Scenario.tool_call "noop_tool" []))
                           Scenario.test_host)) = Ok res).
  { vm_compute. reflexivity. }
  pose proof (run_eta _ _ Hfst) as Hrun.
  exists res. eexists. split; [exact Hrun|].
  destruct (run_result_is_final _ _ _ _ _ _ _ Hrun) as [[Hdone _]|[Hfailed _]].
  - discriminate Hdone.
  - split; [exact Hfailed|reflexivity].
Defined.

Lemma run_steps_within_limit_witness :
  exists res s',
    Kernel.run Scenario.pylib Scenario.registry (Scenario.config "mock" "mock-model" 1)
      (Scenario.request "What is 6 times 7?")
      (Scenario.fresh "mock"
         (Scenario.constant_provider false (Scenario.tool_call "noop_tool" []))
         Scenario.test_host)
    = (Ok res, s') /\
    SessionResult.steps_taken res = 2 /\
    0 <= SessionResult.steps_taken res <= 2.
Proof.
  pose (res := SessionResult.mk "session-1" FAILED None 2 0 5000
                 (Some "StepLimitExceededError")
                 (Some (Msg "Exceeded max_steps={self._config.max_steps}" [MInt 1]))).
  assert (Hfst : fst (Kernel.run Scenario.pylib Scenario.registry
                        (Scenario.config "mock" "mock-model" 1)
                        (Scenario.request "What is 6 times 7?")
                        (Scenario.fresh "mock"
                           (Scenario.constant_provider false
                              (Scenario.tool_call "noop_tool" []))
                           Scenario.test_host)) = Ok res).
  { vm_compute. reflexivity. }
  pose proof (run_eta _ _ Hfst) as Hrun.
  exists res. eexists. split; [exact Hrun|]. split; [reflexivity|].
  exact (run_steps_within_limit _ _ _ _ _ _ _ Hrun).
Defined.


Lemma raises_try_except {A : Type} C (m : Kernel.M A) h :
  (forall s e s', m s = (Raise e, s') ->
     match h e with Some k => raises_only C k | None => C e end) ->
  raises_only C (Kernel.try_except m h).
Proof.
  intros Hm s e s'. unfold Kernel.try_except.
  destruct (m s) as [[a|e1] s1] eqn:H1; [discriminate|].
  specialize (Hm _ _ _ H1). destruct (h e1) as [k|].
  - apply Hm.
  - intros [= <- <-]. exact Hm.
Qed.

Lemma raises_weaken {A : Type} (C C' : exn -> Prop) (m : Kernel.M A) :
  (forall e, C e -> C' e) -> raises_only C m -> raises_only C' m.
Proof. intros HC Hm s e s' H. apply HC. eapply Hm. exact H. Qed.

(** The classes that [_execute_tool] turns into a failed [ToolResult]. *)
Definition sandbox_errors : list ecls :=
  [ToolTimeoutError; ToolSandboxError; ToolInputValidationError; PathTraversalError].

Lemma audit_write_failure_no_sandbox_error e :
  is_audit_write_failure e -> isinstance_any e sandbox_errors = false.
Proof.
  unfold is_audit_write_failure, isinstance_any, isinstance.
  destruct (type_of e); vm_compute; intros H; try discriminate H; reflexivity.
Qed.

(** X4. [_execute_tool] contains the failures of the sandbox: it never
    raises a ToolTimeoutError, ToolSandboxError, ToolInputValidationError or
    PathTraversalError, and a result it returns carries the [tool_call_id]
    of the request. *)
Theorem execute_tool_contains_sandbox_errors P reg sid step_id manifest arguments
    tool_call_id s :
  (forall e s',
     Kernel._execute_tool P reg sid step_id manifest arguments tool_call_id s
     = (Raise e, s') ->
     isinstance_any e sandbox_errors = false) /\
  (forall r s',
     Kernel._execute_tool P reg sid step_id manifest arguments tool_call_id s
     = (Ok r, s') ->
     ToolResult.tool_call_id r = tool_call_id).
Proof.
  split.
  - intros e s'. revert s e s'.
    change (raises_only (fun e => isinstance_any e sandbox_errors = false)
              (Kernel._execute_tool P reg sid step_id manifest arguments tool_call_id)).
    pose proof (fun st ev lv pl =>
                  raises_weaken _ _ _ audit_write_failure_no_sandbox_error
                    (emit_raises P sid st ev lv pl)) as Hemit.
    unfold Kernel._execute_tool.
    apply raises_bind; [apply Hemit|intros _].
    apply raises_bind.
    + apply raises_try_except. intros s e s' _.
      fold sandbox_errors.
      destruct (isinstance_any e sandbox_errors) eqn:Hin; [apply raises_ret|reflexivity].
    + intros [result|exc].
      * apply raises_bind; [apply Hemit|intros _; apply raises_ret].
      * apply raises_bind; [apply raises_log|intros _].
        apply raises_bind; [apply Hemit|intros _; apply raises_ret].
  - intros r s'. unfold Kernel._execute_tool, Kernel.mbind.
    destruct (Kernel._emit _ _ _ _ _ _ s) as [[[]|e1] s1]; [|discriminate].
    destruct (Kernel.try_except _ _ s1) as [[[result|exc]|e2] s2]; [| |discriminate].
    + destruct (Kernel._emit _ _ _ _ _ _ s2) as [[[]|e3] s3]; [|discriminate].
      intros [= <- _]. reflexivity.
    + unfold Kernel._log, Kernel.modify.
      destruct (Kernel._emit _ _ _ _ _ _ _) as [[[]|e3] s3]; [|discriminate].
      intros [= <- _]. reflexivity.
Qed.

Lemma execute_tool_contains_sandbox_errors_witness :
  exists r s',
    Kernel._execute_tool Scenario.pylib Scenario.registry "session-1" "step-1"
      Scenario.lenient_manifest [] "call-1"
      (Scenario.fresh "mock"
         (Scenario.constant_provider false (Scenario.tool_call "noop_tool" []))
         Scenario.test_host)
    = (Ok r, s') /\
    ToolResult.error_type r = Some "ToolSandboxError" /\
    ToolResult.tool_call_id r = "call-1".
Proof.
  pose (r := ToolResult.mk false "noop_tool" "call-1" None (Some "ToolSandboxError")
               (Some (Msg "Tool {manifest.name!r} produced no output" [MStr "noop_tool"]))
               0).
  assert (Hfst : fst (Kernel._execute_tool Scenario.pylib Scenario.registry "session-1"
                        "step-1" Scenario.lenient_manifest [] "call-1"
                        (Scenario.fresh "mock"
                           (Scenario.constant_provider false
                              (Scenario.tool_call "noop_tool" []))
                           Scenario.test_host)) = Ok r).
  { vm_compute. reflexivity. }
  pose proof (run_eta _ _ Hfst) as Hrun.
  exists r. eexists. split; [exact Hrun|]. split; [reflexivity|].
  exact (proj2 (execute_tool_contains_sandbox_errors _ _ _ _ _ _ _ _) _ _ Hrun).
Defined.

(** ** Key-value memory and conversation history *)

Lemma find_app_none {A : Type} (f : A -> bool) l1 l2 :
  List.find f l1 = None -> List.find f (l1 ++ l2) = List.find f l2.
Proof.
  induction l1 as [|x l1 IH]; cbn; [reflexivity|].
  destruct (f x); [discriminate|exact IH].
Qed.

Lemma find_filter_negb {A : Type} (f : A -> bool) l :
  List.find f (List.filter (fun x => negb (f x)) l) = None.
Proof.
  induction l as [|x l IH]; cbn; [reflexivity|].
  destruct (f x) eqn:Hx; cbn; [exact IH|]. rewrite Hx. exact IH.
Qed.

Lemma find_filter_other {A : Type} (f g : A -> bool) l :
  (forall x, g x = true -> f x = false) ->
  List.find g (List.filter (fun x => negb (f x)) l) = List.find g l.
Proof.
  intros Hfg. induction l as [|x l IH]; cbn; [reflexivity|].
  destruct (g x) eqn:Hg.
  - rewrite (Hfg x Hg). cbn. rewrite Hg. reflexivity.
  - destruct (f x); cbn; [exact IH|]. rewrite Hg. exact IH.
Qed.

Lemma kv_matches_other key ns key' ns' r :
  (key', ns') <> (key, ns) ->
  Sqlite.kv_matches key' ns' r = true -> Sqlite.kv_matches key ns r = false.
Proof.
  unfold Sqlite.kv_matches. intros Hne H.
  apply andb_true_iff in H. destruct H as [H1 H2].
  apply bool_decide_eq_true in H1. apply bool_decide_eq_true in H2.
  apply andb_false_iff.
  destruct (bool_decide_reflect (Sqlite.KvRow.key r = key)) as [Hk|Hk]; [|left; reflexivity].
  right. apply bool_decide_eq_false. intros Hn. apply Hne. congruence.
Qed.

(** What [get_kv] returns when its SELECT does not fail. *)
Definition kv_lookup (key ns : string) (s : Sqlite.SQLiteStorage) : json :=
  match List.find (Sqlite.kv_matches key ns) (Sqlite.kv_memory (Sqlite._conn s)) with
  | Some row => Sqlite.KvRow.value_json row
  | None => JNone
  end.

Lemma get_kv_lookup key ns s w :
  fst (Os.sqlite_fails w) = false ->
  fst (Sqlite.get_kv key ns s w) = Ok (kv_lookup key ns s).
Proof.
  unfold Sqlite.get_kv, kv_lookup. destruct (Os.sqlite_fails w) as [fails w1]. cbn.
  intros ->. reflexivity.
Qed.

Lemma set_kv_lookup key value ns sid s w s1 w1 :
  Sqlite.set_kv key value ns sid s w = (Ok tt, (s1, w1)) ->
  kv_lookup key ns s1 = value /\
  forall key' ns', (key', ns') <> (key, ns) ->
                   kv_lookup key' ns' s1 = kv_lookup key' ns' s.
Proof.
  unfold Sqlite.set_kv. destruct (Os.read_utcnow w) as [now w0].
  destruct (Os.sqlite_fails w0) as [[] w2]; [discriminate|].
  intros [= <- <-]. unfold kv_lookup. cbn. split.
  - rewrite find_app_none by apply find_filter_negb. cbn.
    unfold Sqlite.kv_matches. cbn. rewrite !bool_decide_eq_true_2 by reflexivity.
    reflexivity.
  - intros key' ns' Hne.
    assert (Hnew : Sqlite.kv_matches key' ns'
                     (Sqlite.KvRow.mk key ns value
                        match List.find (Sqlite.kv_matches key ns)
                                (Sqlite.kv_memory (Sqlite._conn s)) with
                        | Some row => Sqlite.KvRow.created_at row
                        | None => now
                        end now sid) = false).
    { unfold Sqlite.kv_matches. cbn. apply andb_false_iff.
      destruct (bool_decide_reflect (key = key')) as [Hk|Hk]; [|left; reflexivity].
      right. apply bool_decide_eq_false. intros Hn. apply Hne. congruence. }
    destruct (List.find (Sqlite.kv_matches key' ns')
                (Sqlite.kv_memory (Sqlite._conn s))) as [row|] eqn:Hfind.
    + assert (Hf : List.find (Sqlite.kv_matches key' ns')
                     (List.filter (fun r => negb (Sqlite.kv_matches key ns r))
                        (Sqlite.kv_memory (Sqlite._conn s))) = Some row).
      { rewrite find_filter_other; [exact Hfind|].
        intros x. apply kv_matches_other. exact Hne. }
      clear Hfind. revert Hf.
      generalize (List.filter (fun r => negb (Sqlite.kv_matches key ns r))
                    (Sqlite.kv_memory (Sqlite._conn s))).
      intros l. induction l as [|x l IH]; cbn; [discriminate|].
      destruct (Sqlite.kv_matches key' ns' x); [intros [= ->]; reflexivity|exact IH].
    + rewrite find_app_none.
      * cbn. rewrite Hnew. reflexivity.
      * rewrite find_filter_other; [exact Hfind|].
        intros x. apply kv_matches_other. exact Hne.
Qed.

(** X5. A value stored by [set_kv] is what [get_kv] returns for that key
    and namespace afterwards, and every other key reads as before (reads
    whose SELECT does not fail). *)
Theorem set_kv_then_get_kv key value ns sid s w s1 w1 w2 :
  Sqlite.set_kv key value ns sid s w = (Ok tt, (s1, w1)) ->
  fst (Os.sqlite_fails w2) = false ->
  fst (Sqlite.get_kv key ns s1 w2) = Ok value /\
  forall key' ns', (key', ns') <> (key, ns) ->
                   fst (Sqlite.get_kv key' ns' s1 w2) = fst (Sqlite.get_kv key' ns' s w2).
Proof.
  intros Hset Hread. destruct (set_kv_lookup _ _ _ _ _ _ _ _ Hset) as [Hsame Hother].
  split.
  - rewrite get_kv_lookup by exact Hread. rewrite Hsame. reflexivity.
  - intros key' ns' Hne. rewrite !get_kv_lookup by exact Hread.
    rewrite (Hother key' ns' Hne). reflexivity.
Qed.

Lemma from_dict_to_dict m : MessageOps.from_dict (MessageOps.to_dict m) = Ok m.
Proof. destruct m as [[] content tool_name tool_call_id]; reflexivity. Qed.

Lemma map_result_from_dict l :
  map_result MessageOps.from_dict (map MessageOps.to_dict l) = Ok l.
Proof.
  induction l as [|m l IH]; [reflexivity|].
  cbn [map map_result]. rewrite from_dict_to_dict. cbn [bind]. rewrite IH. reflexivity.
Qed.

(** [get_conversation_history] when its SELECT does not fail. *)
Definition history_of (sid : string) (s : Sqlite.SQLiteStorage) : result (list Message.t) :=
  match kv_lookup ("conv_" ++ sid) "system" s with
  | JNone => Ok []
  | data => bind (py_iter data) (map_result MessageOps.from_dict)
  end.

Lemma get_conversation_history_lookup sid s w :
  fst (Os.sqlite_fails w) = false ->
  fst (Sqlite.get_conversation_history sid s w) = history_of sid s.
Proof.
  intros Hread. unfold Sqlite.get_conversation_history, history_of.
  pose proof (get_kv_lookup ("conv_" ++ sid) "system" s w Hread) as Hget.
  destruct (Sqlite.get_kv ("conv_" ++ sid) "system" s w) as [r sw]. cbn in Hget.
  subst r. destruct (kv_lookup ("conv_" ++ sid) "system" s); reflexivity.
Qed.

(** X6. After [append_message] has returned, the history of the session is
    the history it read followed by the new message, and the history of
    every other session reads as before (reads whose SELECT does not
    fail). *)
Theorem append_message_then_history sid m s w s1 w1 history w2 :
  fst (Sqlite.get_conversation_history sid s w) = Ok history ->
  Sqlite.append_message sid m s w = (Ok tt, (s1, w1)) ->
  fst (Os.sqlite_fails w2) = false ->
  fst (Sqlite.get_conversation_history sid s1 w2) = Ok (history ++ [m]) /\
  forall sid', sid' <> sid ->
    fst (Sqlite.get_conversation_history sid' s1 w2)
    = fst (Sqlite.get_conversation_history sid' s w2).
Proof.
  intros Hhist Happend Hread. unfold Sqlite.append_message in Happend.
  destruct (Sqlite.get_conversation_history sid s w) as [[h|e] [s0 w0]] eqn:Hget;
    [|discriminate].
  cbn in Hhist. injection Hhist as ->.
  apply get_conversation_history_same_storage in Hget. subst s0.
  destruct (set_kv_lookup _ _ _ _ _ _ _ _ Happend) as [Hsame Hother].
  split.
  - rewrite get_conversation_history_lookup by exact Hread.
    unfold history_of. rewrite Hsame. cbn [py_iter bind].
    apply map_result_from_dict.
  - intros sid' Hne. rewrite !get_conversation_history_lookup by exact Hread.
    unfold history_of. rewrite Hother; [reflexivity|].
    intros [= Heq]. apply Hne. exact Heq.
Qed.

(** ** UPDATEs that match no row *)

Lemma map_id_on {A : Type} (f : A -> A) l :
  (forall x, In x l -> f x = x) -> map f l = l.
Proof.
  induction l as [|x l IH]; cbn; intros H; [reflexivity|].
  rewrite H by (left; reflexivity). rewrite IH; [reflexivity|].
  intros y Hy. apply H. right. exact Hy.
Qed.

(** X7. The two UPDATE statements report success on a key that is not in
    the table: when [update_session_status] on an unknown session id or
    [write_step_end] on an unknown step id returns normally, every table is
    as it was; and whether [update_session_status] returns or raises does
    not depend on the content of the database. *)
Theorem update_of_missing_row_is_silent :
  (forall sid status n c et em s w s' w',
     ~ In sid (map Sqlite.SessionRow.session_id (Sqlite.sessions (Sqlite._conn s))) ->
     Sqlite.update_session_status sid status n c et em s w = (Ok tt, (s', w')) ->
     Sqlite._conn s' = Sqlite._conn s) /\
  (forall L trace s w s' w',
     ~ In (StepTrace.step_id trace)
          (map Sqlite.StepRow.step_id (Sqlite.steps (Sqlite._conn s))) ->
     Sqlite.write_step_end L trace s w = (Ok tt, (s', w')) ->
     Sqlite._conn s' = Sqlite._conn s) /\
  (forall sid status n c et em s1 s2 w,
     fst (Sqlite.update_session_status sid status n c et em s1 w)
     = fst (Sqlite.update_session_status sid status n c et em s2 w)).
Proof.
  split; [|split].
  - intros sid status n c et em s w s' w' Hnew.
    unfold Sqlite.update_session_status.
    destruct (if bool_decide _ then _ else _) as [finished w1].
    destruct (Os.sqlite_fails w1) as [[] w2]; [discriminate|].
    intros [= <- <-]. destruct s as [[ss st evs kv] h1 h2]. cbn in *.
    f_equal. apply map_id_on. intros r Hin.
    rewrite bool_decide_eq_false_2; [reflexivity|].
    intros Hid. apply Hnew. apply in_map_iff. exists r. auto.
  - intros L trace s w s' w' Hnew.
    unfold Sqlite.write_step_end, Sqlite._next_chain_hash.
    destruct (Os.sqlite_fails w) as [[] w1]; [discriminate|].
    intros [= <- <-]. destruct s as [[ss st evs kv] h1 h2]. cbn in *.
    f_equal. apply map_id_on. intros r Hin.
    rewrite bool_decide_eq_false_2; [reflexivity|].
    intros Hid. apply Hnew. apply in_map_iff. exists r. auto.
  - intros sid status n c et em s1 s2 w. unfold Sqlite.update_session_status.
    destruct (if bool_decide _ then _ else _) as [finished w1].
    destruct (Os.sqlite_fails w1) as [[] w2]; reflexivity.
Qed.

(** ** The event chain after a failed write and after a restart *)

Lemma sorted_rows_verify sid s w :
  sorted_ts (Sqlite.events_of sid (Sqlite._conn s)) ->
  fst (Os.sqlite_fails w) = false ->
  Sqlite.events_of sid (Sqlite._conn s) <> [] ->
  fst (Sqlite.verify_chain sid s w)
  = Sqlite.verify_rows Sqlite.seed (Sqlite.events_of sid (Sqlite._conn s)).
Proof.
  intros Hso Hread Hne. unfold Sqlite.verify_chain.
  destruct (Os.sqlite_fails w) as [fails w1]. cbn in Hread. subst fails.
  rewrite (order_by_timestamp_sorted _ Hso).
  destruct (Sqlite.events_of sid (Sqlite._conn s)); [contradiction|reflexivity].
Qed.

(** X8. [write_event] advances the in-memory head of the chain before its
    INSERT: when the INSERT fails, the table is unchanged but the head has
    moved to the hash of the lost event. The next event of the session that
    is written is linked to that hash, and from then on [verify_chain]
    returns false for the session (unless the two links collide). *)
Theorem failed_write_event_breaks_chain L e1 e2 s w exc s1 w1 s2 w2 :
  chain_inv s ->
  Sqlite.write_event L e1 s w = (Raise exc, (s1, w1)) ->
  Sqlite.write_event L e2 s1 w1 = (Ok tt, (s2, w2)) ->
  AuditEvent.session_id e2 = AuditEvent.session_id e1 ->
  (forall r, In r (Sqlite.events_of (AuditEvent.session_id e1) (Sqlite._conn s)) ->
     String.leb (Sqlite.EventRow.timestamp r) (AuditEvent.timestamp e2) = true) ->
  let prev := last_hash Sqlite.seed
                (Sqlite.events_of (AuditEvent.session_id e1) (Sqlite._conn s)) in
  let p1 := json_dumps L (JDict (AuditEvent.payload e1)) in
  let p2 := json_dumps L (JDict (AuditEvent.payload e2)) in
  hash_link (hash_link prev p1) p2 <> hash_link prev p2 ->
  Sqlite._conn s1 = Sqlite._conn s /\
  forall w3, fst (Sqlite.verify_chain (AuditEvent.session_id e1) s2 w3) = Ok false.
Proof.
  intros [Hnd Hinv] Hfail Hok Hsid Hts prev p1 p2 Hdiff.
  specialize (Hinv (AuditEvent.session_id e1)). cbn zeta in Hinv.
  destruct Hinv as (Hch & Hso & Hhead). fold prev in Hhead.
  unfold Sqlite.write_event, Sqlite._next_chain_hash in Hfail.
  destruct (Os.sqlite_fails w) as [fails w0]. cbn [Sqlite._conn] in Hfail.
  destruct (fails || _); [|discriminate].
  injection Hfail as _ <- <-.
  split; [reflexivity|].
  unfold Sqlite.write_event, Sqlite._next_chain_hash in Hok.
  destruct (Os.sqlite_fails w0) as [fails' w0'].
  cbn [Sqlite._conn Sqlite._chain_hashes] in Hok.
  destruct (fails' || _); [discriminate|].
  injection Hok as <- <-.
  rewrite Hsid.
  change (AuditEvent.session_id e1 ++ ":" ++ "event")%string
    with (event_key (AuditEvent.session_id e1)).
  rewrite lookup_insert_eq. rewrite Hhead. cbn [default from_option]. unfold id.
  fold p1 p2. fold (hash_link prev p1). fold (hash_link (hash_link prev p1) p2).
  set (row := Sqlite.EventRow.mk (AuditEvent.event_id e2)
                (AuditEvent.session_id e1) (AuditEvent.step_id e2)
                (AuditEvent.event_type e2) (level_value (AuditEvent.level e2))
                (Sqlite.Text p2) (hash_link (hash_link prev p1) p2)
                (AuditEvent.timestamp e2)).
  intros w3. destruct (Os.sqlite_fails w3) as [fails3 w4] eqn:Hread.
  destruct fails3.
  { unfold Sqlite.verify_chain. rewrite Hread. reflexivity. }
  assert (Hrows : forall hashes,
            Sqlite.events_of (AuditEvent.session_id e1)
              (Sqlite._conn
                 (Sqlite.set_conn
                    (Sqlite.mkDb (Sqlite.sessions (Sqlite._conn s))
                       (Sqlite.steps (Sqlite._conn s))
                       (Sqlite.audit_events (Sqlite._conn s) ++ [row])
                       (Sqlite.kv_memory (Sqlite._conn s)))
                    hashes))
            = Sqlite.events_of (AuditEvent.session_id e1) (Sqlite._conn s) ++ [row]).
  { intros hashes. unfold Sqlite.events_of. cbn [Sqlite._conn Sqlite.set_conn Sqlite.audit_events].
    rewrite List.filter_app. cbn [List.filter Sqlite.EventRow.session_id row].
    rewrite bool_decide_eq_true_2 by reflexivity. reflexivity. }
  rewrite sorted_rows_verify.
  - rewrite Hrows.
    rewrite (verify_rows_app _ _ _ Hch). fold prev.
    cbn [Sqlite.verify_rows Sqlite.EventRow.payload_json Sqlite.EventRow.chain_hash row
         Sqlite.sha256_of_column bind].
    fold (hash_link prev p2).
    rewrite bool_decide_eq_false_2 by (intros H; apply Hdiff; symmetry; exact H).
    reflexivity.
  - rewrite Hrows. apply sorted_ts_snoc; [exact Hso|].
    intros r' Hin. cbn. apply Hts. exact Hin.
  - rewrite Hread. reflexivity.
  - rewrite Hrows. intros H. apply app_eq_nil in H.
    destruct H as [_ H]. discriminate H.
Qed.

Lemma outcome_eta {A S W : Type} (p : result A * (S * W)) (r : result A) :
  fst p = r -> p = (r, (fst (snd p), snd (snd p))).
Proof. destruct p as [r0 [s w]]. cbn. intros ->. reflexivity. Qed.

Lemma new_store_chain_inv : chain_inv (Sqlite.mkStorage Sqlite.empty_db ∅ ∅).
Proof.
  split; [constructor|]. intros sid. cbn. rewrite lookup_empty. auto.
Qed.

Lemma failed_write_event_breaks_chain_witness :
  fst (Sqlite.verify_chain "s1"
         (fst (snd (Sqlite.write_event Scenario.lib Scenario.event2
                      (fst (snd (Sqlite.write_event Scenario.lib Scenario.event1
                                   (Sqlite.mkStorage Sqlite.empty_db ∅ ∅)
                                   (Scenario.host_failing_at 0))))
                      (snd (snd (Sqlite.write_event Scenario.lib Scenario.event1
                                   (Sqlite.mkStorage Sqlite.empty_db ∅ ∅)
                                   (Scenario.host_failing_at 0)))))))
         Scenario.test_host) = Ok false.
Proof.
  assert (H1 : fst (Sqlite.write_event Scenario.lib Scenario.event1
                      (Sqlite.mkStorage Sqlite.empty_db ∅ ∅)
                      (Scenario.host_failing_at 0))
               = Raise (Sqlite.audit_write_failure "write_event failed: {e}")).
  { vm_compute. reflexivity. }
  apply outcome_eta in H1.
  assert (H2 : fst (Sqlite.write_event Scenario.lib Scenario.event2
                      (fst (snd (Sqlite.write_event Scenario.lib Scenario.event1
                                   (Sqlite.mkStorage Sqlite.empty_db ∅ ∅)
                                   (Scenario.host_failing_at 0))))
                      (snd (snd (Sqlite.write_event Scenario.lib Scenario.event1
                                   (Sqlite.mkStorage Sqlite.empty_db ∅ ∅)
                                   (Scenario.host_failing_at 0)))))
               = Ok tt).
  { vm_compute. reflexivity. }
  apply outcome_eta in H2.
  pose proof (failed_write_event_breaks_chain _ _ _ _ _ _ _ _ _ _
                new_store_chain_inv H1 H2 eq_refl) as H.
  cbv zeta in H.
  assert (Hts : forall r : Sqlite.EventRow.t,
            In r (Sqlite.events_of (AuditEvent.session_id Scenario.event1)
                    (Sqlite._conn (Sqlite.mkStorage Sqlite.empty_db ∅ ∅))) ->
            String.leb (Sqlite.EventRow.timestamp r)
                       (AuditEvent.timestamp Scenario.event2) = true).
  { intros r Hin. exact (match Hin with end). }
  specialize (H Hts).
  match type of H with
  | ?A -> _ =>
      assert (Hdiff : A) by (intros Heq; vm_compute in Heq; discriminate Heq)
  end.
  exact (proj2 (H Hdiff) Scenario.test_host).
Defined.

Lemma set_kv_then_get_kv_witness :
  fst (Sqlite.get_kv "plan" "default"
         (fst (snd (Sqlite.set_kv "plan" (JStr "draft") "default" None
                      (Sqlite.mkStorage Sqlite.empty_db ∅ ∅) Scenario.test_host)))
         Scenario.test_host) = Ok (JStr "draft").
Proof.
  assert (Hset : fst (Sqlite.set_kv "plan" (JStr "draft") "default" None
                        (Sqlite.mkStorage Sqlite.empty_db ∅ ∅) Scenario.test_host)
                 = Ok tt) by (vm_compute; reflexivity).
  apply outcome_eta in Hset.
  exact (proj1 (set_kv_then_get_kv _ _ _ _ _ _ _ _ Scenario.test_host Hset eq_refl)).
Defined.

Lemma append_message_then_history_witness :
  fst (Sqlite.get_conversation_history "s1"
         (fst (snd (Sqlite.append_message "s1"
                      (Message.mk USER (JStr "hello") JNone JNone)
                      (Sqlite.mkStorage Sqlite.empty_db ∅ ∅) Scenario.test_host)))
         Scenario.test_host)
  = Ok ([] ++ [Message.mk USER (JStr "hello") JNone JNone]).
Proof.
  assert (Happend : fst (Sqlite.append_message "s1"
                           (Message.mk USER (JStr "hello") JNone JNone)
                           (Sqlite.mkStorage Sqlite.empty_db ∅ ∅) Scenario.test_host)
                    = Ok tt) by (vm_compute; reflexivity).
  apply outcome_eta in Happend.
  assert (Hhist : fst (Sqlite.get_conversation_history "s1"
                         (Sqlite.mkStorage Sqlite.empty_db ∅ ∅) Scenario.test_host)
                  = Ok []) by (vm_compute; reflexivity).
  exact (proj1 (append_message_then_history _ _ _ _ _ _ _ Scenario.test_host
                  Hhist Happend eq_refl)).
Defined.

Lemma update_of_missing_row_is_silent_witness :
  Sqlite._conn
    (fst (snd (Sqlite.update_session_status "no-such-session" DONE 3 0 None None
                 (Sqlite.mkStorage Sqlite.empty_db ∅ ∅) Scenario.test_host)))
  = Sqlite.empty_db.
Proof.
  assert (Hupd : fst (Sqlite.update_session_status "no-such-session" DONE 3 0 None None
                        (Sqlite.mkStorage Sqlite.empty_db ∅ ∅) Scenario.test_host)
                 = Ok tt) by (vm_compute; reflexivity).
  apply outcome_eta in Hupd.
  refine (proj1 update_of_missing_row_is_silent _ _ _ _ _ _ _ _ _ _ _ Hupd).
  intros Hin. exact Hin.
Defined.

(** X9. Re-opening a database keeps the event chains: when the rows of
    every session are chained and in timestamp order and the query of
    [_load_chain_hashes] succeeds, the new storage object holds, for every
    session, the chain hash of its last event, so that events written next
    still verify. When that query fails, the error is swallowed and the
    object starts with no head at all. *)
Theorem reopen_keeps_event_chain s w s' w' :
  chain_inv s ->
  Sqlite.init (Sqlite._conn s) w = (Ok s', w') ->
  Sqlite._conn s' = Sqlite._conn s /\
  (fst (Os.sqlite_fails (snd (Os.sqlite_fails (snd (Os.sqlite_fails w))))) = false ->
   chain_inv s') /\
  (fst (Os.sqlite_fails (snd (Os.sqlite_fails (snd (Os.sqlite_fails w))))) = true ->
   Sqlite._chain_hashes s' = ∅).
Proof.
  intros [Hnd Hinv] Hinit. unfold Sqlite.init, Sqlite._load_chain_hashes in Hinit.
  destruct (Os.sqlite_fails w) as [f1 w1]. cbn [snd].
  destruct (Os.sqlite_fails w1) as [f2 w2]. cbn [snd].
  destruct (Os.sqlite_fails w2) as [f3 w3]. cbn [fst].
  destruct f1; [discriminate|]. destruct f2; [discriminate|].
  destruct f3; injection Hinit as <- <-; (split; [reflexivity|]); split;
    intros H; try discriminate H; try reflexivity.
  split; [exact Hnd|]. intros sid. cbn zeta. cbn [Sqlite._conn Sqlite._chain_hashes].
  destruct (Hinv sid) as (Hch & Hso & _).
  split; [exact Hch|]. split; [exact Hso|].
  apply rows_load_head. exact Hso.
Qed.

Lemma init_returns db w :
  fst (Os.sqlite_fails w) = false ->
  fst (Os.sqlite_fails (snd (Os.sqlite_fails w))) = false ->
  exists s' w', Sqlite.init db w = (Ok s', w').
Proof.
  unfold Sqlite.init. destruct (Os.sqlite_fails w) as [f1 w1]. cbn [fst snd].
  destruct (Os.sqlite_fails w1) as [f2 w2]. cbn [fst]. intros -> ->.
  destruct (Sqlite._load_chain_hashes db w2) as [hashes w3]. eauto.
Qed.

Lemma reopen_keeps_event_chain_witness :
  exists s' w',
    Sqlite.init (Sqlite._conn (fst Scenario.after_event2)) Scenario.test_host
    = (Ok s', w') /\
    chain_inv s'.
Proof.
  destruct (init_returns (Sqlite._conn (fst Scenario.after_event2)) Scenario.test_host
              eq_refl eq_refl) as (s' & w' & Hinit).
  exists s', w'. split; [exact Hinit|].
  exact (proj1 (proj2 (reopen_keeps_event_chain _ _ _ _
                         (written_in_order_chain_inv Scenario.lib _
                            scenario_written_in_order) Hinit)) eq_refl).
Defined.

(** ** The history of a session FSM *)

(** The FSMs a program can hold: built by [__init__] and driven through
    [transition], whether a call succeeds or raises. *)
Inductive fsm_reachable : Fsm.SessionFSM -> Prop :=
| fr_init sid : fsm_reachable (Fsm.init sid)
| fr_transition to fsm :
    fsm_reachable fsm -> fsm_reachable (snd (Fsm.transition to fsm)).

(** [h] is a walk in the transition table that starts in [from]. *)
Fixpoint walk (from : SessionStatus) (h : list (SessionStatus * SessionStatus)) : Prop :=
  match h with
  | [] => True
  | (a, b) :: rest => a = from /\ legal_transition a b = true /\ walk b rest
  end.

(** Where a walk from [from] ends. *)
Fixpoint walk_end (from : SessionStatus) (h : list (SessionStatus * SessionStatus))
  : SessionStatus :=
  match h with
  | [] => from
  | (_, b) :: rest => walk_end b rest
  end.

Lemma walk_snoc from h a b :
  walk from h -> a = walk_end from h -> legal_transition a b = true ->
  walk from (h ++ [(a, b)]) /\ walk_end from (h ++ [(a, b)]) = b.
Proof.
  revert from. induction h as [|[x y] h IH]; intros from Hw Ha Hl; cbn in *.
  - subst a. auto.
  - destruct Hw as (Hx & Hxy & Hw). destruct (IH y Hw Ha Hl) as [H1 H2]. auto.
Qed.

(** X10. The history of a session FSM is a walk in the transition table
    from IDLE to the current state: every recorded pair is a legal
    transition, each starts where the one before ended, and a transition
    that raised left no trace. *)
Theorem fsm_history_is_a_walk fsm :
  fsm_reachable fsm ->
  walk IDLE (Fsm.transition_history fsm) /\
  walk_end IDLE (Fsm.transition_history fsm) = Fsm.state fsm.
Proof.
  induction 1 as [sid|to fsm Hr [Hw He]].
  - cbn. auto.
  - rewrite transition_by_table.
    destruct (legal_transition (Fsm.state fsm) to) eqn:Hl; cbn [snd].
    + unfold Fsm.transition_history, Fsm.state in *. cbn [Fsm._history Fsm._state].
      apply walk_snoc; [exact Hw|symmetry; exact He|exact Hl].
    + auto.
Qed.

Lemma fsm_history_is_a_walk_witness :
  walk IDLE (Fsm.transition_history
               (snd (Fsm.transition DONE
                       (snd (Fsm.transition RUNNING (Fsm.init "s")))))) /\
  walk_end IDLE (Fsm.transition_history
                   (snd (Fsm.transition DONE
                           (snd (Fsm.transition RUNNING (Fsm.init "s"))))))
  = Fsm.state (snd (Fsm.transition DONE (snd (Fsm.transition RUNNING (Fsm.init "s"))))).
Proof.
  apply fsm_history_is_a_walk. apply fr_transition, fr_transition, fr_init.
Defined.

(** ** Path validation: what is accepted *)

(** [check] looks at a value only when it is a string that contains "/" or
    starts with ".". *)
Definition path_like (v : string) : bool :=
  is_substring "/" v || String.prefix "." v.

(** A resolved path lies inside a base: it is the base, or begins with the
    base followed by the separator. *)
Definition inside (bases : list string) (resolved : string) : Prop :=
  exists base, In base bases /\
    (resolved = base \/ String.prefix (base ++ "/")%string resolved = true).

Lemma for_each_ok {A : Type} (body : A -> result unit) (l : list A) :
  for_each body l = Ok tt <-> forall x, In x l -> body x = Ok tt.
Proof.
  induction l as [|y l IH]; cbn [for_each].
  - split; [intros _ x []|reflexivity].
  - destruct (body y) as [[]|e] eqn:Hy; cbn [bind].
    + rewrite IH. split.
      * intros H x [<-|Hin]; [exact Hy|apply H; exact Hin].
      * intros H x Hin. apply H. right. exact Hin.
    + split; [discriminate|]. intros H. specialize (H y (or_introl eq_refl)).
      rewrite Hy in H. discriminate.
Qed.

Lemma check_ok w manifest bases value :
  Sandbox.check w manifest bases value = Ok tt <->
  forall s, value = JStr s -> path_like s = true ->
            exists resolved, Os.resolve w s = Ok resolved /\ inside bases resolved.
Proof.
  unfold Sandbox.check, path_like.
  destruct value as [| | | |v| |]; try (split; [intros _ s; discriminate|reflexivity]).
  rewrite <- negb_orb.
  destruct (is_substring "/" v || String.prefix "." v) eqn:Hlike; cbn [negb].
  2:{ split; [intros _ s [= <-]; rewrite Hlike; discriminate|reflexivity]. }
  destruct (Os.resolve w v) as [resolved|e] eqn:Hres.
  - destruct (existsb _ bases) eqn:Hex; cbn [negb].
    + split; [|reflexivity]. intros _ s [= <-] _. exists resolved. split; [exact Hres|].
      apply existsb_exists in Hex. destruct Hex as [base [Hin Hb]].
      exists base. split; [exact Hin|].
      apply orb_true_iff in Hb. destruct Hb as [Hb|Hb].
      * left. apply bool_decide_eq_true in Hb. exact Hb.
      * right. exact Hb.
    + split; [discriminate|]. intros H.
      destruct (H v eq_refl Hlike) as [r [Hr [base [Hin Hb]]]].
      rewrite Hres in Hr. injection Hr as <-.
      assert (existsb (fun base => bool_decide (resolved = base) ||
                String.prefix (base ++ Sandbox.os_sep)%string resolved) bases = true)
        as Hex'.
      { apply existsb_exists. exists base. split; [exact Hin|].
        apply orb_true_iff. destruct Hb as [Hb|Hb].
        - left. apply bool_decide_eq_true. exact Hb.
        - right. exact Hb. }
      rewrite Hex' in Hex. discriminate.
  - split.
    + destruct (isinstance_any e [OSError; ValueError]); discriminate.
    + intros H. destruct (H v eq_refl Hlike) as [r [Hr _]].
      rewrite Hres in Hr. discriminate.
Qed.

Lemma validate_paths_ok w arguments manifest bases :
  ToolManifest.allowed_paths manifest <> [] ->
  map_result (Os.resolve w) (ToolManifest.allowed_paths manifest) = Ok bases ->
  (Sandbox.validate_paths w arguments manifest = Ok tt <->
   forall s, In (JStr s) (dict_values arguments) -> path_like s = true ->
             exists resolved, Os.resolve w s = Ok resolved /\ inside bases resolved).
Proof.
  intros Hne Hbases. unfold Sandbox.validate_paths.
  destruct (ToolManifest.allowed_paths manifest) as [|p ps] eqn:Hall; [contradiction|].
  rewrite Hbases. cbn [bind]. rewrite for_each_ok. split.
  - intros H s Hin Hlike. exact (proj1 (check_ok w manifest bases (JStr s))
                                   (H _ Hin) s eq_refl Hlike).
  - intros H x Hin. apply check_ok. intros s -> Hlike. apply H; assumption.
Qed.

(** X11. With a non-empty [allowed_paths] whose entries resolve,
    [validate_paths] accepts the arguments exactly when every top-level
    value that is a string containing "/" or starting with "." resolves to
    an allowed base or below one. Nothing else is looked at: values nested
    in lists or dicts and strings such as "passwd" are never checked. *)
Theorem validate_paths_accepts_exactly w arguments manifest bases :
  ToolManifest.allowed_paths manifest <> [] ->
  map_result (Os.resolve w) (ToolManifest.allowed_paths manifest) = Ok bases ->
  (Sandbox.validate_paths w arguments manifest = Ok tt <->
   forall s, In (JStr s) (dict_values arguments) -> path_like s = true ->
             exists resolved, Os.resolve w s = Ok resolved /\ inside bases resolved).
Proof. exact (validate_paths_ok w arguments manifest bases). Qed.

Lemma validate_paths_accepts_exactly_witness :
  Sandbox.validate_paths (Scenario.host "")
    [("files", JList [JStr "/etc/passwd"]); ("name", JStr "passwd")]
    (Scenario.make_manifest ["/tmp"]) = Ok tt.
Proof.
  refine (proj2 (validate_paths_accepts_exactly (Scenario.host "") _
                   (Scenario.make_manifest ["/tmp"]) ["/tmp"] _ eq_refl) _).
  - discriminate.
  - intros s [Hin|[Hin|[]]] Hlike; [discriminate Hin|].
    injection Hin as <-. discriminate Hlike.
Defined.

(** X12. The separator is appended to the base before the prefix test, so
    the base "/" is compared as "//": with [allowed_paths = ("/",)] a
    path-like argument that resolves to anything but "/" itself (or a path
    beginning with two slashes) is rejected. *)
Theorem root_base_rejects_ordinary_paths w arguments manifest v resolved :
  ToolManifest.allowed_paths manifest = ["/"] ->
  Os.resolve w "/" = Ok "/" ->
  In (JStr v) (dict_values arguments) ->
  path_like v = true ->
  Os.resolve w v = Ok resolved ->
  resolved <> "/" ->
  String.prefix "//" resolved = false ->
  exists e, Sandbox.validate_paths w arguments manifest = Raise e.
Proof.
  intros Hall Hroot Hin Hlike Hres Hne Hpre.
  destruct (Sandbox.validate_paths w arguments manifest) as [[]|e] eqn:Hv;
    [|exists e; reflexivity].
  assert (Hbases : map_result (Os.resolve w) (ToolManifest.allowed_paths manifest)
                   = Ok ["/"]).
  { rewrite Hall. cbn. rewrite Hroot. reflexivity. }
  assert (Hnonempty : ToolManifest.allowed_paths manifest <> [])
    by (rewrite Hall; discriminate).
  destruct (proj1 (validate_paths_ok w arguments manifest ["/"] Hnonempty Hbases)
              Hv v Hin Hlike) as [r [Hr [base [[<-|[]] Hb]]]].
  rewrite Hres in Hr. injection Hr as <-.
  destruct Hb as [Hb|Hb]; [contradiction|].
  change ("/" ++ "/")%string with "//" in Hb. rewrite Hpre in Hb. discriminate.
Qed.

Lemma root_base_rejects_ordinary_paths_witness :
  exists e, Sandbox.validate_paths (Scenario.host "")
              [("path", JStr "/etc/passwd")] (Scenario.make_manifest ["/"]) = Raise e.
Proof.
  apply (root_base_rejects_ordinary_paths (Scenario.host "") _ _ "/etc/passwd"
           "/etc/passwd"); try reflexivity.
  - left. reflexivity.
  - discriminate.
Defined.

(** ** Schema validation: what a successful validation guarantees *)

Lemma for_collect_nil {A B : Type} (body : A -> result (list B)) (l : list A) :
  for_collect body l = Ok [] -> forall x, In x l -> body x = Ok [].
Proof.
  induction l as [|y l IH]; cbn [for_collect]; [intros _ x []|].
  destruct (body y) as [ys|e] eqn:Hy; cbn [bind]; [|discriminate].
  destruct (for_collect body l) as [zs|e]; cbn [bind]; [|discriminate].
  intros [= H]. apply app_eq_nil in H. destruct H as [-> ->].
  intros x [<-|Hin]; [exact Hy|apply IH; [reflexivity|exact Hin]].
Qed.

Lemma bind_ok {A B : Type} (r : result A) (k : A -> result B) b :
  bind r k = Ok b -> exists a, r = Ok a /\ k a = Ok b.
Proof. destruct r as [a|e]; cbn; [eauto|discriminate]. Qed.

(** The JSON type that a schema type names. *)
Definition has_type (t : string) (v : json) : Prop :=
  (t = "object" -> exists d, v = JDict d) /\
  (t = "string" -> exists s, v = JStr s) /\
  (t = "integer" -> exists z, v = JInt z) /\
  (t = "boolean" -> exists b, v = JBool b) /\
  (t = "array" -> exists l, v = JList l).

Lemma validated_has_type fuel v sub t path :
  dict_get "type" sub = Some (JStr t) ->
  Sandbox.validate_schema_fuel (S fuel) v (JDict sub) path = Ok [] ->
  has_type t v.
Proof.
  intros Ht. cbn [Sandbox.validate_schema_fuel]. rewrite Ht. unfold Sandbox.type_is.
  repeat split; intros ->; cbn [bool_decide decide_rel];
    repeat match goal with
           | |- context [bool_decide (?a = ?b)] =>
               first [ change (bool_decide (a = b)) with true
                     | change (bool_decide (a = b)) with false ]
           end; cbv iota;
    destruct v; try discriminate; eauto.
Qed.

(** What [_validate_schema] returning no error means for an object
    schema. *)
Lemma object_schema_sound fuel args sch path :
  dict_get "type" sch = Some (JStr "object") ->
  Sandbox.validate_schema_fuel (S (S fuel)) (JDict args) (JDict sch) path = Ok [] ->
  (forall required k,
     dict_get "required" sch = Some (JList required) ->
     In (JStr k) required -> dict_mem k args = true) /\
  (forall props k,
     dict_get "additionalProperties" sch = Some (JBool false) ->
     dict_get "properties" sch = Some (JDict props) ->
     In k (map fst args) -> dict_mem k props = true) /\
  (forall props k sub t v,
     dict_get "properties" sch = Some (JDict props) ->
     In (k, JDict sub) props ->
     dict_get "type" sub = Some (JStr t) ->
     dict_get k args = Some v ->
     has_type t v).
Proof.
  intros Ht. cbn [Sandbox.validate_schema_fuel]. rewrite Ht.
  change (Sandbox.type_is (Some (JStr "object")) "object") with true. cbv iota.
  intros H.
  apply bind_ok in H. destruct H as (errs1 & H1 & H).
  apply bind_ok in H. destruct H as (errs2 & H2 & H).
  apply bind_ok in H. destruct H as (errs3 & H3 & H).
  injection H as H. apply app_eq_nil in H. destruct H as [-> H].
  apply app_eq_nil in H. destruct H as [-> ->].
  split; [|split].
  - intros required k Hreq Hin. unfold dict_get_default in H1. rewrite Hreq in H1.
    cbn [py_iter bind] in H1.
    pose proof (for_collect_nil _ _ H1 (JStr k) Hin) as Hk. cbn in Hk.
    destruct (dict_mem k args); [reflexivity|discriminate].
  - intros props k Hadd Hprops Hin. unfold dict_get_default in H2.
    rewrite Hadd, Hprops in H2.
    pose proof (for_collect_nil _ _ H2 k Hin) as Hk. cbn in Hk.
    destruct (dict_mem k props); [reflexivity|discriminate].
  - intros props k sub t v Hprops Hin Hsub Hv. unfold dict_get_default in H3.
    rewrite Hprops in H3.
    pose proof (for_collect_nil _ _ H3 (k, JDict sub) Hin) as Hk. cbn beta iota in Hk.
    rewrite Hv in Hk. exact (validated_has_type _ _ _ _ _ Hsub Hk).
Qed.

(** X13. Arguments that pass [validate_input] against an object schema
    have every key listed in "required"; when "additionalProperties" is
    false they have no key outside "properties"; and the value of every
    declared property that is present has the JSON type its sub-schema
    names (object, string, integer, boolean or array). *)
Theorem validate_input_sound arguments manifest :
  let sch := ToolManifest.input_schema manifest in
  dict_get "type" sch = Some (JStr "object") ->
  Sandbox.validate_input arguments manifest = Ok tt ->
  (forall required k,
     dict_get "required" sch = Some (JList required) ->
     In (JStr k) required -> dict_mem k arguments = true) /\
  (forall props k,
     dict_get "additionalProperties" sch = Some (JBool false) ->
     dict_get "properties" sch = Some (JDict props) ->
     In k (map fst arguments) -> dict_mem k props = true) /\
  (forall props k sub t v,
     dict_get "properties" sch = Some (JDict props) ->
     In (k, JDict sub) props ->
     dict_get "type" sub = Some (JStr t) ->
     dict_get k arguments = Some v ->
     has_type t v).
Proof.
  intros sch Ht Hok. unfold Sandbox.validate_input, Sandbox._validate_schema in Hok.
  apply bind_ok in Hok. destruct Hok as (errors & Hv & Hok).
  destruct errors as [|err errors]; [|discriminate].
  fold sch in Hv. cbn [Sandbox.json_depth] in Hv.
  exact (object_schema_sound _ _ _ _ Ht Hv).
Qed.

Lemma validate_input_sound_witness :
  dict_mem "value" [("value", JStr "x")] = true /\
  has_type "string" (JStr "x").
Proof.
  destruct (validate_input_sound [("value", JStr "x")] (Scenario.make_manifest [])
              eq_refl eq_refl) as (Hreq & _ & Htype).
  split.
  - apply (Hreq [JStr "value"] "value" eq_refl). left. reflexivity.
  - apply (Htype [("value", JDict [("type", JStr "string")])] "value"
                 [("type", JStr "string")] "string" (JStr "x") eq_refl);
      [left; reflexivity|reflexivity|reflexivity].
Defined.

(** ** Secrets loader *)

Lemma known_values_spec l v :
  v ∈ Secrets.known_values l <->
  (exists k, Secrets._loaded l !! k = Some v) /\ 4 <= Z.of_nat (String.length v).
Proof.
  unfold Secrets.known_values. rewrite elem_of_list_to_set, list_elem_of_In, filter_In.
  rewrite Z.leb_le, in_map_iff. split.
  - intros [[[k v'] [Hv Hin]] Hlen]. cbn in Hv. subst v'. split; [|exact Hlen].
    exists k. apply elem_of_map_to_list. apply list_elem_of_In. exact Hin.
  - intros [[k Hk] Hlen]. split; [|exact Hlen]. exists (k, v). split; [reflexivity|].
    apply list_elem_of_In, elem_of_map_to_list. exact Hk.
Qed.

(** X14. A value that [require] returns is cached: every later [require]
    of the same key returns it again, whatever the environment then holds
    and whatever minimum length is asked; and a value returned for a key
    that was not cached is the stripped environment value, at least
    [min_length] long. *)
Theorem require_caches environ key min_length l v l' :
  Secrets.require environ key min_length l = (Ok v, l') ->
  (forall environ' min_length',
     Secrets.require environ' key min_length' l' = (Ok v, l')) /\
  (Secrets._loaded l !! key = None ->
   exists raw, environ !! key = Some raw /\ v = strip raw /\
               min_length <= Z.of_nat (String.length v)).
Proof.
  unfold Secrets.require.
  destruct (Secrets._loaded l !! key) as [cached|] eqn:Hcached.
  - intros [= <- <-]. split; [|discriminate].
    intros environ' min_length'. rewrite Hcached. reflexivity.
  - destruct (environ !! key) as [raw|]; [|discriminate].
    destruct (Z.ltb_spec (Z.of_nat (String.length (strip raw))) min_length);
      [discriminate|].
    intros [= <- <-]. split.
    + intros environ' min_length'. cbn. rewrite lookup_insert_eq. reflexivity.
    + intros _. exists raw. auto.
Qed.

(** X15. [optional] caches every non-empty value without any length check,
    and [require] trusts the cache: after [optional] has returned a
    non-empty value for a key, [require] returns that value for any
    [min_length], even a greater one. *)
Theorem optional_then_require environ key default l v l' :
  Secrets.optional environ key default l = (v, l') ->
  v <> "" ->
  forall environ' min_length,
    Secrets.require environ' key min_length l' = (Ok v, l').
Proof.
  unfold Secrets.optional, Secrets.require.
  destruct (Secrets._loaded l !! key) as [cached|] eqn:Hcached.
  - intros [= <- <-] _ environ' min_length. rewrite Hcached. reflexivity.
  - destruct (bool_decide_reflect
                (strip match environ !! key with Some raw => raw | None => default end
                 = "")) as [Hempty|Hfull]; cbn [negb].
    + intros [= <- <-] Hne. contradiction.
    + intros [= <- <-] _ environ' min_length. cbn. rewrite lookup_insert_eq.
      reflexivity.
Qed.

(** X16. The values the log scrubber is given: a secret returned by
    [require] is among [known_values] as soon as it has four characters,
    and no shorter value ever is. *)
Theorem required_secret_is_known environ key min_length l v l' :
  Secrets.require environ key min_length l = (Ok v, l') ->
  (4 <= Z.of_nat (String.length v) -> v ∈ Secrets.known_values l') /\
  (forall x, x ∈ Secrets.known_values l' -> 4 <= Z.of_nat (String.length x)).
Proof.
  intros Hreq. split.
  - intros Hlen. apply known_values_spec. split; [|exact Hlen]. exists key.
    unfold Secrets.require in Hreq.
    destruct (Secrets._loaded l !! key) as [cached|] eqn:Hcached.
    + injection Hreq as <- <-. exact Hcached.
    + destruct (environ !! key) as [raw|]; [|discriminate].
      destruct (Z.of_nat (String.length (strip raw)) <? min_length)%Z; [discriminate|].
      injection Hreq as <- <-. cbn. apply lookup_insert_eq.
  - intros x Hx. apply known_values_spec in Hx. tauto.
Qed.

Lemma require_caches_witness :
  Secrets.require ∅ "ARIA_KEY" 100
    (snd (Secrets.require {[ "ARIA_KEY" := "  secret-value " ]} "ARIA_KEY" 8 Secrets.init))
  = (Ok "secret-value",
     snd (Secrets.require {[ "ARIA_KEY" := "  secret-value " ]} "ARIA_KEY" 8 Secrets.init)).
Proof.
  assert (H : fst (Secrets.require {[ "ARIA_KEY" := "  secret-value " ]} "ARIA_KEY" 8
                     Secrets.init) = Ok "secret-value") by (vm_compute; reflexivity).
  exact (proj1 (require_caches _ _ _ _ _ _ (run_eta _ _ H)) ∅ 100).
Defined.

Lemma optional_then_require_witness :
  Secrets.require ∅ "ARIA_PIN" 8
    (snd (Secrets.optional {[ "ARIA_PIN" := "abc" ]} "ARIA_PIN" "" Secrets.init))
  = (Ok "abc",
     snd (Secrets.optional {[ "ARIA_PIN" := "abc" ]} "ARIA_PIN" "" Secrets.init)).
Proof.
  assert (H : fst (Secrets.optional {[ "ARIA_PIN" := "abc" ]} "ARIA_PIN" ""
                     Secrets.init) = "abc") by (vm_compute; reflexivity).
  refine (optional_then_require {[ "ARIA_PIN" := "abc" ]} "ARIA_PIN" "" Secrets.init
            "abc" _ _ _ ∅ 8).
  - rewrite <- H at 1. apply surjective_pairing.
  - discriminate.
Defined.

Lemma required_secret_is_known_witness :
  "secret-value" ∈
    Secrets.known_values
      (snd (Secrets.require {[ "ARIA_KEY" := "  secret-value " ]} "ARIA_KEY" 8
              Secrets.init)).
Proof.
  assert (H : fst (Secrets.require {[ "ARIA_KEY" := "  secret-value " ]} "ARIA_KEY" 8
                     Secrets.init) = Ok "secret-value") by (vm_compute; reflexivity).
  apply (proj1 (required_secret_is_known _ _ _ _ _ _ (run_eta _ _ H))).
  vm_compute. discriminate.
Defined.

(** ** Log scrubber *)

(** No value is left under a key that names a secret, at any depth. *)
Fixpoint keys_redacted (v : json) : Prop :=
  match v with
  | JDict d =>
      (fix items (d : list (string * json)) : Prop :=
         match d with
         | [] => True
         | (k, x) :: d' =>
             (if Scrub.secret_key k then x = JStr Scrub._REDACTED else keys_redacted x)
             /\ items d'
         end) d
  | JList l =>
      (fix elements (l : list json) : Prop :=
         match l with
         | [] => True
         | x :: l' => keys_redacted x /\ elements l'
         end) l
  | _ => True
  end.

Lemma scrub_value_redacts secret_sub known :
  forall v, keys_redacted (Scrub.scrub_value secret_sub known v).
Proof.
  fix IH 1. intros [| | | |s|l|d]; cbn [Scrub.scrub_value keys_redacted]; try exact I.
  - induction l as [|x l IHl]; [exact I|]. split; [apply IH|exact IHl].
  - induction d as [|[k x] d IHd]; [exact I|]. split; [|exact IHd].
    destruct (Scrub.secret_key k); [reflexivity|apply IH].
Qed.

(** X17. In the output of [scrub_record] and of [scrub_value], every key
    whose lower-cased name contains one of the secret words carries
    "[REDACTED]", whatever its value was, in dicts nested at any depth of
    dicts and lists; the keys themselves and their order are kept. *)
Theorem scrub_record_redacts_secret_keys secret_sub known record :
  keys_redacted (JDict (Scrub.scrub_record secret_sub known record)) /\
  map fst (Scrub.scrub_record secret_sub known record) = map fst record /\
  forall v, keys_redacted (Scrub.scrub_value secret_sub known v).
Proof.
  split; [|split].
  - unfold Scrub.scrub_record. cbn [keys_redacted].
    induction record as [|[k x] d IHd]; [exact I|]. cbn [map]. split; [|exact IHd].
    destruct (Scrub.secret_key k); [reflexivity|apply scrub_value_redacts].
  - unfold Scrub.scrub_record. rewrite map_map. apply map_ext. intros [k x]. reflexivity.
  - apply scrub_value_redacts.
Qed.

Example scrub_record_nested :
  Scrub.scrub_record (fun s => s) ["hunter2hunter2"]
    [("event", JStr "login with hunter2hunter2");
     ("request", JDict [("X-Api-Key", JStr "abc"); ("items", JList [JDict [("Password", JInt 1)]])])]
  = [("event", JStr "login with [REDACTED]");
     ("request", JDict [("X-Api-Key", JStr "abc"); ("items", JList [JDict [("Password", JStr "[REDACTED]")]])])].
Proof. vm_compute. reflexivity. Qed.

(** ** Anthropic adapter *)

(** The role under which a message is sent. *)
Definition api_role (r : MessageRole) : string :=
  match r with
  | ASSISTANT => "assistant"
  | _ => "user"
  end.

(** X19. [_build_messages] drops the messages of role system and sends
    every other message as exactly one API message, in order: an assistant
    message under the role "assistant", a user message and a tool result
    under the role "user". No API message has another role. *)
Theorem build_messages_roles messages :
  map (fun m => match m with JDict d => dict_get "role" d | _ => None end)
      (AnthropicApi._build_messages messages)
  = map (fun msg => Some (JStr (api_role (Message.role msg))))
        (List.filter (fun msg => match Message.role msg with SYSTEM => false | _ => true end)
           messages).
Proof.
  induction messages as [|msg rest IH]; [reflexivity|].
  cbn [AnthropicApi._build_messages List.filter].
  destruct (Message.role msg) eqn:Hrole; cbn [map]; rewrite ?Hrole, IH; reflexivity.
Qed.

(** X20. [_parse_response] never builds a response that its own
    constructor check refuses: what it returns has a tool call when its
    action is tool_call and a non-empty answer when it is final_answer; it
    answers with a tool call exactly when some block has the type
    "tool_use", whatever text the response carries as well; and it raises
    only ModelOutputValidationError (no text), or AttributeError when the
    first block of type "tool_use" lacks [id], [name] or [input]. *)
Theorem parse_response_is_valid L response model provider :
  match AnthropicApi._parse_response L response model provider with
  | Ok r =>
      RawModelResponse.post_init_ok r = true /\
      (RawModelResponse.action r = TOOL_CALL <->
       existsb (fun b => bool_decide (AnthropicApi.type b = "tool_use"))
               (AnthropicApi.content response) = true)
  | Raise e => In (type_of e) [ModelOutputValidationError; AttributeError]
  end.
Proof.
  unfold AnthropicApi._parse_response, AnthropicApi.first_tool_use.
  destruct (List.find _ (AnthropicApi.content response)) as [block|] eqn:Hfind.
  - unfold AnthropicApi.getattr.
    destruct (AnthropicApi.block_id block); [|cbn; auto].
    destruct (AnthropicApi.block_name block); [|cbn; auto].
    destruct (AnthropicApi.block_input block); [|cbn; auto].
    cbn. split; [reflexivity|]. split; [intros _|reflexivity].
    apply existsb_exists. exists block. apply find_some in Hfind. exact Hfind.
  - destruct (bool_decide_reflect
                (strip (String.concat " " (AnthropicApi.texts
                                             (AnthropicApi.content response))) = ""))
      as [Hempty|Hfull].
    + cbn. auto.
    + remember (strip _) as text eqn:Htext. clear Htext.
      generalize (Sha256.sha256_str
                    (json_dumps L
                       (JDict [("model", JStr model);
                               ("id", JStr (default "" (AnthropicApi.id response)))]))).
      intros h.
      unfold AnthropicApi.new_RawModelResponse, RawModelResponse.post_init_ok.
      cbv [RawModelResponse.action RawModelResponse.tool_call
           RawModelResponse.final_answer].
      rewrite (bool_decide_eq_false_2 _ Hfull).
      change (bool_decide (FINAL_ANSWER = TOOL_CALL)) with false.
      cbn. rewrite andb_false_r. cbv beta iota.
      rewrite (bool_decide_eq_false_2 _ Hfull), andb_false_r.
      split; [reflexivity|].
      split; [discriminate|]. intros Hex. apply existsb_exists in Hex.
      destruct Hex as [b [Hin Hb]].
      pose proof (find_none _ _ Hfind b Hin) as Hnone. cbn in Hnone.
      rewrite Hb in Hnone. discriminate.
Qed.

(** ** Tool registry *)

(** The registries a program can hold: a new one, and what [_register]
    leaves, whether it returns or raises. *)
Inductive registered (config : KernelConfig.t) : Registry.ToolRegistry -> Prop :=
| reg_init : registered config RegistryBuild.init
| reg_register cls module_path r :
    registered config r ->
    registered config (snd (RegistryBuild._register config cls module_path r)).

Lemma assoc_app_none {A : Type} k (l1 l2 : list (string * A)) :
  Registry.assoc k l1 = None -> Registry.assoc k (l1 ++ l2) = Registry.assoc k l2.
Proof.
  induction l1 as [|[k' v] l1 IH]; cbn; [reflexivity|].
  destruct (bool_decide (k' = k)); [discriminate|exact IH].
Qed.

Lemma assoc_app_some {A : Type} k (l1 l2 : list (string * A)) v :
  Registry.assoc k l1 = Some v -> Registry.assoc k (l1 ++ l2) = Some v.
Proof.
  induction l1 as [|[k' v'] l1 IH]; cbn; [discriminate|].
  destruct (bool_decide (k' = k)); [intros H; exact H|exact IH].
Qed.

Lemma assoc_in {A : Type} k (l : list (string * A)) v :
  Registry.assoc k l = Some v -> In (k, v) l.
Proof.
  induction l as [|[k' v'] l IH]; cbn; [discriminate|].
  destruct (bool_decide_reflect (k' = k)) as [->|Hne].
  - intros [= ->]. left. reflexivity.
  - intros H. right. apply IH. exact H.
Qed.

Lemma dict_set_new {A : Type} k (v : A) d :
  Registry.assoc k d = None -> RegistryBuild.dict_set k v d = d ++ [(k, v)].
Proof.
  induction d as [|[k' v'] d IH]; cbn; [reflexivity|].
  destruct (bool_decide (k' = k)); [discriminate|].
  intros H. rewrite (IH H). reflexivity.
Qed.

(** What every entry of a registry satisfies. *)
Definition entry_ok (config : KernelConfig.t) (entry : string * ToolManifest.t) : Prop :=
  ToolManifest.name (snd entry) = fst entry /\
  RegistryBuild.disallowed config (snd entry) = [].

Lemma registered_inv config r :
  registered config r ->
  List.NoDup (map fst (Registry._manifests r)) /\
  Forall (entry_ok config) (Registry._manifests r).
Proof.
  induction 1 as [|cls module_path r Hr [Hnd Hall]].
  - split; constructor.
  - unfold RegistryBuild._register.
    destruct (RegistryBuild.manifest cls) as [m|]; [|auto].
    destruct (RegistryBuild.has_execute cls); cbn [negb]; [|auto].
    destruct (RegistryBuild.disallowed config m) eqn:Hdis; [|auto].
    unfold Registry.has_tool.
    destruct (Registry.assoc (ToolManifest.name m) (Registry._manifests r)) eqn:Hfind;
      [auto|].
    cbn [snd Registry._manifests].
    rewrite (dict_set_new _ _ _ Hfind). split.
    + rewrite map_app. cbn. apply NoDup_ListNoDup, NoDup_app.
      split; [apply NoDup_ListNoDup; exact Hnd|]. split; [|apply NoDup_singleton].
      intros x Hx [Heq|[]]%list_elem_of_In. subst x.
      apply list_elem_of_In, in_map_iff in Hx. destruct Hx as [[k v] [Hk Hin]].
      cbn in Hk. subst k.
      assert (Registry.assoc (ToolManifest.name m) (Registry._manifests r) <> None)
        as Hsome.
      { clear -Hin. induction (Registry._manifests r) as [|[k' v'] l IH]; [destruct Hin|].
        cbn. destruct (bool_decide_reflect (k' = ToolManifest.name m)); [discriminate|].
        apply IH. destruct Hin as [[= -> ->]|Hin]; [contradiction|exact Hin]. }
      contradiction.
    + apply Forall_app. split; [exact Hall|]. constructor; [|constructor].
      split; [reflexivity|exact Hdis].
Qed.

(** X18. In a registry filled through [_register], tool names are unique,
    and a manifest that [get_manifest] returns for a name carries that name
    and no permission outside the configuration's [allowed_permissions]: the
    list of disallowed permissions that the kernel computes before running
    a tool is empty. *)
Theorem registered_tools_are_permitted config r name m :
  registered config r ->
  Registry.get_manifest name r = Ok m ->
  ToolManifest.name m = name /\
  List.filter (fun p => negb (bool_decide (p ∈ KernelConfig.allowed_permissions config)))
              (ToolManifest.permissions m) = [] /\
  List.NoDup (map fst (Registry._manifests r)).
Proof.
  intros Hr Hget. destruct (registered_inv config r Hr) as [Hnd Hall].
  unfold Registry.get_manifest in Hget.
  destruct (Registry.assoc name (Registry._manifests r)) as [m'|] eqn:Hfind;
    [|discriminate].
  injection Hget as ->. apply assoc_in in Hfind.
  rewrite Forall_forall in Hall. destruct (Hall _ (proj2 (list_elem_of_In _ _) Hfind)) as [Hname Hdis].
  split; [exact Hname|]. split; [exact Hdis|exact Hnd].
Qed.

Lemma registered_tools_are_permitted_witness :
  ToolManifest.name Scenario.lenient_manifest = "noop_tool" /\
  List.filter (fun p => negb (bool_decide
                 (p ∈ KernelConfig.allowed_permissions
                        (Scenario.config "mock" "mock-model" 5))))
              (ToolManifest.permissions Scenario.lenient_manifest) = [] /\
  List.NoDup (map fst (Registry._manifests
                (snd (RegistryBuild._register (Scenario.config "mock" "mock-model" 5)
                        (RegistryBuild.mkClass "ToolPlugin" (Some Scenario.lenient_manifest) true)
                        "/plugins/noop_tool.py" RegistryBuild.init)))).
Proof.
  apply (registered_tools_are_permitted (Scenario.config "mock" "mock-model" 5)
           (snd (RegistryBuild._register (Scenario.config "mock" "mock-model" 5)
                   (RegistryBuild.mkClass "ToolPlugin" (Some Scenario.lenient_manifest) true)
                   "/plugins/noop_tool.py" RegistryBuild.init))
           "noop_tool" Scenario.lenient_manifest).
  - apply reg_register, reg_init.
  - reflexivity.
Defined.
